(** * Verification of the crawl4ai command-line crawler

    Shallow embedding of [webscraper_crawl4ai.py]: the filename derivation
    [get_filename_from_url], the configuration phase of [main], and the two
    result-processing loops (streaming and batch), followed by the
    properties the specification states about them. *)

From Stdlib Require Import ZArith NArith QArith_base List Ascii String Bool Lia.
From stdpp Require Import base option list gmap sorting.

Open Scope Z_scope.

(** ** Python values *)

(** A Python [str] is a sequence of Unicode code points. *)
Definition char := N.
Abbreviation pystr := (list N).

(** A literal of the source, read as code points (all literals are ASCII). *)
Fixpoint lit (s : string) : pystr :=
  match s with
  | EmptyString => []
  | String a rest => N_of_ascii a :: lit rest
  end.

(** Exceptions of the Python runtime that the modelled code can raise. *)
Inductive Exn := IndexError | ValueError | AttributeError.

(** Outcome of fallible code: a value, or a raised exception. *)
Inductive result (A : Type) :=
| Ok (a : A)
| Raise (e : Exn).
Arguments Ok {A} a.
Arguments Raise {A} e.

#[global] Instance result_ret : MRet result := fun _ a => Ok a.
#[global] Instance result_bind : MBind result := fun _ _ f m =>
  match m with
  | Ok a => f a
  | Raise e => Raise e
  end.

Definition is_ok {A} (m : result A) : bool :=
  match m with Ok _ => true | Raise _ => false end.

#[global] Instance Exn_eq_dec : EqDecision Exn.
Proof. solve_decision. Defined.

(** Truth value of a string: non-empty. *)
Definition truthy (s : pystr) : bool :=
  match s with [] => false | _ :: _ => true end.

(** [x or ''] for an optional string. *)
Definition or_empty (o : option pystr) : pystr :=
  match o with
  | Some s => s
  | None => []
  end.

Module Str.

Definition slash : char := 47%N.
Definition dot : char := 46%N.
Definition qmark : char := 63%N.
Definition hash : char := 35%N.
Definition underscore : char := 95%N.
Definition hyphen : char := 45%N.
Definition newline : char := 10%N.

(** [c in s] *)
Definition contains (c : char) (s : pystr) : bool :=
  existsb (N.eqb c) s.

(** [s.rstrip(c)] for a one-character argument. *)
Fixpoint rstrip (c : char) (s : pystr) : pystr :=
  match s with
  | [] => []
  | x :: rest =>
      match rstrip c rest with
      | [] => if N.eqb x c then [] else [x]
      | r => x :: r
      end
  end.

(** [s.split(c)] for a one-character separator: the pieces between the
    occurrences of [c], always at least one piece. *)
Fixpoint split (c : char) (s : pystr) : list pystr :=
  match s with
  | [] => [[]]
  | x :: rest =>
      if N.eqb x c then [] :: split c rest
      else match split c rest with
           | [] => [[x]]
           | p :: ps => (x :: p) :: ps
           end
  end.

(** [l[-k]] for [k >= 1]: the k-th element from the end; out of range
    raises [IndexError]. *)
Definition index_from_end {A} (l : list A) (k : nat) : result A :=
  match k with
  | O => Raise IndexError
  | S k' =>
      match rev l !! k' with
      | Some x => Ok x
      | None => Raise IndexError
      end
  end.

End Str.

(** ** Library interface

    [urlparse] belongs to Python's [urllib.parse] and the table of
    alphanumeric code points to its Unicode database; neither is part of
    the program. They are taken as given. *)

Record ParseResult := {
  scheme : pystr;
  netloc : pystr;
  path : pystr;
  params : pystr;
  query : pystr;
  fragment : pystr;
}.

Class PyLib := {
  (** [urllib.parse.urlparse]; it may raise [ValueError]. *)
  urlparse : pystr → result ParseResult;
  (** [str.isalnum] on code points above 127. *)
  unicode_isalnum : char → bool;
  (** [str.upper] *)
  str_upper : pystr → pystr;
}.

(** ** Regular expressions of the source *)

Module Re.
Import Str.

Definition ascii_alnum (c : char) : bool :=
  ((48 <=? c) && (c <=? 57) || (65 <=? c) && (c <=? 90)
   || (97 <=? c) && (c <=? 122))%N.

(** [\w] on a [str] pattern: alphanumeric or underscore. *)
Definition is_word `{PyLib} (c : char) : bool :=
  if (c <? 128)%N then ascii_alnum c || N.eqb c underscore
  else unicode_isalnum c.

(** The class [[^\w\-\.]] . *)
Definition is_invalid `{PyLib} (c : char) : bool :=
  negb (is_word c || N.eqb c hyphen || N.eqb c dot).

(** [.*$] matched at the start of [s]: [.] takes every character but a
    newline and [$] holds at the end of the string or just before a
    final newline. The result is what is left of [s] after the match. *)
Fixpoint dot_star_eol (s : pystr) : option pystr :=
  match s with
  | [] => Some []
  | x :: rest =>
      if N.eqb x newline then
        match rest with
        | [] => Some [newline]
        | _ :: _ => None
        end
      else dot_star_eol rest
  end.

(** [re.sub(r'[\?#].*$', '', s)] *)
Fixpoint sub_query_fragment (s : pystr) : pystr :=
  match s with
  | [] => []
  | x :: rest =>
      if N.eqb x qmark || N.eqb x hash then
        match dot_star_eol rest with
        | Some remaining => remaining
        | None => x :: sub_query_fragment rest
        end
      else x :: sub_query_fragment rest
  end.

(** [re.sub(r'[^\w\-\.]', '_', s)] *)
Definition sub_invalid `{PyLib} (s : pystr) : pystr :=
  map (fun c => if is_invalid c then underscore else c) s.

End Re.

(** ** [get_filename_from_url] (source lines 31-71) *)

Section Filename.
Context `{PyLib}.
Import Str.

Definition get_filename_from_url (url : pystr) : result pystr :=
  parsed_url ← urlparse url;
  let path := rstrip slash (path parsed_url) in
  filename ←
    (if truthy path && contains slash path then
       let path_parts := split slash path in
       last_part ← index_from_end path_parts 1;
       parent_part ←
         (if (2 <=? length path_parts)%nat
          then index_from_end path_parts 2
          else Ok []);
       if truthy parent_part
       then Ok (parent_part ++ [underscore] ++ last_part)
       else Ok last_part
     else if truthy path then Ok path
     else index_from_end (split dot (netloc parsed_url)) 2);
  let filename := Re.sub_query_fragment filename in
  let filename := if truthy filename then filename else lit "index" in
  Ok (Re.sub_invalid filename).

(** The characters that [[^\w\-\.]] leaves in place: word characters,
    hyphens and dots. *)
Definition filename_char (c : char) : bool :=
  Re.is_word c || N.eqb c hyphen || N.eqb c dot.

End Filename.


(** ** Command-line arguments (source lines 76-172)

    One field per [add_argument]; floats are exact rationals, an option
    without default is [None] when it is not given. *)

Inductive ContentFilterChoice := pruning | bm25 | llm.
Inductive ThresholdTypeChoice := fixed | dynamic.
Inductive DispatcherChoice := memory | semaphore.
Inductive CacheModeChoice := enabled | bypass | refresh.

Module Args.
Record t := {
  url : pystr;
  max_depth : Z;
  max_pages : option Z;
  include_external : bool;
  verbose : bool;
  url_patterns : option (list pystr);
  allowed_domains : option (list pystr);
  blocked_domains : option (list pystr);
  allowed_content_types : option (list pystr);
  content_filter : option ContentFilterChoice;
  pruning_threshold : Q;
  threshold_type : ThresholdTypeChoice;
  min_word_threshold : Z;
  user_query : option pystr;
  bm25_threshold : Q;
  use_stemming : bool;
  llm_provider : pystr;
  llm_api_token : option pystr;
  llm_instruction : pystr;
  chunk_token_threshold : Z;
  llm_verbose : bool;
  ignore_links : bool;
  ignore_images : bool;
  escape_html : bool;
  body_width : Z;
  skip_internal_links : bool;
  save_markdown : bool;
  output_dir : pystr;
  enable_rate_limiter : bool;
  base_delay : Q * Q;
  max_delay : Q;
  max_retries : Z;
  dispatcher : DispatcherChoice;
  memory_threshold : Q;
  check_interval : Q;
  max_concurrent : Z;
  stream : bool;
  enable_monitor : bool;
  cache_mode : CacheModeChoice;
}.
End Args.

(** Truth value of an optional list: [None] and [[]] are false. *)
Definition list_truthy {A} (o : option (list A)) : bool :=
  match o with
  | Some (_ :: _) => true
  | _ => false
  end.

(** [o or []] *)
Definition or_nil {A} (o : option (list A)) : list A :=
  match o with
  | Some (x :: l) => x :: l
  | _ => []
  end.

(** ** Objects of the crawl4ai package, as the source constructs them *)

Module Crawl4ai.

Inductive Filter :=
| URLPatternFilter (patterns : list pystr)
| DomainFilter (allowed_domains blocked_domains : list pystr)
| ContentTypeFilter (allowed_types : list pystr).

Record FilterChain := { filters : list Filter }.

Record BFSDeepCrawlStrategy := {
  max_depth : Z;
  include_external : bool;
  (** [None] stands for an absent chain. *)
  filter_chain : option FilterChain;
  (** [None]: the attribute keeps the constructor's default. *)
  max_pages : option Z;
}.

Record LLMConfig := {
  provider : pystr;
  api_token : option pystr;
}.

Inductive ContentFilter :=
| PruningContentFilter (threshold : Q) (threshold_type : ThresholdTypeChoice)
    (min_word_threshold : Z)
| BM25ContentFilter (user_query : option pystr) (bm25_threshold : Q)
    (use_stemming : bool)
| LLMContentFilter (llm_config : LLMConfig) (instruction : pystr)
    (chunk_token_threshold : Z) (verbose : bool).

Inductive OptionValue := VBool (b : bool) | VInt (n : Z).

Record DefaultMarkdownGenerator := {
  content_filter : option ContentFilter;
  options : gmap pystr OptionValue;
}.

(** The members of crawl4ai's [CacheMode]; there is no [REFRESH]. *)
Inductive CacheMode := ENABLED | DISABLED | READ_ONLY | WRITE_ONLY | BYPASS.

Record CrawlerRunConfig := {
  deep_crawl_strategy : BFSDeepCrawlStrategy;
  verbose : bool;
  markdown_generator : option DefaultMarkdownGenerator;
  stream : bool;
  cache_mode : CacheMode;
}.

Record RateLimiter := {
  base_delay : Q * Q;
  max_delay : Q;
  max_retries : Z;
}.

Inductive CrawlerMonitor := Monitor.

Inductive Dispatcher :=
| MemoryAdaptiveDispatcher (memory_threshold_percent check_interval : Q)
    (max_session_permit : Z) (rate_limiter : option RateLimiter)
    (monitor : option CrawlerMonitor)
| SemaphoreDispatcher (max_session_permit : Z)
    (rate_limiter : option RateLimiter) (monitor : option CrawlerMonitor).

(** [result.markdown]. [fit_markdown] is [None] when the object has no such
    attribute, [Some None] when the attribute holds [None]. *)
Record MarkdownGenerationResult := {
  raw_markdown : option pystr;
  fit_markdown : option (option pystr);
}.

(** A [CrawlResult], with the attributes [main] reads. [markdown] is
    [Some] exactly when [hasattr(result, 'markdown') and result.markdown]
    holds. *)
Record CrawlResult := {
  url : pystr;
  success : bool;
  metadata : gmap pystr Z;
  markdown : option MarkdownGenerationResult;
}.

End Crawl4ai.

(** The crawler itself: [crawler.arun(url, config=..., dispatcher=...)]
    yields the results of the crawl, one after the other in streaming mode
    and as a list in batch mode. *)
Class Crawler := {
  arun : pystr → Crawl4ai.CrawlerRunConfig → Crawl4ai.Dispatcher →
         list Crawl4ai.CrawlResult;
}.

(** ** What the program prints

    Each [print] of the source is one event carrying the values that the
    format string interpolates. *)
Inductive Msg :=
| MsgUsingPruning (threshold : Q) (type : ThresholdTypeChoice) (min_words : Z)
| MsgWarnNoQuery
| MsgUsingBM25 (query : pystr) (threshold : Q) (stemming : bool)
| MsgUsingLLM (provider : pystr) (chunk_token_threshold : Z)
| MsgLLMInstruction (instruction : pystr)
| MsgTokenFromCLI
| MsgTokenFromEnv (env_var_name : pystr)
| MsgMarkdownWithFilter (choice : ContentFilterChoice)
| MsgMarkdownDefault
| MsgMarkdownOptions (options : gmap pystr Crawl4ai.OptionValue)
| MsgRateLimiter (base_delay : Q * Q) (max_delay : Q) (max_retries : Z)
| MsgMonitor
| MsgMemoryDispatcher (memory_threshold : Q) (max_concurrent : Z)
| MsgSemaphoreDispatcher (max_concurrent : Z)
| MsgStreamingBanner
| MsgProcessingBanner
| MsgProcessed (total_pages : nat) (url : pystr) (depth : Z)
| MsgSavedFiltered (url filename : pystr)
| MsgSaved (url filename : pystr)
| MsgResultsBanner
| MsgTotal (pages : nat)
| MsgDepth (depth : Z) (pages : nat)
| MsgUrl (url : pystr)
| MsgMore (pages : nat)
| MsgSavingBanner
| MsgSavedTo (output_dir : pystr) (* printed through [os.path.abspath] *)
| MsgNoMarkdown
| MsgError (e : Exn)
| MsgTracebackBanner
| MsgTraceback (e : Exn).

(** ** Effects: standard output and the files written

    The program only ever appends to its output: it prints, creates
    directories and writes files, and never reads any of it back. A
    computation is therefore the output it produced together with its
    value, or with the exception that stopped it. The calls to the file
    system ([os.makedirs], [open], [write]) are taken to succeed: an
    [OSError] of theirs is outside this model, and so is an exception
    raised inside the crawler, whose results are given. *)

Record Output := {
  stdout : list Msg;
  (** every [f.write], as (path, content), oldest first *)
  written : list (pystr * pystr);
  (** every [os.makedirs(..., exist_ok=True)], oldest first *)
  made_dirs : list pystr;
}.

Definition silent : Output :=
  {| stdout := []; written := []; made_dirs := [] |}.

Definition out_app (o1 o2 : Output) : Output :=
  {| stdout := stdout o1 ++ stdout o2;
     written := written o1 ++ written o2;
     made_dirs := made_dirs o1 ++ made_dirs o2 |}.

Definition M (A : Type) : Type := (Output * result A)%type.

#[global] Instance M_ret : MRet M := fun _ a => (silent, Ok a).
#[global] Instance M_bind : MBind M := fun _ _ f m =>
  match m with
  | (o1, Ok a) => let '(o2, r) := f a in (out_app o1 o2, r)
  | (o1, Raise e) => (o1, Raise e)
  end.

Definition print (m : Msg) : M unit :=
  ({| stdout := [m]; written := []; made_dirs := [] |}, Ok tt).

Definition write_file (path content : pystr) : M unit :=
  ({| stdout := []; written := [(path, content)]; made_dirs := [] |}, Ok tt).

Definition makedirs (path : pystr) : M unit :=
  ({| stdout := []; written := []; made_dirs := [path] |}, Ok tt).

(** A pure computation that may raise, run inside [M]. *)
Definition lift {A} (r : result A) : M A := (silent, r).

(** [if c: body] *)
Definition when (c : bool) (body : M unit) : M unit :=
  if c then body else mret tt.

(** [for x in l: s = body(s, x)] *)
Fixpoint for_each {A S} (body : S → A → M S) (s : S) (l : list A) : M S :=
  match l with
  | [] => mret s
  | x :: l' => s' ← body s x; for_each body s' l'
  end.

(** [os.path.join(a, b)] on a POSIX system. *)
Definition os_path_join (a b : pystr) : pystr :=
  match b with
  | c :: _ =>
      if N.eqb c Str.slash then b
      else if negb (truthy a) || bool_decide (last a = Some Str.slash)
           then a ++ b
           else a ++ [Str.slash] ++ b
  | [] =>
      if negb (truthy a) || bool_decide (last a = Some Str.slash)
      then a
      else a ++ [Str.slash]
  end.

(** ** [main] (source lines 74-469) *)

(** The loop variables of the result-processing code. *)
Record Locals := {
  total_pages : nat;
  markdown_count : nat;
  pages_by_depth : gmap Z (list pystr);
}.

(** [if depth not in pages_by_depth: pages_by_depth[depth] = []]
    followed by [pages_by_depth[depth].append(url)]. *)
Definition bucket_append (depth : Z) (url : pystr)
    (pages_by_depth : gmap Z (list pystr)) : gmap Z (list pystr) :=
  let pages_by_depth :=
    match pages_by_depth !! depth with
    | None => <[depth := []]> pages_by_depth
    | Some _ => pages_by_depth
    end in
  alter (fun urls => urls ++ [url]) depth pages_by_depth.

(** [result.metadata.get("depth", 0)] *)
Definition depth_of (result : Crawl4ai.CrawlResult) : Z :=
  default 0 (Crawl4ai.metadata result !! lit "depth").

(** [sorted(pages_by_depth.items())]: the keys are distinct, so the pairs
    are ordered by depth. *)
Definition depth_le (p q : Z * list pystr) : Prop := p.1 ≤ q.1.

#[global] Instance depth_le_dec : RelDecision depth_le.
Proof. intros p q. unfold depth_le. apply _. Defined.

Definition sorted_items (pages_by_depth : gmap Z (list pystr))
    : list (Z * list pystr) :=
  merge_sort depth_le (map_to_list pages_by_depth).

Section Main.
Context `{PyLib} `{Crawler}.
Import Crawl4ai.

(** Lines 176-188. *)
Definition build_filters (args : Args.t) : list Filter :=
  let filters := [] in
  let filters :=
    if list_truthy (Args.url_patterns args)
    then filters ++ [URLPatternFilter (or_nil (Args.url_patterns args))]
    else filters in
  let filters :=
    if list_truthy (Args.allowed_domains args)
       || list_truthy (Args.blocked_domains args)
    then filters ++ [DomainFilter (or_nil (Args.allowed_domains args))
                                  (or_nil (Args.blocked_domains args))]
    else filters in
  let filters :=
    if list_truthy (Args.allowed_content_types args)
    then filters ++
         [ContentTypeFilter (or_nil (Args.allowed_content_types args))]
    else filters in
  filters.

(** Lines 190-203: the chain is always built, also from an empty list of
    filters, and [max_pages] is set only when the option was given. *)
Definition build_strategy (args : Args.t) : BFSDeepCrawlStrategy :=
  let chain := {| filters := build_filters args |} in
  {| max_depth := Args.max_depth args;
     include_external := Args.include_external args;
     filter_chain := Some chain;
     max_pages :=
       match Args.max_pages args with
       | Some n => Some n
       | None => None
       end |}.

(** Lines 205-216. *)
Definition build_markdown_options (args : Args.t) : gmap pystr OptionValue :=
  let markdown_options : gmap pystr OptionValue := ∅ in
  let markdown_options :=
    if Args.ignore_links args
    then <[lit "ignore_links" := VBool true]> markdown_options
    else markdown_options in
  let markdown_options :=
    if Args.ignore_images args
    then <[lit "ignore_images" := VBool true]> markdown_options
    else markdown_options in
  let markdown_options :=
    if Args.escape_html args
    then <[lit "escape_html" := VBool true]> markdown_options
    else markdown_options in
  let markdown_options :=
    if 0 <? Args.body_width args
    then <[lit "body_width" := VInt (Args.body_width args)]> markdown_options
    else markdown_options in
  let markdown_options :=
    if Args.skip_internal_links args
    then <[lit "skip_internal_links" := VBool true]> markdown_options
    else markdown_options in
  markdown_options.

(** Lines 218-263. *)
Definition build_content_filter (args : Args.t) : M (option ContentFilter) :=
  match Args.content_filter args with
  | Some pruning =>
      let content_filter :=
        PruningContentFilter (Args.pruning_threshold args)
          (Args.threshold_type args) (Args.min_word_threshold args) in
      print (MsgUsingPruning (Args.pruning_threshold args)
               (Args.threshold_type args) (Args.min_word_threshold args));;
      mret (Some content_filter)
  | Some bm25 =>
      when (negb (truthy (or_empty (Args.user_query args))))
        (print MsgWarnNoQuery);;
      let content_filter :=
        BM25ContentFilter (Args.user_query args) (Args.bm25_threshold args)
          (Args.use_stemming args) in
      print (MsgUsingBM25
               (if truthy (or_empty (Args.user_query args))
                then or_empty (Args.user_query args) else lit "None")
               (Args.bm25_threshold args) (Args.use_stemming args));;
      mret (Some content_filter)
  | Some llm =>
      let llm_config :=
        {| provider := Args.llm_provider args;
           api_token := Args.llm_api_token args |} in
      let content_filter :=
        LLMContentFilter llm_config (Args.llm_instruction args)
          (Args.chunk_token_threshold args) (Args.llm_verbose args) in
      print (MsgUsingLLM (Args.llm_provider args)
               (Args.chunk_token_threshold args));;
      print (MsgLLMInstruction (Args.llm_instruction args));;
      (if truthy (or_empty (Args.llm_api_token args))
       then print MsgTokenFromCLI
       else
         let provider_prefix :=
           str_upper (hd [] (Str.split Str.slash (Args.llm_provider args))) in
         let env_var_name := provider_prefix ++ lit "_API_KEY" in
         print (MsgTokenFromEnv env_var_name));;
      mret (Some content_filter)
  | None => mret None
  end.

(** Line 285: [getattr(CacheMode, args.cache_mode.upper())]. The parser
    accepts the choice [refresh], but [CacheMode] has no member [REFRESH]
    and [getattr] raises [AttributeError]. *)
Definition cache_mode_of (c : CacheModeChoice) : result CacheMode :=
  match c with
  | enabled => Ok ENABLED
  | bypass => Ok BYPASS
  | refresh => Raise AttributeError
  end.

(** What the configuration phase hands to the crawler. *)
Record Setup := {
  setup_config : CrawlerRunConfig;
  setup_dispatcher : Dispatcher;
}.

(** Lines 176-323. The arguments of [CrawlerRunConfig] are evaluated
    after the markdown announcements and before the rate limiter is built;
    the last of them is where the phase can raise. *)
Definition configure (args : Args.t) : M Setup :=
  let strategy := build_strategy args in
  let markdown_options := build_markdown_options args in
  content_filter ← build_content_filter args;
  let md_generator :=
    {| content_filter := content_filter; options := markdown_options |} in
  when (Args.save_markdown args)
    (match Args.content_filter args with
     | Some choice => print (MsgMarkdownWithFilter choice)
     | None =>
         print MsgMarkdownDefault;;
         when (0 <? size markdown_options)%nat
           (print (MsgMarkdownOptions markdown_options))
     end);;
  mode ← lift (cache_mode_of (Args.cache_mode args));
  let config :=
    {| deep_crawl_strategy := strategy;
       verbose := Args.verbose args;
       markdown_generator :=
         if Args.save_markdown args then Some md_generator else None;
       stream := Args.stream args;
       cache_mode := mode |} in
  rate_limiter ←
    (if Args.enable_rate_limiter args then
       let rate_limiter :=
         {| base_delay := Args.base_delay args;
            max_delay := Args.max_delay args;
            max_retries := Args.max_retries args |} in
       print (MsgRateLimiter (Args.base_delay args) (Args.max_delay args)
                (Args.max_retries args));;
       mret (Some rate_limiter)
     else mret None);
  monitor ←
    (if Args.enable_monitor args
     then print MsgMonitor;; mret (Some Monitor)
     else mret None);
  dispatcher ←
    match Args.dispatcher args with
    | memory =>
        print (MsgMemoryDispatcher (Args.memory_threshold args)
                 (Args.max_concurrent args));;
        mret (MemoryAdaptiveDispatcher (Args.memory_threshold args)
                (Args.check_interval args) (Args.max_concurrent args)
                rate_limiter monitor)
    | semaphore =>
        print (MsgSemaphoreDispatcher (Args.max_concurrent args));;
        mret (SemaphoreDispatcher (Args.max_concurrent args)
                rate_limiter monitor)
    end;
  mret {| setup_config := config; setup_dispatcher := dispatcher |}.

(** Lines 356-379 and 434-457: the two loops save a result with the same
    statements. With a content filter selected and a [fit_markdown]
    attribute on the markdown object only the filtered markdown is saved;
    otherwise the raw markdown is. *)
Definition save_result (args : Args.t) (result : CrawlResult)
    (md : MarkdownGenerationResult) : M unit :=
  filename ← lift (get_filename_from_url (url result));
  match Args.content_filter args, fit_markdown md with
  | Some _, Some fit =>
      let md_content :=
        lit "# " ++ url result ++ [Str.newline; Str.newline]
        ++ or_empty fit in
      let md_path :=
        os_path_join (Args.output_dir args) (filename ++ lit ".md") in
      write_file md_path md_content;;
      print (MsgSavedFiltered (url result) filename)
  | _, _ =>
      let md_content :=
        lit "# " ++ url result ++ [Str.newline; Str.newline]
        ++ or_empty (raw_markdown md) in
      let raw_md_path :=
        os_path_join (Args.output_dir args) (filename ++ lit ".md") in
      write_file raw_md_path md_content;;
      print (MsgSaved (url result) filename)
  end.

(** Lines 388-394 and 417-423. *)
Definition print_depths (pages_by_depth : gmap Z (list pystr)) : M unit :=
  for_each
    (fun _ '(depth, urls) =>
       print (MsgDepth depth (length urls));;
       for_each (fun _ url => print (MsgUrl url)) tt (take 5 urls);;
       when (5 <? length urls)%nat (print (MsgMore (length urls - 5))))
    tt (sorted_items pages_by_depth).

(** Lines 343-381: the body of the streaming loop. *)
Definition stream_body (args : Args.t) (st : Locals) (result : CrawlResult)
    : M Locals :=
  let total_pages := S (total_pages st) in
  let depth := depth_of result in
  let pages_by_depth :=
    bucket_append depth (url result) (pages_by_depth st) in
  print (MsgProcessed total_pages (url result) depth);;
  markdown_count ←
    match markdown result with
    | Some md =>
        if Args.save_markdown args && success result then
          save_result args result md;;
          mret (S (markdown_count st))
        else mret (markdown_count st)
    | None => mret (markdown_count st)
    end;
  mret {| total_pages := total_pages;
          markdown_count := markdown_count;
          pages_by_depth := pages_by_depth |}.

(** Lines 327-399. *)
Definition stream_mode (args : Args.t) (results : list CrawlResult)
    : M Locals :=
  print MsgStreamingBanner;;
  print MsgProcessingBanner;;
  when (Args.save_markdown args) (makedirs (Args.output_dir args));;
  st ← for_each (stream_body args)
         {| total_pages := 0; markdown_count := 0; pages_by_depth := ∅ |}
         results;
  print MsgResultsBanner;;
  print (MsgTotal (total_pages st));;
  print_depths (pages_by_depth st);;
  (if Args.save_markdown args && (0 <? markdown_count st)%nat
   then print (MsgSavedTo (Args.output_dir args))
   else when (Args.save_markdown args) (print MsgNoMarkdown));;
  mret st.

(** Lines 409-414: the grouping loop of batch mode. *)
Definition group_by_depth (results : list CrawlResult)
    : gmap Z (list pystr) :=
  foldl (fun pages_by_depth result =>
           bucket_append (depth_of result) (url result) pages_by_depth)
        ∅ results.

(** Lines 432-459: the body of the saving loop of batch mode. *)
Definition batch_save_body (args : Args.t) (markdown_count : nat)
    (result : CrawlResult) : M nat :=
  match markdown result with
  | Some md =>
      if success result then
        save_result args result md;;
        mret (S markdown_count)
      else mret markdown_count
  | None => mret markdown_count
  end.

(** Lines 401-464. *)
Definition batch_mode (args : Args.t) (results : list CrawlResult)
    : M Locals :=
  print MsgResultsBanner;;
  print (MsgTotal (length results));;
  let pages_by_depth := group_by_depth results in
  print_depths pages_by_depth;;
  markdown_count ←
    (if Args.save_markdown args then
       makedirs (Args.output_dir args);;
       print MsgSavingBanner;;
       markdown_count ← for_each (batch_save_body args) 0%nat results;
       (if (0 <? markdown_count)%nat
        then print (MsgSavedTo (Args.output_dir args))
        else print MsgNoMarkdown);;
       mret markdown_count
     else mret 0%nat);
  mret {| total_pages := length results;
          markdown_count := markdown_count;
          pages_by_depth := pages_by_depth |}.

(** Lines 174-464: the body of the [try] statement. *)
Definition main_try (args : Args.t) : M Locals :=
  setup ← configure args;
  let results :=
    arun (Args.url args) (setup_config setup) (setup_dispatcher setup) in
  if Args.stream args
  then stream_mode args results
  else batch_mode args results.

(** Lines 467-469: the handler prints the exception, the line
    [Traceback:] and the traceback. *)
Definition report (e : Exn) : M unit :=
  print (MsgError e);;
  print MsgTracebackBanner;;
  print (MsgTraceback e).

(** Lines 466-469: the handler reports whatever was raised and [main]
    returns. *)
Definition main (args : Args.t) : Output :=
  match main_try args with
  | (o, Ok _) => o
  | (o, Raise e) => out_app o (report e).1
  end.

End Main.

(** ** The crawl core behind the crawl4ai calls

    The filter chain, the breadth-first strategy and the rate limiter that
    [main] configures live in the crawl4ai package, outside the program's
    own source. The following modules model them from the specification. *)

Module FilterChainModel.
Import Crawl4ai.

(** Modelled from the spec: what a predicate of the chain is asked about
    (section 4.1: [admit(link, domain, contentType)]). *)
Record Link := {
  link_url : pystr;
  link_domain : pystr;
  link_content_type : pystr;
}.

(** Modelled from the spec: the pattern engine of the URL-pattern filter
    (section 4.1), taken as given: whether a URL matches one glob or regex
    pattern. *)
Class PatternEngine := {
  pattern_matches : pystr → pystr → bool;
}.

(** Modelled from the spec: the predicates of section 4.1, whose code is in
    the crawl4ai package. The domain filter accepts iff the domain is in the
    allow-set (when non-empty) and not in the block-set; the URL-pattern
    filter iff the URL matches at least one pattern; the content-type
    filter iff the content type is one of the allow-set. *)
Definition accepts `{PatternEngine} (f : Filter) (l : Link) : bool :=
  match f with
  | URLPatternFilter patterns =>
      existsb (fun p => pattern_matches p (link_url l)) patterns
  | DomainFilter allowed blocked =>
      (match allowed with
       | [] => true
       | _ :: _ => bool_decide (link_domain l ∈ allowed)
       end)
      && negb (bool_decide (link_domain l ∈ blocked))
  | ContentTypeFilter allowed_types =>
      bool_decide (link_content_type l ∈ allowed_types)
  end.

(** Modelled from the spec: [FilterChain.admit] of section 4.1, whose code
    is in the crawl4ai package: a link is admitted iff all predicates accept
    it. *)
Definition admits `{PatternEngine} (chain : FilterChain) (l : Link) : bool :=
  forallb (fun f => accepts f l) (filters chain).

End FilterChainModel.

Module DeepCrawlModel.
Import Crawl4ai FilterChainModel.

(** Modelled from the spec: the error kinds of section 7. *)
Inductive ErrorKind :=
| FetchFailure
| ThrottleExhausted
| FilterFailure
| ConfigurationError.

(** Modelled from the spec: [CrawlTask] of section 3. *)
Record CrawlTask := {
  task_url : pystr;
  task_depth : Z;
  originDomain : pystr;
}.

(** Modelled from the spec: [FetchOutcome] of section 3. *)
Record FetchOutcome := {
  outcome_url : pystr;
  depth : Z;
  outcome_success : bool;
  rawMarkdown : option pystr;
  filteredMarkdown : option pystr;
  discoveredLinks : list pystr;
  errorKind : option ErrorKind;
}.

(** Modelled from the spec: what the fetch layer and the extraction
    pipeline, both outside the core, return for a URL. *)
Record Page := {
  page_success : bool;
  page_raw : option pystr;
  page_filtered : option pystr;
  page_links : list pystr;
  page_error : option ErrorKind;
}.

(** Modelled from the spec: the deterministic fetch layer and the URL
    helpers the strategy relies on, taken as given: what fetching a URL
    yields, the domain and the content type of a URL, and URL
    normalisation (scheme+host+path). *)
Class Web := {
  fetch : pystr → Page;
  domain_of : pystr → pystr;
  content_type_of : pystr → pystr;
  normalize : pystr → pystr;
}.

(** Modelled from the spec: the state of the crawl (sections 4.4 and 5):
    the deduplication set, the page count, the queue and the outcomes. *)
Record Frontier := {
  (** normalised URLs already fetched or queued *)
  visited : gset pystr;
  (** successfully fetched pages so far *)
  produced : Z;
  (** tasks admitted for the next depth, oldest first *)
  queued : list CrawlTask;
  (** outcomes so far, oldest first *)
  outcomes : list FetchOutcome;
}.

Section Strategy.
Context `{PatternEngine} `{Web}.
Variable strategy : BFSDeepCrawlStrategy.

(** Modelled from the spec: the page-count budget of section 4.4
    ([maxPages] successfully fetched pages have been produced). *)
Definition budget_exhausted (produced : Z) : bool :=
  match max_pages strategy with
  | Some n => n <=? produced
  | None => false
  end.

(** Modelled from the spec: admission of one discovered link (sections 3
    and 4.4), whose code is in the crawl4ai package. The link becomes a task
    at depth+1 unless that depth exceeds the configured maximum, the page
    budget is exhausted, its domain differs from the origin domain while
    [includeExternal] is false, the filter chain rejects it, or its
    normalised URL was already fetched or queued. *)
Definition admit_link (task : CrawlTask) (fr : Frontier) (link : pystr)
    : Frontier :=
  let new_depth := task_depth task + 1 in
  let l := {| link_url := link;
              link_domain := domain_of link;
              link_content_type := content_type_of link |} in
  if (new_depth <=? max_depth strategy)
     && negb (budget_exhausted (produced fr))
     && (include_external strategy
         || bool_decide (domain_of link = originDomain task))
     && (match filter_chain strategy with
         | Some chain => admits chain l
         | None => true
         end)
     && negb (bool_decide (normalize link ∈ visited fr))
  then {| visited := {[normalize link]} ∪ visited fr;
          produced := produced fr;
          queued := queued fr ++ [{| task_url := link;
                                     task_depth := new_depth;
                                     originDomain := originDomain task |}];
          outcomes := outcomes fr |}
  else fr.

(** Modelled from the spec: one task through Dispatched, Fetched and
    Expanded (section 4.4), whose code is in the crawl4ai package. Once the
    page budget is reached no further task is dispatched; a fetched page is
    recorded, and its links are expanded when the fetch succeeded. *)
Definition run_task (fr : Frontier) (task : CrawlTask) : Frontier :=
  if budget_exhausted (produced fr) then fr
  else
    let page := fetch (task_url task) in
    let outcome :=
      {| outcome_url := task_url task;
         depth := task_depth task;
         outcome_success := page_success page;
         rawMarkdown := page_raw page;
         filteredMarkdown := page_filtered page;
         discoveredLinks := page_links page;
         errorKind := page_error page |} in
    let fr :=
      {| visited := visited fr;
         produced := if outcome_success outcome
                     then produced fr + 1 else produced fr;
         queued := queued fr;
         outcomes := outcomes fr ++ [outcome] |} in
    if outcome_success outcome
    then foldl (admit_link task) fr (discoveredLinks outcome)
    else fr.

(** Modelled from the spec: one level of the frontier (section 4.4),
    whose code is in the crawl4ai package: every task of the current depth
    is run, in order, and the tasks they queue form the next level. *)
Definition run_level (level : list CrawlTask) (fr : Frontier) : Frontier :=
  foldl run_task
    {| visited := visited fr; produced := produced fr;
       queued := []; outcomes := outcomes fr |} level.

(** Modelled from the spec: strict breadth order (section 4.4), whose code
    is in the crawl4ai package: every task of the current depth is run
    before any task of the next depth. [fuel] bounds the number of levels;
    the tasks left over when it runs out are returned with the frontier. *)
Fixpoint crawl_levels (fuel : nat) (level : list CrawlTask) (fr : Frontier)
    : Frontier * list CrawlTask :=
  match level with
  | [] => (fr, [])
  | _ :: _ =>
      match fuel with
      | O => (fr, level)
      | S fuel' =>
          let fr := run_level level fr in
          crawl_levels fuel' (queued fr) fr
      end
  end.

(** Modelled from the spec: the frontier before the crawl (section 4.4):
    the start URL counts as already queued. *)
Definition start_frontier (start_url : pystr) : Frontier :=
  {| visited := {[normalize start_url]}; produced := 0;
     queued := []; outcomes := [] |}.

(** Modelled from the spec: the start page is the only task of depth 0
    and its domain is the origin domain of every task (sections 3 and
    4.4). *)
Definition start_task (start_url : pystr) : CrawlTask :=
  {| task_url := start_url; task_depth := 0;
     originDomain := domain_of start_url |}.

(** Modelled from the spec: levels 0 to [max_depth] are all there can be,
    since no link is admitted beyond the maximum depth (section 3). *)
Definition levels_needed : nat := S (Z.to_nat (max_depth strategy)).

(** Modelled from the spec: the crawl from a start URL (section 4.4),
    whose code is in the crawl4ai package: the outcomes, in breadth-first
    order. *)
Definition deep_crawl (start_url : pystr) : list FetchOutcome :=
  outcomes (crawl_levels levels_needed [start_task start_url]
              (start_frontier start_url)).1.

End Strategy.

(** Modelled from the spec: the [CrawlResult] that carries an outcome of
    section 3 to [main], which reads the depth from [metadata["depth"]]
    (source line 346). *)
Definition to_crawl_result (o : FetchOutcome) : CrawlResult :=
  {| url := outcome_url o;
     success := outcome_success o;
     metadata := {[ lit "depth" := depth o ]};
     markdown :=
       match rawMarkdown o with
       | Some raw =>
           Some {| raw_markdown := Some raw;
                   fit_markdown := Some (filteredMarkdown o) |}
       | None => None
       end |}.

(** Modelled from the spec: [crawler.arun] with the breadth-first
    strategy of its configuration, over a given web. *)
Definition bfs_crawler `{PatternEngine} `{Web} : Crawler :=
  {| arun start_url config _ :=
       map to_crawl_result
         (deep_crawl (deep_crawl_strategy config) start_url) |}.

End DeepCrawlModel.

Module RateLimiterModel.

(** Modelled from the spec: delays (section 4.2), counted in a fixed time
    quantum. *)
Abbreviation Delay := N.

(** Modelled from the spec: the configured ceiling and maximum retry
    count of section 4.2. *)
Record Limits := {
  maxDelay : Delay;
  maxRetries : nat;
}.

(** Modelled from the spec: [RateLimiterState] of section 3, one per
    domain. *)
Record RateLimiterState := {
  currentDelay : Delay;
  consecutiveThrottles : nat;
}.

(** Modelled from the spec: what the limiter observes for a domain
    (section 4.2): a throttled fetch, or a
    successful one together with the delay drawn from the base range for
    the reset. *)
Inductive Signal :=
| Throttle
| Success (base : Delay).

Section Limiter.
Variable limits : Limits.

(** Modelled from the spec: the start of a domain's delay (sections 3 and
    4.2), whose code is in the crawl4ai package: a delay [base] drawn from
    the base range, bounded by the ceiling as every delay of the state. *)
Definition reset (base : Delay) : RateLimiterState :=
  {| currentDelay := N.min base (maxDelay limits);
     consecutiveThrottles := 0 |}.

(** Modelled from the spec: the backoff of section 4.2, whose code is in
    the crawl4ai package: the delay doubles, bounded by the ceiling, each
    time a fetch is throttled, and resets to the base range after a
    successful fetch. *)
Definition observe (st : RateLimiterState) (s : Signal) : RateLimiterState :=
  match s with
  | Throttle =>
      {| currentDelay := N.min (2 * currentDelay st) (maxDelay limits);
         consecutiveThrottles := S (consecutiveThrottles st) |}
  | Success base => reset base
  end.

(** Modelled from the spec: [waitFor(D)] of section 4.2, the delay
    applied before the next fetch. *)
Definition waitFor (st : RateLimiterState) : Delay := currentDelay st.

Inductive TaskOutcome :=
| Fetched
| ThrottleExhausted
| Pending.

(** Modelled from the spec: a fetch task under the limiter (section
    4.2): its outcome so far, the retries it has
    used and the state of its domain. *)
Record TaskRun := {
  outcome : TaskOutcome;
  retries : nat;
  domain : RateLimiterState;
}.

(** Modelled from the spec: one response to a fetch task (section 4.2),
    whose code is in the crawl4ai package. A throttled fetch is retried
    while retries remain; a fetch still throttled after the maximum retry
    count terminates with [ThrottleExhausted]. A terminated task takes no
    further response. *)
Definition respond (run : TaskRun) (s : Signal) : TaskRun :=
  match outcome run with
  | Pending =>
      let domain := observe (domain run) s in
      match s with
      | Throttle =>
          if (retries run <? maxRetries limits)%nat
          then {| outcome := Pending; retries := S (retries run);
                  domain := domain |}
          else {| outcome := ThrottleExhausted; retries := retries run;
                  domain := domain |}
      | Success _ =>
          {| outcome := Fetched; retries := retries run; domain := domain |}
      end
  | _ => run
  end.

(** Modelled from the spec: a task starting on a domain whose delay
    starts at [base]. *)
Definition start_run (base : Delay) : TaskRun :=
  {| outcome := Pending; retries := 0; domain := reset base |}.

(** Modelled from the spec: the task after each prefix of the responses,
    oldest first. *)
Definition task_trace (base : Delay) (responses : list Signal)
    : list TaskRun :=
  map (fun n => foldl respond (start_run base) (take n responses))
      (seq 0 (S (length responses))).

End Limiter.
End RateLimiterModel.

(** ** A concrete runtime for examples

    An instance of the library interface on ASCII input: [urlparse] on
    URLs of the form scheme://netloc/path;params?query#fragment, no
    alphanumeric code point above 127, ASCII upper-casing. *)

Module Example.
Import Str.

(** [s] cut before its first character satisfying [p]. *)
Fixpoint break_at (p : char → bool) (s : pystr) : pystr * pystr :=
  match s with
  | [] => ([], [])
  | c :: rest =>
      if p c then ([], s)
      else let '(a, b) := break_at p rest in (c :: a, b)
  end.

Definition is_letter (c : char) : bool :=
  ((65 <=? c) && (c <=? 90) || (97 <=? c) && (c <=? 122))%N.

Definition is_scheme_char (c : char) : bool :=
  Re.ascii_alnum c || N.eqb c 43%N || N.eqb c hyphen || N.eqb c dot.

Definition ascii_lower (c : char) : char :=
  if ((65 <=? c) && (c <=? 90))%N then (c + 32)%N else c.

Definition ascii_upper (c : char) : char :=
  if ((97 <=? c) && (c <=? 122))%N then (c - 32)%N else c.

(** The scheme, lower-cased, and what follows its colon. *)
Definition split_scheme (url : pystr) : pystr * pystr :=
  match break_at (N.eqb 58%N) url with
  | (c :: pre, _ :: rest) =>
      if is_letter c && forallb is_scheme_char pre
      then (map ascii_lower (c :: pre), rest)
      else ([], url)
  | _ => ([], url)
  end.

(** After [//], the network location runs up to the first of [/?#]. *)
Definition split_netloc (url : pystr) : pystr * pystr :=
  match url with
  | 47%N :: 47%N :: rest =>
      break_at (fun c => N.eqb c slash || N.eqb c qmark || N.eqb c hash) rest
  | _ => ([], url)
  end.

(** The parameters of the last path segment, after its first [;]. *)
Definition split_params (path : pystr) : pystr * pystr :=
  let '(rev_last, rev_dir) := break_at (N.eqb slash) (rev path) in
  let '(segment, rest) := break_at (N.eqb 59%N) (rev rev_last) in
  (rev rev_dir ++ segment, tail rest).

(** [urlparse] on plain URLs; an unbalanced bracket in the network
    location raises [ValueError]. *)
Definition basic_urlparse (url : pystr) : result ParseResult :=
  let '(scheme, url) := split_scheme url in
  let '(netloc, url) := split_netloc url in
  if xorb (contains 91%N netloc) (contains 93%N netloc) then Raise ValueError
  else
    let '(url, fragment) := break_at (N.eqb hash) url in
    let '(url, query) := break_at (N.eqb qmark) url in
    let '(path, params) := split_params url in
    Ok {| scheme := scheme; netloc := netloc; path := path;
          params := params; query := tail query;
          fragment := tail fragment |}.

Definition ascii_pylib : PyLib :=
  {| urlparse := basic_urlparse;
     unicode_isalnum := fun _ => false;
     str_upper := map ascii_upper |}.

(** The default of [--llm-instruction] (source lines 113-115). *)
Definition default_llm_instruction : pystr :=
  lit "Extract the main content while preserving its original wording and substance. "
  ++ lit "Remove navigation elements, sidebars, footers, and ads. "
  ++ lit "Format the output as clean markdown with proper code blocks and headers.".

(** The command line [url] with the given options, every other option
    left at its default. *)
Definition command_line (url : pystr) (max_depth : Z)
    (content_filter : option ContentFilterChoice)
    (llm_api_token : option pystr) (save_markdown stream : bool) : Args.t :=
  {| Args.url := url;
     Args.max_depth := max_depth;
     Args.max_pages := None;
     Args.include_external := false;
     Args.verbose := false;
     Args.url_patterns := None;
     Args.allowed_domains := None;
     Args.blocked_domains := None;
     Args.allowed_content_types := None;
     Args.content_filter := content_filter;
     Args.pruning_threshold := (9 # 20)%Q;
     Args.threshold_type := dynamic;
     Args.min_word_threshold := 5;
     Args.user_query := None;
     Args.bm25_threshold := (6 # 5)%Q;
     Args.use_stemming := false;
     Args.llm_provider := lit "openai/gpt-4o";
     Args.llm_api_token := llm_api_token;
     Args.llm_instruction := default_llm_instruction;
     Args.chunk_token_threshold := 4096;
     Args.llm_verbose := false;
     Args.ignore_links := false;
     Args.ignore_images := false;
     Args.escape_html := false;
     Args.body_width := 0;
     Args.skip_internal_links := false;
     Args.save_markdown := save_markdown;
     Args.output_dir := lit "./output";
     Args.enable_rate_limiter := false;
     Args.base_delay := ((1 # 1)%Q, (3 # 1)%Q);
     Args.max_delay := (60 # 1)%Q;
     Args.max_retries := 3;
     Args.dispatcher := memory;
     Args.memory_threshold := (90 # 1)%Q;
     Args.check_interval := (1 # 1)%Q;
     Args.max_concurrent := 10;
     Args.stream := stream;
     Args.enable_monitor := false;
     Args.cache_mode := bypass |}.

(** A fetched page at depth 0 with the given markdown. *)
Definition page (url : pystr) (success : bool)
    (markdown : option Crawl4ai.MarkdownGenerationResult)
    : Crawl4ai.CrawlResult :=
  {| Crawl4ai.url := url;
     Crawl4ai.success := success;
     Crawl4ai.metadata := {[ lit "depth" := 0 ]};
     Crawl4ai.markdown := markdown |}.

(** A markdown object whose filter retained nothing. *)
Definition hello : Crawl4ai.MarkdownGenerationResult :=
  {| Crawl4ai.raw_markdown := Some (lit "Hello");
     Crawl4ai.fit_markdown := Some None |}.

Definition local_page : Crawl4ai.CrawlResult :=
  page (lit "https://localhost") true (Some hello).

Definition docs_page : Crawl4ai.CrawlResult :=
  page (lit "https://example.com/docs") true (Some hello).

Definition failed_docs_page : Crawl4ai.CrawlResult :=
  page (lit "https://example.com/docs") false (Some hello).

(** Every pattern matches every URL. *)
Definition any_pattern : FilterChainModel.PatternEngine :=
  {| FilterChainModel.pattern_matches := fun _ _ => true |}.

(** The fixture of the specification's scenarios: a root page on
    example.com linking to two pages of the same domain and to one page of
    another domain; the other pages have no links. *)
Definition root_url : pystr := lit "https://example.com".

Definition scenario_web : DeepCrawlModel.Web :=
  {| DeepCrawlModel.fetch := fun url =>
       {| DeepCrawlModel.page_success := true;
          DeepCrawlModel.page_raw := Some (lit "Hello");
          DeepCrawlModel.page_filtered := None;
          DeepCrawlModel.page_links :=
            if bool_decide (url = root_url)
            then [lit "https://example.com/a"; lit "https://example.com/b";
                  lit "https://elsewhere.org/c"]
            else [];
          DeepCrawlModel.page_error := None |};
     DeepCrawlModel.domain_of := fun url =>
       match basic_urlparse url with
       | Ok p => netloc p
       | Raise _ => []
       end;
     DeepCrawlModel.content_type_of := fun _ => lit "text/html";
     DeepCrawlModel.normalize := fun url => url |}.

Definition scenario_crawler : Crawler :=
  @DeepCrawlModel.bfs_crawler any_pattern scenario_web.

(** A fetch layer that replays a fixed sequence of results. *)
Definition replay (results : list Crawl4ai.CrawlResult) : Crawler :=
  {| arun := fun _ _ _ => results |}.

End Example.

(** ** Notions used in the statements *)

(** The per-depth page counts a run printed ([Depth d: n pages]). *)
Definition reported_depths (o : Output) : list (Z * nat) :=
  omap (fun m => match m with
                 | MsgDepth depth pages => Some (depth, pages)
                 | _ => None
                 end) (stdout o).

(** The totals a run printed ([Total pages crawled: n]). *)
Definition reported_totals (o : Output) : list nat :=
  omap (fun m => match m with
                 | MsgTotal pages => Some pages
                 | _ => None
                 end) (stdout o).

(** The results at a given depth. *)
Definition at_depth (d : Z) (results : list Crawl4ai.CrawlResult)
    : list Crawl4ai.CrawlResult :=
  filter (fun r => depth_of r = d) results.

(** The number of successful results. *)
Definition succeeded (results : list Crawl4ai.CrawlResult) : nat :=
  length (filter (fun r => Crawl4ai.success r = true) results).

(** The results the program tries to save: saving is requested, the fetch
    succeeded and there is a markdown object. *)
Definition to_save (args : Args.t) (r : Crawl4ai.CrawlResult) : bool :=
  Args.save_markdown args && Crawl4ai.success r
  && bool_decide (is_Some (Crawl4ai.markdown r)).

(** The first line of every saved file: [# url] and an empty line. *)
Definition header (url : pystr) : pystr :=
  lit "# " ++ url ++ [Str.newline; Str.newline].

(** The command line [args] with [--content-filter] changed. *)
Definition with_content_filter (choice : option ContentFilterChoice)
    (args : Args.t) : Args.t :=
  {| Args.url := Args.url args;
     Args.max_depth := Args.max_depth args;
     Args.max_pages := Args.max_pages args;
     Args.include_external := Args.include_external args;
     Args.verbose := Args.verbose args;
     Args.url_patterns := Args.url_patterns args;
     Args.allowed_domains := Args.allowed_domains args;
     Args.blocked_domains := Args.blocked_domains args;
     Args.allowed_content_types := Args.allowed_content_types args;
     Args.content_filter := choice;
     Args.pruning_threshold := Args.pruning_threshold args;
     Args.threshold_type := Args.threshold_type args;
     Args.min_word_threshold := Args.min_word_threshold args;
     Args.user_query := Args.user_query args;
     Args.bm25_threshold := Args.bm25_threshold args;
     Args.use_stemming := Args.use_stemming args;
     Args.llm_provider := Args.llm_provider args;
     Args.llm_api_token := Args.llm_api_token args;
     Args.llm_instruction := Args.llm_instruction args;
     Args.chunk_token_threshold := Args.chunk_token_threshold args;
     Args.llm_verbose := Args.llm_verbose args;
     Args.ignore_links := Args.ignore_links args;
     Args.ignore_images := Args.ignore_images args;
     Args.escape_html := Args.escape_html args;
     Args.body_width := Args.body_width args;
     Args.skip_internal_links := Args.skip_internal_links args;
     Args.save_markdown := Args.save_markdown args;
     Args.output_dir := Args.output_dir args;
     Args.enable_rate_limiter := Args.enable_rate_limiter args;
     Args.base_delay := Args.base_delay args;
     Args.max_delay := Args.max_delay args;
     Args.max_retries := Args.max_retries args;
     Args.dispatcher := Args.dispatcher args;
     Args.memory_threshold := Args.memory_threshold args;
     Args.check_interval := Args.check_interval args;
     Args.max_concurrent := Args.max_concurrent args;
     Args.stream := Args.stream args;
     Args.enable_monitor := Args.enable_monitor args;
     Args.cache_mode := Args.cache_mode args |}.

(** The command line [args] with [--cache-mode] changed. *)
Definition with_cache_mode (choice : CacheModeChoice)
    (args : Args.t) : Args.t :=
  {| Args.url := Args.url args;
     Args.max_depth := Args.max_depth args;
     Args.max_pages := Args.max_pages args;
     Args.include_external := Args.include_external args;
     Args.verbose := Args.verbose args;
     Args.url_patterns := Args.url_patterns args;
     Args.allowed_domains := Args.allowed_domains args;
     Args.blocked_domains := Args.blocked_domains args;
     Args.allowed_content_types := Args.allowed_content_types args;
     Args.content_filter := Args.content_filter args;
     Args.pruning_threshold := Args.pruning_threshold args;
     Args.threshold_type := Args.threshold_type args;
     Args.min_word_threshold := Args.min_word_threshold args;
     Args.user_query := Args.user_query args;
     Args.bm25_threshold := Args.bm25_threshold args;
     Args.use_stemming := Args.use_stemming args;
     Args.llm_provider := Args.llm_provider args;
     Args.llm_api_token := Args.llm_api_token args;
     Args.llm_instruction := Args.llm_instruction args;
     Args.chunk_token_threshold := Args.chunk_token_threshold args;
     Args.llm_verbose := Args.llm_verbose args;
     Args.ignore_links := Args.ignore_links args;
     Args.ignore_images := Args.ignore_images args;
     Args.escape_html := Args.escape_html args;
     Args.body_width := Args.body_width args;
     Args.skip_internal_links := Args.skip_internal_links args;
     Args.save_markdown := Args.save_markdown args;
     Args.output_dir := Args.output_dir args;
     Args.enable_rate_limiter := Args.enable_rate_limiter args;
     Args.base_delay := Args.base_delay args;
     Args.max_delay := Args.max_delay args;
     Args.max_retries := Args.max_retries args;
     Args.dispatcher := Args.dispatcher args;
     Args.memory_threshold := Args.memory_threshold args;
     Args.check_interval := Args.check_interval args;
     Args.max_concurrent := Args.max_concurrent args;
     Args.stream := Args.stream args;
     Args.enable_monitor := Args.enable_monitor args;
     Args.cache_mode := choice |}.

(** No option that contributes a predicate to the filter chain is given. *)
Definition no_filter_option (args : Args.t) : bool :=
  negb (list_truthy (Args.url_patterns args)
        || list_truthy (Args.allowed_domains args)
        || list_truthy (Args.blocked_domains args)
        || list_truthy (Args.allowed_content_types args)).

(** What is saved below the header: the filtered markdown when a content
    filter is selected and the markdown object has a [fit_markdown]
    attribute, the raw markdown otherwise. *)
Definition saved_body (args : Args.t)
    (md : Crawl4ai.MarkdownGenerationResult) : pystr :=
  match Args.content_filter args, Crawl4ai.fit_markdown md with
  | Some _, Some fit => or_empty fit
  | _, _ => or_empty (Crawl4ai.raw_markdown md)
  end.

(** The file a result is saved to. *)
Definition saved_path (args : Args.t) (filename : pystr) : pystr :=
  os_path_join (Args.output_dir args) (filename ++ lit ".md").

(** The results the crawler yields for a command line. *)
Definition crawl_results `{PyLib} `{Crawler} (args : Args.t)
    : list Crawl4ai.CrawlResult :=
  match configure args with
  | (_, Ok setup) =>
      arun (Args.url args) (setup_config setup) (setup_dispatcher setup)
  | (_, Raise _) => []
  end.

(** The loop variables after the results [results] have been processed
    from the state [st], with the given count of saved pages. *)
Definition locals_after (st : Locals) (results : list Crawl4ai.CrawlResult)
    (saved : nat) : Locals :=
  {| total_pages := total_pages st + length results;
     markdown_count := saved;
     pages_by_depth :=
       foldl (fun m r => bucket_append (depth_of r) (Crawl4ai.url r) m)
             (pages_by_depth st) results |}.

(** The loop variables before the first result. *)
Definition locals0 : Locals :=
  {| total_pages := 0; markdown_count := 0; pages_by_depth := ∅ |}.

(** Output that creates no directory and carries no line of the final
    summary. *)
Definition quiet (o : Output) : Prop :=
  made_dirs o = [] ∧ reported_depths o = [] ∧ reported_totals o = [].

(** The depth lines of the summary of a grouping. *)
Definition depth_lines (m : gmap Z (list pystr)) : list (Z * nat) :=
  map (fun p => (p.1, length p.2)) (sorted_items m).

(** A computation that prints but writes no file and creates no
    directory. *)
Definition prints_only {A} (m : M A) : Prop :=
  written m.1 = [] ∧ made_dirs m.1 = [].

(** A computation that cannot raise. *)
Definition returns {A} (m : M A) : Prop := ∃ a, m.2 = Ok a.

(** ** Further notions: filenames *)

(** Lines 61-69 of [get_filename_from_url]: what is done to the name once
    it has been taken from the path or the network location. *)
Definition clean_filename `{PyLib} (filename : pystr) : pystr :=
  let filename := Re.sub_query_fragment filename in
  let filename := if truthy filename then filename else lit "index" in
  Re.sub_invalid filename.

(** The part of a string before its first [?] or [#]. *)
Fixpoint before_query (s : pystr) : pystr :=
  match s with
  | [] => []
  | c :: rest =>
      if N.eqb c Str.qmark || N.eqb c Str.hash then []
      else c :: before_query rest
  end.

(** A string is empty or ends with the separator [c]: what precedes a
    component of a path or of a host name. *)
Definition ends_component (c : char) (lead : pystr) : Prop :=
  lead = [] ∨ ∃ pre, lead = pre ++ [c].

(** ** Further notions: saving and printing *)

(** What the saving statements (lines 356-379 and 434-457) do for one
    result: nothing when the fetch failed or there is no markdown object;
    otherwise the file they write, or the exception of the filename
    derivation. *)
Definition save_attempt `{PyLib} (args : Args.t) (r : Crawl4ai.CrawlResult)
    : option (result (pystr * pystr)) :=
  match Crawl4ai.markdown r with
  | Some md =>
      if Crawl4ai.success r then
        Some (filename ← get_filename_from_url (Crawl4ai.url r);
              Ok (saved_path args filename,
                  header (Crawl4ai.url r) ++ saved_body args md))
      else None
  | None => None
  end.

(** The files of the results that come before the first one whose
    filename derivation fails, in the order of the results. *)
Fixpoint saved_files `{PyLib} (args : Args.t)
    (results : list Crawl4ai.CrawlResult) : list (pystr * pystr) :=
  match results with
  | [] => []
  | r :: rest =>
      match save_attempt args r with
      | None => saved_files args rest
      | Some (Ok file) => file :: saved_files args rest
      | Some (Raise _) => []
      end
  end.

(** The exception of the first result whose filename derivation fails. *)
Fixpoint save_failure `{PyLib} (args : Args.t)
    (results : list Crawl4ai.CrawlResult) : option Exn :=
  match results with
  | [] => None
  | r :: rest =>
      match save_attempt args r with
      | Some (Raise e) => Some e
      | _ => save_failure args rest
      end
  end.

(** The results up to and including the first one whose filename
    derivation fails. *)
Fixpoint reached `{PyLib} (args : Args.t)
    (results : list Crawl4ai.CrawlResult) : list Crawl4ai.CrawlResult :=
  match results with
  | [] => []
  | r :: rest =>
      match save_attempt args r with
      | Some (Raise _) => [r]
      | _ => r :: reached args rest
      end
  end.

(** The lines of an output that satisfy [P], in the order printed. *)
Definition lines_of (P : Msg → bool) (o : Output) : list Msg :=
  List.filter P (stdout o).

(** A computation all of whose lines satisfy [P]. *)
Definition prints_within {A} (P : Msg → bool) (m : M A) : Prop :=
  Forall (fun x => P x = true) (stdout m.1).

(** The lines of the exception handler (lines 467-469). *)
Definition is_error_line (m : Msg) : bool :=
  match m with
  | MsgError _ | MsgTracebackBanner | MsgTraceback _ => true
  | _ => false
  end.

(** The lines of the final summary: its banner, the total, the lines of
    the depths (count, URLs, remainder) and the closing line. *)
Definition is_summary_line (m : Msg) : bool :=
  match m with
  | MsgResultsBanner | MsgTotal _ | MsgDepth _ _ | MsgUrl _ | MsgMore _
  | MsgSavedTo _ | MsgNoMarkdown => true
  | _ => false
  end.

(** The cache modes for which line 285 returns: every choice of the
    parser but [refresh]. *)
Definition configurable (args : Args.t) : bool :=
  is_ok (cache_mode_of (Args.cache_mode args)).

Definition is_closing_line (m : Msg) : bool :=
  match m with MsgSavedTo _ | MsgNoMarkdown => true | _ => false end.

Definition is_progress_line (m : Msg) : bool :=
  match m with MsgProcessed _ _ _ => true | _ => false end.

(** The progress lines of streaming mode for the results [results] when
    [k] results came before them. *)
Definition progress_lines (k : nat) (results : list Crawl4ai.CrawlResult)
    : list Msg :=
  imap (fun i r =>
          MsgProcessed (S (k + i)) (Crawl4ai.url r) (depth_of r)) results.

(** What a run ends with: the exception of the first failing filename
    derivation when saving is requested, the loop variables otherwise. *)
Definition outcome `{PyLib} (args : Args.t)
    (results : list Crawl4ai.CrawlResult) : result Locals :=
  match (if Args.save_markdown args
         then save_failure args results else None) with
  | Some e => Raise e
  | None =>
      Ok (locals_after locals0 results
            (if Args.save_markdown args
             then length (saved_files args results) else 0%nat))
  end.

(** What the body of the [try] statement of [main] ends with: the
    [AttributeError] of line 285 for the cache mode [refresh], and
    otherwise what the run on the results of the crawl ends with. *)
Definition main_outcome `{PyLib} `{Crawler} (args : Args.t) : result Locals :=
  if configurable args then outcome args (crawl_results args)
  else Raise AttributeError.

(** The lines of the configuration phase (lines 223-323). *)
Definition is_setup_line (m : Msg) : bool :=
  match m with
  | MsgUsingPruning _ _ _ | MsgWarnNoQuery | MsgUsingBM25 _ _ _
  | MsgUsingLLM _ _ | MsgLLMInstruction _ | MsgTokenFromCLI
  | MsgTokenFromEnv _ | MsgMarkdownWithFilter _ | MsgMarkdownDefault
  | MsgMarkdownOptions _ | MsgRateLimiter _ _ _ | MsgMonitor
  | MsgMemoryDispatcher _ _ | MsgSemaphoreDispatcher _ => true
  | _ => false
  end.

(** The lines printed for a saved file. *)
Definition is_save_line (m : Msg) : bool :=
  match m with MsgSavedFiltered _ _ | MsgSaved _ _ => true | _ => false end.

(** The lines of the per-depth part of the summary. *)
Definition is_depth_line (m : Msg) : bool :=
  match m with MsgDepth _ _ | MsgUrl _ | MsgMore _ => true | _ => false end.

(** The lines of the crawl phase: everything but the lines of the
    configuration phase and the line of the exception handler. *)
Definition is_crawl_line (m : Msg) : bool :=
  negb (is_setup_line m || is_error_line m).

(** The number of URLs held by a grouping. *)
Definition bucket_total (m : gmap Z (list pystr)) : nat :=
  sum_list_with (fun p : Z * list pystr => length p.2) (map_to_list m).

(** ** Further notions: the options in effect *)

(** The command line [args] with every option of a feature that is not
    in use put back to a fixed value: the parameters of the content
    filters that are not selected, the markdown options without
    [--save-markdown] (and a body width that is not positive), the
    delays and retries without [--enable-rate-limiter], and the memory
    settings with the semaphore dispatcher. *)
Definition effective (args : Args.t) : Args.t :=
  let with_pruning :=
    match Args.content_filter args with Some pruning => true | _ => false end
  in
  let with_bm25 :=
    match Args.content_filter args with Some bm25 => true | _ => false end in
  let with_llm :=
    match Args.content_filter args with Some llm => true | _ => false end in
  let saving := Args.save_markdown args in
  let limiting := Args.enable_rate_limiter args in
  let with_memory :=
    match Args.dispatcher args with memory => true | semaphore => false end
  in
  {| Args.url := Args.url args;
     Args.max_depth := Args.max_depth args;
     Args.max_pages := Args.max_pages args;
     Args.include_external := Args.include_external args;
     Args.verbose := Args.verbose args;
     Args.url_patterns := Args.url_patterns args;
     Args.allowed_domains := Args.allowed_domains args;
     Args.blocked_domains := Args.blocked_domains args;
     Args.allowed_content_types := Args.allowed_content_types args;
     Args.content_filter := Args.content_filter args;
     Args.pruning_threshold :=
       if with_pruning then Args.pruning_threshold args else 0%Q;
     Args.threshold_type :=
       if with_pruning then Args.threshold_type args else fixed;
     Args.min_word_threshold :=
       if with_pruning then Args.min_word_threshold args else 0;
     Args.user_query := if with_bm25 then Args.user_query args else None;
     Args.bm25_threshold :=
       if with_bm25 then Args.bm25_threshold args else 0%Q;
     Args.use_stemming := with_bm25 && Args.use_stemming args;
     Args.llm_provider := if with_llm then Args.llm_provider args else [];
     Args.llm_api_token :=
       if with_llm then Args.llm_api_token args else None;
     Args.llm_instruction :=
       if with_llm then Args.llm_instruction args else [];
     Args.chunk_token_threshold :=
       if with_llm then Args.chunk_token_threshold args else 0;
     Args.llm_verbose := with_llm && Args.llm_verbose args;
     Args.ignore_links := saving && Args.ignore_links args;
     Args.ignore_images := saving && Args.ignore_images args;
     Args.escape_html := saving && Args.escape_html args;
     Args.body_width :=
       if saving && (0 <? Args.body_width args)
       then Args.body_width args else 0;
     Args.skip_internal_links := saving && Args.skip_internal_links args;
     Args.save_markdown := Args.save_markdown args;
     Args.output_dir := Args.output_dir args;
     Args.enable_rate_limiter := Args.enable_rate_limiter args;
     Args.base_delay :=
       if limiting then Args.base_delay args else (0%Q, 0%Q);
     Args.max_delay := if limiting then Args.max_delay args else 0%Q;
     Args.max_retries := if limiting then Args.max_retries args else 0;
     Args.dispatcher := Args.dispatcher args;
     Args.memory_threshold :=
       if with_memory then Args.memory_threshold args else 0%Q;
     Args.check_interval :=
       if with_memory then Args.check_interval args else 0%Q;
     Args.max_concurrent := Args.max_concurrent args;
     Args.stream := Args.stream args;
     Args.enable_monitor := Args.enable_monitor args;
     Args.cache_mode := Args.cache_mode args |}.

(** The lines of the summary for one depth (lines 388-394 and 417-423):
    the count, the first five URLs and, when there are more, how many. *)
Definition depth_block (depth : Z) (urls : list pystr) : list Msg :=
  MsgDepth depth (length urls) :: map MsgUrl (take 5 urls)
  ++ (if (5 <? length urls)%nat then [MsgMore (length urls - 5)] else []).

(** * [strip_cookie_consent.py]

    The script goes through the markdown files of the output directory
    and removes the cookie-consent text from each of them: what lies
    between the start phrase and the end phrase, both included. *)

(** [str.isspace] of Python's Unicode database, which [lstrip()] and
    [rstrip()] without argument go by; it is taken as given. *)
Class Whitespace := {
  isspace : char → bool;
}.

Module StripCookieConsent.

(** *** String methods *)

(** [s.startswith(prefix)] *)
Fixpoint startswith (prefix s : pystr) : bool :=
  match prefix, s with
  | [], _ => true
  | _ :: _, [] => false
  | a :: prefix', b :: s' => N.eqb a b && startswith prefix' s'
  end.

(** [s.endswith(suffix)] *)
Definition endswith (suffix s : pystr) : bool :=
  (length suffix <=? length s)%nat
  && bool_decide (drop (length s - length suffix) s = suffix).

(** [s.find(sub)]: the lowest index at which [sub] occurs in [s], [-1]
    when it does not occur. *)
Fixpoint find (sub s : pystr) : Z :=
  if startswith sub s then 0
  else match s with
       | [] => -1
       | _ :: s' =>
           let i := find sub s' in
           if i =? -1 then -1 else i + 1
       end.

(** A slice index as Python reads it: a negative index counts from the
    end of the string, and what then still lies before the string is its
    start. An index beyond the end is left to [take] and [drop], which
    clamp it as slicing does. *)
Definition slice_index (s : pystr) (i : Z) : nat :=
  Z.to_nat (if i <? 0 then i + Z.of_nat (length s) else i).

(** [s.find(sub, start)]: the search begins at [start], read as a slice
    index; a start beyond the end finds nothing. *)
Definition find_from (sub s : pystr) (start : Z) : Z :=
  if Z.of_nat (length s) <? start then -1
  else
    let start := slice_index s start in
    let i := find sub (drop start s) in
    if i =? -1 then -1 else Z.of_nat start + i.

(** [s[:i]] and [s[j:]] *)
Definition slice_to (s : pystr) (i : Z) : pystr := take (slice_index s i) s.
Definition slice_from (s : pystr) (j : Z) : pystr :=
  drop (slice_index s j) s.

(** [s.lstrip()] and [s.rstrip()] *)
Fixpoint lstrip `{Whitespace} (s : pystr) : pystr :=
  match s with
  | [] => []
  | c :: rest => if isspace c then lstrip rest else s
  end.

Fixpoint rstrip `{Whitespace} (s : pystr) : pystr :=
  match s with
  | [] => []
  | x :: rest =>
      match rstrip rest with
      | [] => if isspace x then [] else [x]
      | r => x :: r
      end
  end.

(** *** Files

    What the script sees of the disk: for each path the text that reading
    the file returns and whether the file can be opened for writing, or
    the exception that opening or decoding it raises. The script prints
    an exception and otherwise does not look at it. Distinct paths are
    taken to be distinct files: symbolic and hard links, through which a
    write to one path changes what another path holds, are not
    modelled. *)

Inductive Failure :=
| FileNotFoundError
| PermissionError
| IsADirectoryError
| UnicodeDecodeError.

Inductive attempt (A : Type) :=
| Done (a : A)
| Failed (e : Failure).
Arguments Done {A} a.
Arguments Failed {A} e.

#[global] Instance attempt_ret : MRet attempt := fun _ a => Done a.
#[global] Instance attempt_bind : MBind attempt := fun _ _ f m =>
  match m with
  | Done a => f a
  | Failed e => Failed e
  end.

Inductive Node :=
| Text (content : pystr) (writable : bool)
| Unreadable (e : Failure).

Abbreviation FileSystem := (gmap pystr Node).

(** [with open(path, 'r', encoding='utf-8') as f: f.read()] *)
Definition open_read (fs : FileSystem) (path : pystr) : attempt pystr :=
  match fs !! path with
  | Some (Text content _) => Done content
  | Some (Unreadable e) => Failed e
  | None => Failed FileNotFoundError
  end.

(** [with open(path, 'w', encoding='utf-8') as f: f.write(content)] *)
Definition open_write (fs : FileSystem) (path content : pystr)
    : attempt FileSystem :=
  match fs !! path with
  | Some (Text _ false) => Failed PermissionError
  | Some (Unreadable e) => Failed e
  | Some (Text _ true) | None => Done (<[path := Text content true]> fs)
  end.

(** *** The script *)

(** Line 4 *)
Definition output_dir : pystr := lit "./output".

(** Lines 7-8 *)
Definition start_phrase : pystr := lit "By selecting".
Definition end_phrases : list pystr :=
  [lit "targeted advertising"; lit "less targeted advertising"].

(** What the script prints, one constructor for each [print]. *)
Inductive Line :=
| LineProcessed (filename : pystr)
| LineNoEnd (filename : pystr)
| LineNoConsent (filename : pystr)
| LineError (filename : pystr) (e : Failure)
| LineSummary (processed_count failed_count : nat).

(** The files, the lines printed so far and the two counters. *)
Record State := {
  files : FileSystem;
  printed : list Line;
  processed_count : nat;
  failed_count : nat;
}.

(** Lines 28-35 and 44: the [for ... else] over the end phrases. The
    first phrase found at or after the start of the consent text decides
    the new content; [None] stands for the [else] of the loop. *)
Fixpoint new_content `{Whitespace} (content : pystr)
    (cookie_start_index : Z) (phrases : list pystr) : option pystr :=
  match phrases with
  | [] => None
  | phrase :: rest =>
      let end_index := find_from phrase content cookie_start_index in
      if negb (end_index =? -1) then
        let end_index := end_index + Z.of_nat (length phrase) + 1 in
        Some (rstrip (slice_to content cookie_start_index)
              ++ lstrip (slice_from content end_index))
      else new_content content cookie_start_index rest
  end.

(** Lines 16-52: the body of the loop over the directory entries. An
    exception raised while the file is read or written leaves the [try]
    statement for its handler. *)
Definition process `{Whitespace} (st : State) (filename : pystr) : State :=
  if endswith (lit ".md") filename then
    let file_path := os_path_join output_dir filename in
    let tried : attempt State :=
      content ← open_read (files st) file_path;
      let cookie_start_index := find start_phrase content in
      if negb (cookie_start_index =? -1) then
        match new_content content cookie_start_index end_phrases with
        | Some new_content =>
            written ← open_write (files st) file_path new_content;
            Done {| files := written;
                    printed := printed st ++ [LineProcessed filename];
                    processed_count := S (processed_count st);
                    failed_count := failed_count st |}
        | None =>
            Done {| files := files st;
                    printed := printed st ++ [LineNoEnd filename];
                    processed_count := processed_count st;
                    failed_count := S (failed_count st) |}
        end
      else
        Done {| files := files st;
                printed := printed st ++ [LineNoConsent filename];
                processed_count := processed_count st;
                failed_count := failed_count st |} in
    match tried with
    | Done st' => st'
    | Failed e =>
        {| files := files st;
           printed := printed st ++ [LineError filename e];
           processed_count := processed_count st;
           failed_count := S (failed_count st) |}
    end
  else st.

(** Lines 11-52: the counters start at zero and the loop goes through the
    entries in the order [os.listdir] gives them. *)
Definition loop `{Whitespace} (fs : FileSystem) (entries : list pystr)
    : State :=
  foldl process
    {| files := fs; printed := []; processed_count := 0%nat;
       failed_count := 0%nat |}
    entries.

(** Lines 15-54: an exception of [os.listdir] is not handled and ends the
    script before anything is printed; otherwise the summary follows the
    loop. *)
Definition script `{Whitespace} (fs : FileSystem)
    (listdir : attempt (list pystr)) : attempt State :=
  entries ← listdir;
  let st := loop fs entries in
  Done {| files := files st;
          printed :=
            printed st
            ++ [LineSummary (processed_count st) (failed_count st)];
          processed_count := processed_count st;
          failed_count := failed_count st |}.

(** *** Notions used in the statements *)

(** The file a line is about. *)
Definition line_filename (l : Line) : option pystr :=
  match l with
  | LineProcessed filename | LineNoEnd filename | LineNoConsent filename
  | LineError filename _ => Some filename
  | LineSummary _ _ => None
  end.

Definition is_processed (l : Line) : bool :=
  match l with LineProcessed _ => true | _ => false end.

Definition is_failed (l : Line) : bool :=
  match l with LineNoEnd _ | LineError _ _ => true | _ => false end.

(** The whitespace of ASCII. *)
Definition ascii_space : Whitespace :=
  {| isspace := fun c => ((9 <=? c) && (c <=? 13)
                          || (28 <=? c) && (c <=? 32))%N |}.

End StripCookieConsent.

(** * Properties *)

(** ** Strings *)

Module StrFacts.
Import Str.

Lemma split_nonempty (c : char) (s : pystr) : split c s ≠ [].
Proof.
  destruct s as [|x rest]; simpl; [done|].
  destruct (N.eqb x c); [done|].
  destruct (split c rest); done.
Qed.

(** Without a separator the string is the only piece. *)
Lemma split_no_separator (c : char) (s : pystr) :
  contains c s = false → split c s = [s].
Proof.
  unfold contains. induction s as [|x rest IH]; simpl; [done|].
  intros Hno. apply orb_false_iff in Hno as [Hx Hrest].
  rewrite N.eqb_sym, Hx, (IH Hrest). done.
Qed.

(** With a separator there are at least two pieces. *)
Lemma split_separator (c : char) (s : pystr) :
  contains c s = true → (2 <= length (split c s))%nat.
Proof.
  unfold contains. induction s as [|x rest IH]; simpl; [done|].
  intros Hin. destruct (N.eqb x c) eqn:Hx.
  - pose proof (split_nonempty c rest).
    destruct (split c rest); simpl; [done | lia].
  - rewrite N.eqb_sym, Hx in Hin. simpl in Hin. specialize (IH Hin).
    destruct (split c rest); simpl in *; lia.
Qed.

Lemma index_from_end_ok {A} (l : list A) (k : nat) :
  (1 <= k <= length l)%nat → ∃ x, index_from_end l k = Ok x.
Proof.
  intros [Hk Hl]. destruct k as [|k']; [lia|]. unfold index_from_end.
  destruct (lookup_lt_is_Some_2 (rev l) k') as [x Hx].
  { rewrite length_rev. lia. }
  exists x. by rewrite Hx.
Qed.

Lemma index_from_end_out_of_range {A} (l : list A) (k : nat) :
  (length l < k)%nat → index_from_end l k = Raise IndexError.
Proof.
  intros Hl. destruct k as [|k']; [done|]. unfold index_from_end.
  rewrite lookup_ge_None_2; [done|]. rewrite length_rev. lia.
Qed.

Lemma truthy_map (f : N → N) (s : pystr) : truthy (map f s) = truthy s.
Proof. by destruct s. Qed.

End StrFacts.

(** ** The derived filename *)

Section FilenameFacts.
Context `{PyLib}.
Import Str StrFacts.

Lemma sub_invalid_chars (s : pystr) :
  Forall (fun c => filename_char c = true) (Re.sub_invalid s).
Proof.
  unfold Re.sub_invalid. apply Forall_map, Forall_forall. intros c _. simpl.
  unfold Re.is_invalid. fold (filename_char c).
  destruct (filename_char c) eqn:Hc; simpl; [done|].
  reflexivity.
Qed.

(** C9: when [urlparse] yields a path that is non-empty after stripping
    trailing slashes, or a network location containing a dot,
    [get_filename_from_url] returns; with an empty stripped path and a
    dot-free location it raises [IndexError] (the lookup
    [netloc.split('.')[-2]] is out of range). *)
Theorem get_filename_returns (url : pystr) (p : ParseResult) :
  urlparse url = Ok p →
  if truthy (rstrip slash (path p)) || contains dot (netloc p)
  then ∃ filename, get_filename_from_url url = Ok filename
  else get_filename_from_url url = Raise IndexError.
Proof.
  intros Hparse. unfold get_filename_from_url. rewrite Hparse.
  unfold mbind, mret, result_bind, result_ret.
  destruct (truthy (rstrip slash (path p))) eqn:Hpath.
  - rewrite orb_true_l.
    destruct (contains slash (rstrip slash (path p))) eqn:Hslash;
      [|rewrite andb_false_r; eauto].
    rewrite andb_true_r.
    pose proof (split_separator _ _ Hslash) as Hlen.
    destruct (index_from_end_ok (split slash (rstrip slash (path p))) 1)
      as [last_part ->]; [lia|].
    apply Nat.leb_le in Hlen as Hleb. rewrite Hleb.
    destruct (index_from_end_ok (split slash (rstrip slash (path p))) 2)
      as [parent_part ->]; [lia|].
    destruct (truthy parent_part); eauto.
  - rewrite orb_false_l, andb_false_l.
    destruct (contains dot (netloc p)) eqn:Hdot.
    + pose proof (split_separator _ _ Hdot) as Hlen.
      destruct (index_from_end_ok (split dot (netloc p)) 2) as [name ->];
        [lia|]. eauto.
    + rewrite (split_no_separator _ _ Hdot). reflexivity.
Qed.

(** A word character, a hyphen or a dot is neither the path separator nor
    the NUL character. *)
Lemma filename_char_plain (c : char) :
  filename_char c = true → c ≠ slash ∧ c ≠ 0%N.
Proof.
  unfold filename_char, Re.is_word, Re.ascii_alnum, slash, hyphen, dot,
    underscore.
  destruct (N.ltb_spec c 128) as [Hlt|Hge]; [|lia].
  intros Hc.
  repeat match type of Hc with
         | (_ || _) = true => apply orb_true_iff in Hc as [Hc|Hc]
         | (_ && _) = true => apply andb_true_iff in Hc as [? Hc]
         end;
    repeat match goal with
           | H : (_ <=? _)%N = true |- _ => apply N.leb_le in H
           | H : (_ =? _)%N = true |- _ => apply N.eqb_eq in H
           end; lia.
Qed.

(** C10: whenever [get_filename_from_url] returns, the filename is
    non-empty and made only of word characters, hyphens and dots; in
    particular it contains no path separator and no NUL character. *)
Theorem get_filename_safe (url filename : pystr) :
  get_filename_from_url url = Ok filename →
  filename ≠ []
  ∧ Forall (fun c => filename_char c = true) filename
  ∧ Forall (fun c => c ≠ slash ∧ c ≠ 0%N) filename.
Proof.
  enough (get_filename_from_url url = Ok filename →
          filename ≠ [] ∧ Forall (fun c => filename_char c = true) filename)
    as Hchars.
  { intros Hret. destruct (Hchars Hret) as [Hne Hall].
    split; [done|]. split; [done|].
    eapply Forall_impl; [exact Hall|]. apply filename_char_plain. }
  unfold get_filename_from_url. intros Hret.
  destruct (urlparse url) as [p|]; simpl in Hret; [|done].
  match type of Hret with
  | mbind _ ?m = _ => destruct m as [name|]; simpl in Hret; [|done]
  end.
  injection Hret as <-. split.
  - intros Hnil. apply (f_equal truthy) in Hnil.
    unfold Re.sub_invalid in Hnil. rewrite truthy_map in Hnil.
    destruct (truthy (Re.sub_query_fragment name)) eqn:Htruthy;
      [by rewrite Htruthy in Hnil | done].
  - apply sub_invalid_chars.
Qed.

End FilenameFacts.

(** On [https://localhost] the derivation raises; on the URL of the
    docstring it returns [docs_libraries]. *)
Lemma get_filename_returns_witness :
  @urlparse Example.ascii_pylib (lit "https://localhost")
    = Ok {| scheme := lit "https"; netloc := lit "localhost"; path := [];
            params := []; query := []; fragment := [] |}
  ∧ @get_filename_from_url Example.ascii_pylib (lit "https://localhost")
    = Raise IndexError.
Proof.
  split; [reflexivity|].
  exact (@get_filename_returns Example.ascii_pylib
           (lit "https://localhost") _ eq_refl).
Defined.

Lemma get_filename_safe_witness :
  @get_filename_from_url Example.ascii_pylib
     (lit "https://console.groq.com/docs/libraries")
    = Ok (lit "docs_libraries")
  ∧ lit "docs_libraries" ≠ []
  ∧ Forall (fun c => @filename_char Example.ascii_pylib c = true)
      (lit "docs_libraries")
  ∧ Forall (fun c => c ≠ Str.slash ∧ c ≠ 0%N) (lit "docs_libraries").
Proof.
  split; [reflexivity|].
  exact (@get_filename_safe Example.ascii_pylib
           (lit "https://console.groq.com/docs/libraries")
           (lit "docs_libraries") eq_refl).
Defined.

(** ** Output and loops *)

Lemma out_app_silent_l (o : Output) : out_app silent o = o.
Proof. by destruct o. Qed.

Lemma out_app_silent_r (o : Output) : out_app o silent = o.
Proof.
  destruct o as [s w d]. unfold out_app, silent. simpl.
  by rewrite !app_nil_r.
Qed.

Lemma out_app_assoc (o1 o2 o3 : Output) :
  out_app o1 (out_app o2 o3) = out_app (out_app o1 o2) o3.
Proof. unfold out_app. simpl. by rewrite !app_assoc. Qed.

Lemma bind_ok {A B} (f : A → M B) (m : M A) (o : Output) (a : A) :
  m = (o, Ok a) → mbind f m = (out_app o (f a).1, (f a).2).
Proof. intros ->. unfold mbind, M_bind. by destruct (f a). Qed.

Lemma bind_raise {A B} (f : A → M B) (m : M A) (o : Output) (e : Exn) :
  m = (o, Raise e) → mbind f m = (o, Raise e).
Proof. by intros ->. Qed.

Lemma bind_ok_inv {A B} (f : A → M B) (m : M A) (o : Output) (b : B) :
  mbind f m = (o, Ok b) →
  ∃ o1 a o2, m = (o1, Ok a) ∧ f a = (o2, Ok b) ∧ o = out_app o1 o2.
Proof.
  unfold mbind, M_bind. destruct m as [o1 [a|e]]; [|done].
  destruct (f a) as [o2 r] eqn:Hf. intros [= <- ->]. eauto 6.
Qed.

Lemma bind_raise_inv {A B} (f : A → M B) (m : M A) (o : Output) (e : Exn) :
  mbind f m = (o, Raise e) →
  m = (o, Raise e)
  ∨ ∃ o1 a o2, m = (o1, Ok a) ∧ f a = (o2, Raise e) ∧ o = out_app o1 o2.
Proof.
  unfold mbind, M_bind. destruct m as [o1 [a|e']].
  - destruct (f a) as [o2 r] eqn:Hf. intros [= <- ->]. right. eauto 6.
  - intros [= <- <-]. by left.
Qed.

Lemma bind_prints_only {A B} (f : A → M B) (m : M A) :
  prints_only m → (∀ a, prints_only (f a)) → prints_only (mbind f m).
Proof.
  unfold prints_only. destruct m as [o [a|e]]; simpl; [|done].
  intros [Hw Hd] Hf. specialize (Hf a). destruct (f a) as [o2 r2].
  simpl in *. rewrite Hw, Hd. by destruct Hf as [-> ->].
Qed.

Lemma bind_returns {A B} (f : A → M B) (m : M A) :
  returns m → (∀ a, returns (f a)) → returns (mbind f m).
Proof.
  unfold returns. destruct m as [o [a|e]]; simpl; [|by intros [? ?]].
  intros _ Hf. specialize (Hf a). by destruct (f a) as [o2 r2].
Qed.

Lemma print_prints_only (m : Msg) : prints_only (print m).
Proof. done. Qed.

Lemma print_returns (m : Msg) : returns (print m).
Proof. by exists tt. Qed.

Lemma ret_prints_only {A} (a : A) : prints_only (mret a : M A).
Proof. done. Qed.

Lemma ret_returns {A} (a : A) : returns (mret a : M A).
Proof. by exists a. Qed.

Lemma for_each_prints_only {A S} (body : S → A → M S) (l : list A) :
  (∀ s x, prints_only (body s x)) → ∀ s, prints_only (for_each body s l).
Proof.
  intros Hbody. induction l as [|x l IH]; intros s; simpl.
  - apply ret_prints_only.
  - apply bind_prints_only; [apply Hbody | apply IH].
Qed.

Lemma for_each_returns {A S} (body : S → A → M S) (l : list A) :
  (∀ s x, returns (body s x)) → ∀ s, returns (for_each body s l).
Proof.
  intros Hbody. induction l as [|x l IH]; intros s; simpl.
  - apply ret_returns.
  - apply bind_returns; [apply Hbody | apply IH].
Qed.

Lemma lift_prints_only {A} (r : result A) : prints_only (lift r).
Proof. done. Qed.

Lemma lift_returns {A} (r : result A) : is_ok r = true → returns (lift r).
Proof. destruct r as [a|e]; [by exists a | done]. Qed.

Ltac effects :=
  repeat first
    [ progress intros
    | apply bind_prints_only | apply bind_returns
    | apply lift_prints_only
    | apply print_prints_only | apply print_returns
    | apply ret_prints_only | apply ret_returns
    | apply for_each_prints_only | apply for_each_returns
    | progress unfold when
    | match goal with
      | |- context [match ?x with _ => _ end] => destruct x
      | |- context [if ?b then _ else _] => destruct b
      end ].

(** ** The configuration phase *)

Section ConfigureFacts.
Context `{PyLib} `{Crawler}.
Import Crawl4ai.

Lemma build_content_filter_prints_only (args : Args.t) :
  prints_only (build_content_filter args).
Proof. unfold build_content_filter. effects. Qed.

Lemma build_content_filter_returns (args : Args.t) :
  returns (build_content_filter args).
Proof. unfold build_content_filter. effects. Qed.

Lemma configure_prints_only (args : Args.t) : prints_only (configure args).
Proof.
  unfold configure. apply bind_prints_only;
    [apply build_content_filter_prints_only|]. effects.
Qed.

(** The configuration phase returns for every cache mode that line 285
    finds in [CacheMode]. *)
Lemma configure_returns (args : Args.t) :
  configurable args = true → returns (configure args).
Proof.
  intros Hmode. unfold configure. apply bind_returns;
    [apply build_content_filter_returns|]. intros cf.
  apply bind_returns; [effects|]. intros _.
  apply bind_returns; [by apply lift_returns|]. effects.
Qed.

(** For the cache mode [refresh] it raises [AttributeError], after the
    announcements of the content filter and of the markdown generator. *)
Lemma configure_raises (args : Args.t) :
  configurable args = false →
  ∃ o, configure args = (o, Raise AttributeError).
Proof.
  unfold configurable, configure. intros Hmode.
  destruct (build_content_filter_returns args) as [cf Hcf].
  destruct (build_content_filter args) as [o1 r1]. simpl in Hcf. subst r1.
  unfold mbind at 1, M_bind at 1.
  match goal with
  | |- context [mbind ?f (when ?c ?body)] =>
      assert (returns (when c body)) as [[] Hwhen] by effects;
      destruct (when c body) as [o2 r2]; simpl in Hwhen; subst r2
  end.
  unfold mbind at 1, M_bind at 1.
  destruct (Args.cache_mode args); [done..|]. simpl. eauto.
Qed.

(** The strategy, and with it the filter chain, does not depend on what
    the configuration phase prints. *)
Lemma configure_strategy (args : Args.t) (o : Output) (setup : Setup) :
  configure args = (o, Ok setup) →
  deep_crawl_strategy (setup_config setup) = build_strategy args.
Proof.
  unfold configure. intros Hc.
  repeat match type of Hc with
         | mbind _ _ = (_, Ok _) =>
             apply bind_ok_inv in Hc as (? & ? & ? & _ & Hc & _)
         end.
  by injection Hc as _ <-.
Qed.

(** With [--save-markdown] unset the crawler's configuration has no
    markdown generator. *)
Lemma configure_no_generator (args : Args.t) (o : Output) (setup : Setup) :
  configure args = (o, Ok setup) →
  Args.save_markdown args = false →
  markdown_generator (setup_config setup) = None.
Proof.
  unfold configure. intros Hc Hsave.
  repeat match type of Hc with
         | mbind _ _ = (_, Ok _) =>
             apply bind_ok_inv in Hc as (? & ? & ? & _ & Hc & _)
         end.
  injection Hc as _ <-. simpl. by rewrite Hsave.
Qed.

End ConfigureFacts.

(** ** The filter chain handed to the strategy *)

Section FilterChainFacts.
Context `{PyLib} `{Crawler} `{FilterChainModel.PatternEngine}.
Import Crawl4ai FilterChainModel.

Lemma build_filters_empty (args : Args.t) :
  bool_decide (build_filters args = []) = no_filter_option args.
Proof.
  unfold build_filters, no_filter_option.
  destruct (list_truthy (Args.url_patterns args)),
    (list_truthy (Args.allowed_domains args)),
    (list_truthy (Args.blocked_domains args)),
    (list_truthy (Args.allowed_content_types args)); reflexivity.
Qed.

(** C2: for every command line the strategy is built with a filter chain
    that is present; it is that strategy that every configuration handed
    to the crawler carries, and one is handed over for every cache mode
    but [refresh]. The chain has no predicate exactly when no URL-pattern,
    domain or content-type option is given, and a chain with no predicate
    accepts every link. *)
Theorem filter_chain_always_present (args : Args.t) :
  filter_chain (build_strategy args)
  = Some {| filters := build_filters args |}
  ∧ (∀ o setup,
       configure args = (o, Ok setup) →
       deep_crawl_strategy (setup_config setup) = build_strategy args)
  ∧ (configurable args = true → ∃ o setup, configure args = (o, Ok setup))
  ∧ bool_decide (build_filters args = []) = no_filter_option args
  ∧ ∀ l : Link, admits {| filters := [] |} l = true.
Proof.
  split; [done|]. split; [apply configure_strategy|]. split.
  - intros Hmode. destruct (configure_returns args Hmode) as [setup Hret].
    destruct (configure args) as [o r]. simpl in Hret. subst r. eauto.
  - split; [apply build_filters_empty | done].
Qed.

End FilterChainFacts.

(** ** Depth buckets *)

Section BucketFacts.
Import Crawl4ai.

Lemma bucket_append_lookup (d d' : Z) (u : pystr)
    (m : gmap Z (list pystr)) :
  bucket_append d u m !! d'
  = if decide (d = d') then Some (default [] (m !! d) ++ [u]) else m !! d'.
Proof.
  unfold bucket_append. destruct (decide (d = d')) as [<-|Hne].
  - destruct (m !! d) as [urls|] eqn:Hm.
    + by rewrite lookup_alter_eq, Hm.
    + by rewrite lookup_alter_eq, lookup_insert_eq.
  - rewrite lookup_alter_ne by done.
    destruct (m !! d); [done|]. by rewrite lookup_insert_ne.
Qed.

(** The buckets after a sequence of results, from any starting map. *)
Lemma foldl_bucket_lookup (results : list CrawlResult) (d : Z)
    (m : gmap Z (list pystr)) :
  foldl (fun m r => bucket_append (depth_of r) (url r) m) m results !! d
  = match at_depth d results with
    | [] => m !! d
    | rs => Some (default [] (m !! d) ++ map url rs)
    end.
Proof.
  revert m. induction results as [|r results IH]; intros m; [done|].
  simpl. rewrite IH. unfold at_depth. rewrite filter_cons.
  rewrite bucket_append_lookup.
  destruct (decide (depth_of r = d)) as [<-|Hd]; simpl.
  - destruct (filter _ results) as [|r' rs] eqn:Hrs.
    + done.
    + simpl. f_equal. by rewrite <- app_assoc.
  - done.
Qed.

(** The bucket of a depth lists the URLs of the results at that depth, in
    the order of arrival; a depth without result has no bucket. *)
Lemma group_by_depth_lookup (results : list CrawlResult) (d : Z) :
  group_by_depth results !! d
  = match at_depth d results with
    | [] => None
    | rs => Some (map url rs)
    end.
Proof.
  unfold group_by_depth. rewrite foldl_bucket_lookup.
  by destruct (at_depth d results).
Qed.


Lemma group_by_depth_keys (results : list CrawlResult) (d : Z)
    (urls : list pystr) :
  group_by_depth results !! d = Some urls →
  ∃ r, r ∈ results ∧ depth_of r = d.
Proof.
  rewrite group_by_depth_lookup.
  destruct (at_depth d results) as [|r rs] eqn:Hrs; [done|]. intros _.
  assert (r ∈ at_depth d results) as Hr by (rewrite Hrs; left).
  unfold at_depth in Hr. apply list_elem_of_filter in Hr as [? ?]. eauto.
Qed.

End BucketFacts.

(** ** Saving results *)

Section SaveFacts.
Context `{PyLib}.
Import Crawl4ai.

Lemma save_result_ok (args : Args.t) (r : CrawlResult)
    (md : MarkdownGenerationResult) (filename : pystr) :
  get_filename_from_url (url r) = Ok filename →
  ∃ msg,
    save_result args r md
    = ({| stdout := [msg];
          written := [(saved_path args filename,
                       header (url r) ++ saved_body args md)];
          made_dirs := [] |}, Ok tt)
    ∧ (msg = MsgSavedFiltered (url r) filename
       ∨ msg = MsgSaved (url r) filename).
Proof.
  intros Hname. unfold save_result, saved_body, saved_path, header.
  rewrite Hname. unfold lift, mbind, M_bind, write_file, print.
  destruct (Args.content_filter args), (fit_markdown md); simpl;
    rewrite <- !app_assoc; eauto.
Qed.

Lemma save_result_raise (args : Args.t) (r : CrawlResult)
    (md : MarkdownGenerationResult) (e : Exn) :
  get_filename_from_url (url r) = Raise e →
  save_result args r md = (silent, Raise e).
Proof. intros Hname. unfold save_result. by rewrite Hname. Qed.

(** Saving creates no directory and prints neither a total nor a depth
    line. *)
Lemma save_result_quiet (args : Args.t) (r : CrawlResult)
    (md : MarkdownGenerationResult) :
  made_dirs (save_result args r md).1 = []
  ∧ reported_depths (save_result args r md).1 = []
  ∧ reported_totals (save_result args r md).1 = [].
Proof.
  destruct (get_filename_from_url (url r)) as [filename|e] eqn:Hname.
  - destruct (save_result_ok args r md filename Hname)
      as (msg & -> & [-> | ->]); done.
  - by rewrite (save_result_raise args r md e Hname).
Qed.

(** The saving loop of batch mode returns when every filename derivation
    it needs does. *)
Lemma batch_save_returns (args : Args.t) (results : list CrawlResult) :
  Forall (fun r => success r = true → is_Some (markdown r) →
                   is_ok (get_filename_from_url (url r)) = true) results →
  ∀ n, returns (for_each (batch_save_body args) n results).
Proof.
  induction 1 as [|r results Hr _ IH]; intros n; simpl.
  - apply ret_returns.
  - apply bind_returns; [|apply IH].
    unfold batch_save_body.
    destruct (markdown r) as [md|]; [|apply ret_returns].
    destruct (success r); [|apply ret_returns].
    destruct (get_filename_from_url (url r)) as [filename|e] eqn:Hname.
    + destruct (save_result_ok args r md filename Hname) as (msg & Hs & _).
      apply bind_returns; [|intros; apply ret_returns].
      rewrite Hs. by exists tt.
    + by specialize (Hr eq_refl (mk_is_Some _ _ eq_refl)).
Qed.


End SaveFacts.

(** ** The two loops *)

Lemma reported_depths_app (o1 o2 : Output) :
  reported_depths (out_app o1 o2) = reported_depths o1 ++ reported_depths o2.
Proof. unfold reported_depths. simpl. apply omap_app. Qed.

Lemma reported_totals_app (o1 o2 : Output) :
  reported_totals (out_app o1 o2) = reported_totals o1 ++ reported_totals o2.
Proof. unfold reported_totals. simpl. apply omap_app. Qed.

Lemma quiet_app (o1 o2 : Output) : quiet o1 → quiet o2 → quiet (out_app o1 o2).
Proof.
  unfold quiet. rewrite reported_depths_app, reported_totals_app. simpl.
  by intros (-> & -> & ->) (-> & -> & ->).
Qed.

Lemma quiet_bind {A B} (f : A → M B) (m : M A) :
  quiet m.1 → (∀ a, quiet (f a).1) → quiet (mbind f m).1.
Proof.
  destruct m as [o [a|e]]; simpl; [|done]. intros Ho Hf.
  specialize (Hf a). destruct (f a) as [o2 r]. by apply quiet_app.
Qed.

Lemma for_each_cons {A S} (body : S → A → M S) (s : S) (x : A)
    (l : list A) :
  for_each body s (x :: l) = (s' ← body s x; for_each body s' l).
Proof. reflexivity. Qed.

Lemma quiet_for_each {A S} (body : S → A → M S) (l : list A) :
  (∀ s x, quiet (body s x).1) → ∀ s, quiet (for_each body s l).1.
Proof.
  intros Hbody. induction l as [|x l IH]; intros s; simpl; [done|].
  apply quiet_bind; [apply Hbody | apply IH].
Qed.

Section LoopFacts.
Context `{PyLib}.
Import Crawl4ai.

Lemma batch_save_body_quiet (args : Args.t) (n : nat) (r : CrawlResult) :
  quiet (batch_save_body args n r).1.
Proof.
  unfold batch_save_body. destruct (markdown r) as [md|]; [|done].
  destruct (success r); [|done].
  apply quiet_bind; [apply save_result_quiet | done].
Qed.

Lemma stream_body_saving (args : Args.t) (st : Locals) (r : CrawlResult) :
  Args.save_markdown args = true →
  stream_body args st r
  = (print (MsgProcessed (S (total_pages st)) (url r) (depth_of r));;
     n ← batch_save_body args (markdown_count st) r;
     mret (locals_after st [r] n)).
Proof.
  intros Hsave. unfold stream_body, batch_save_body, locals_after.
  rewrite Hsave. simpl. replace (total_pages st + 1)%nat with
    (S (total_pages st)) by lia.
  by destruct (markdown r), (success r).
Qed.

Lemma locals_after_cons (st : Locals) (r : CrawlResult)
    (results : list CrawlResult) (n n' : nat) :
  locals_after (locals_after st [r] n) results n'
  = locals_after st (r :: results) n'.
Proof. unfold locals_after. simpl. f_equal. lia. Qed.

(** With saving requested the streaming loop does, result by result, what
    the saving loop of batch mode does: it writes the same files, raises
    at the same result, and counts the same number of saved pages. *)
Lemma stream_loop_saving (args : Args.t) (results : list CrawlResult) :
  Args.save_markdown args = true →
  ∀ st,
    let b := for_each (batch_save_body args) (markdown_count st) results in
    ∃ os,
      for_each (stream_body args) st results
      = (os, match b.2 with
             | Ok n => Ok (locals_after st results n)
             | Raise e => Raise e
             end)
      ∧ written os = written b.1 ∧ quiet os.
Proof.
  intros Hsave. induction results as [|r results IH]; intros st; simpl.
  - exists silent. split; [|done]. unfold locals_after. simpl.
    destruct st. simpl. unfold mret, M_ret. do 3 f_equal. lia.
  - rewrite (stream_body_saving _ _ _ Hsave).
    pose proof (batch_save_body_quiet args (markdown_count st) r) as Hq.
    destruct (batch_save_body args (markdown_count st) r) as [o1 [n1|e]].
    + destruct (IH (locals_after st [r] n1)) as (os & Hloop & Hw & Hqs).
      simpl in Hloop, Hw.
      unfold mbind, M_bind, mret, M_ret, print. simpl. rewrite Hloop.
      destruct (for_each (batch_save_body args) n1 results) as [o2 r2].
      simpl in *. eexists. split.
      * destruct r2; [by rewrite locals_after_cons | done].
      * simpl. rewrite Hw, !app_nil_r. split; [done|].
        repeat apply quiet_app; done.
    + unfold mbind, M_bind, print. simpl. eexists. split; [done|].
      split; [done|]. by apply quiet_app.
Qed.

(** Without saving the streaming loop only counts and groups. *)
Lemma stream_loop_plain (args : Args.t) (results : list CrawlResult) :
  Args.save_markdown args = false →
  ∀ st, ∃ os,
    for_each (stream_body args) st results
    = (os, Ok (locals_after st results (markdown_count st)))
    ∧ written os = [] ∧ quiet os.
Proof.
  intros Hsave. induction results as [|r results IH]; intros st; simpl.
  - exists silent. split; [|done]. unfold locals_after. simpl.
    destruct st. simpl. unfold mret, M_ret. do 3 f_equal. lia.
  - destruct (IH (locals_after st [r] (markdown_count st)))
      as (os & Hloop & Hw & Hqs). simpl in Hloop.
    assert (stream_body args st r
            = ({| stdout := [MsgProcessed (S (total_pages st)) (url r)
                               (depth_of r)];
                  written := []; made_dirs := [] |},
               Ok (locals_after st [r] (markdown_count st)))) as ->.
    { unfold stream_body, locals_after. rewrite Hsave. simpl.
      replace (total_pages st + 1)%nat with (S (total_pages st)) by lia.
      by destruct (markdown r). }
    unfold mbind, M_bind. rewrite Hloop, locals_after_cons.
    eexists. split; [done|]. simpl. split; [done|].
    by apply quiet_app.
Qed.

End LoopFacts.

(** ** The summary and the two modes *)

Lemma print_urls_spec (urls : list pystr) :
  ∃ o, for_each (fun _ url => print (MsgUrl url)) tt urls = (o, Ok tt)
       ∧ written o = [] ∧ quiet o.
Proof.
  induction urls as [|u urls (o & IH & Hw & Hq)].
  - by exists silent.
  - change (for_each (fun _ url => print (MsgUrl url)) tt (u :: urls))
      with (let '(o2, r) :=
              for_each (fun _ url => print (MsgUrl url)) tt urls in
            (out_app (print (MsgUrl u)).1 o2, r)).
    rewrite IH. eexists. split; [done|].
    split; [by rewrite <- Hw | by apply quiet_app].
Qed.

Lemma print_depth_spec (d : Z) (urls : list pystr) :
  ∃ o, (print (MsgDepth d (length urls));;
        for_each (fun _ url => print (MsgUrl url)) tt (take 5 urls);;
        when (5 <? length urls)%nat (print (MsgMore (length urls - 5))))
       = (o, Ok tt)
       ∧ written o = [] ∧ made_dirs o = []
       ∧ reported_depths o = [(d, length urls)] ∧ reported_totals o = [].
Proof.
  destruct (print_urls_spec (take 5 urls)) as (ou & Hu & Hwu & Hqu).
  assert (∃ om, when (5 <? length urls)%nat
                  (print (MsgMore (length urls - 5))) = (om, Ok tt)
                ∧ written om = [] ∧ quiet om) as (om & Hm & Hwm & Hqm).
  { destruct (5 <? length urls)%nat; eexists; by split. }
  unfold mbind, M_bind. rewrite Hu, Hm. unfold print.
  destruct Hqu as (Hdu & Hru & Htu), Hqm as (Hdm & Hrm & Htm).
  eexists. split; [done|].
  rewrite !reported_depths_app, !reported_totals_app. simpl.
  rewrite Hwu, Hdu, Hru, Htu, Hwm, Hdm, Hrm, Htm. done.
Qed.

Lemma print_depths_spec (m : gmap Z (list pystr)) :
  ∃ o, print_depths m = (o, Ok tt)
       ∧ written o = [] ∧ made_dirs o = []
       ∧ reported_depths o = depth_lines m ∧ reported_totals o = [].
Proof.
  unfold print_depths, depth_lines.
  induction (sorted_items m) as [|[d urls] l (o & IH & Hw & Hd & Hr & Ht)].
  - by exists silent.
  - destruct (print_depth_spec d urls) as (o1 & H1 & Hw1 & Hd1 & Hr1 & Ht1).
    rewrite for_each_cons. lazy beta iota.
    rewrite (bind_ok _ _ _ _ H1), IH. eexists. split; [done|].
    rewrite !reported_depths_app, !reported_totals_app. simpl.
    rewrite Hw, Hd, Hr, Ht, Hw1, Hd1, Hr1, Ht1. done.
Qed.

Section ModeFacts.
Context `{PyLib}.
Import Crawl4ai.

Lemma batch_loop_quiet (args : Args.t) (results : list CrawlResult) (n : nat) :
  quiet (for_each (batch_save_body args) n results).1.
Proof. apply quiet_for_each. intros. apply batch_save_body_quiet. Qed.

Lemma batch_mode_spec (args : Args.t) (results : list CrawlResult) :
  let b := for_each (batch_save_body args) 0%nat results in
  let o := (batch_mode args results).1 in
  (batch_mode args results).2
  = (if Args.save_markdown args then
       match b.2 with
       | Ok n => Ok (locals_after locals0 results n)
       | Raise e => Raise e
       end
     else Ok (locals_after locals0 results 0))
  ∧ written o = (if Args.save_markdown args then written b.1 else [])
  ∧ made_dirs o
    = (if Args.save_markdown args then [Args.output_dir args] else [])
  ∧ reported_depths o = depth_lines (group_by_depth results)
  ∧ reported_totals o = [length results].
Proof.
  intros b o. subst o. unfold batch_mode.
  destruct (print_depths_spec (group_by_depth results))
    as (od & Hd & Hwd & Hdd & Hrd & Htd).
  pose proof (batch_loop_quiet args results 0) as (Hdb & Hrb & Htb).
  fold b in Hdb, Hrb, Htb.
  unfold mbind, M_bind. unfold print at 1 2. rewrite Hd.
  destruct (Args.save_markdown args).
  - unfold makedirs, print at 1. fold b.
    destruct b as [ob [n|e]]; simpl in *.
    + assert (∃ om, (if (0 <? n)%nat
                     then print (MsgSavedTo (Args.output_dir args))
                     else print MsgNoMarkdown) = (om, Ok tt)
                    ∧ written om = [] ∧ quiet om)
        as (om & -> & Hwm & Hdm & Hrm & Htm).
      { destruct (0 <? n)%nat; eexists; by split. }
      simpl.
      rewrite !reported_depths_app, !reported_totals_app. simpl.
      rewrite Hwd, Hdd, Hrd, Htd, Hdb, Hrb, Htb, Hwm, Hdm, Hrm, Htm.
      rewrite !app_nil_r. done.
    + rewrite !reported_depths_app, !reported_totals_app. simpl.
      rewrite Hwd, Hdd, Hrd, Htd, Hdb, Hrb, Htb.
      rewrite !app_nil_r. done.
  - simpl. rewrite !reported_depths_app, !reported_totals_app. simpl.
    rewrite Hwd, Hdd, Hrd, Htd. rewrite !app_nil_r. done.
Qed.

Lemma stream_loop_quiet (args : Args.t) (results : list CrawlResult)
    (st : Locals) :
  quiet (for_each (stream_body args) st results).1.
Proof.
  destruct (Args.save_markdown args) eqn:Hsave.
  - destruct (stream_loop_saving args results Hsave st) as (os & -> & _ & Hq).
    done.
  - destruct (stream_loop_plain args results Hsave st) as (os & -> & _ & Hq).
    done.
Qed.

Lemma stream_mode_spec (args : Args.t) (results : list CrawlResult) :
  let l := for_each (stream_body args) locals0 results in
  let o := (stream_mode args results).1 in
  (stream_mode args results).2 = l.2
  ∧ written o = written l.1
  ∧ made_dirs o
    = (if Args.save_markdown args then [Args.output_dir args] else [])
  ∧ reported_depths o
    = match l.2 with
      | Ok st => depth_lines (pages_by_depth st)
      | Raise _ => []
      end
  ∧ reported_totals o
    = match l.2 with
      | Ok st => [total_pages st]
      | Raise _ => []
      end.
Proof.
  intros l o. subst o. unfold stream_mode.
  pose proof (stream_loop_quiet args results locals0) as (Hdl & Hrl & Htl).
  fold l in Hdl, Hrl, Htl. change (for_each (stream_body args) _ results)
    with l. destruct l as [ol [st|e]]; simpl in Hdl, Hrl, Htl.
  - destruct (print_depths_spec (pages_by_depth st))
      as (od & Hd & Hwd & Hdd & Hrd & Htd).
    assert (∃ om, (if Args.save_markdown args && (0 <? markdown_count st)%nat
                   then print (MsgSavedTo (Args.output_dir args))
                   else when (Args.save_markdown args) (print MsgNoMarkdown))
                  = (om, Ok tt) ∧ written om = [] ∧ quiet om)
      as (om & Hm & Hwm & Hdm & Hrm & Htm).
    { destruct (Args.save_markdown args), (0 <? markdown_count st)%nat;
        eexists; by split. }
    unfold mbind, M_bind. rewrite Hd, Hm. unfold print, when, makedirs.
    destruct (Args.save_markdown args); simpl;
      rewrite !reported_depths_app, !reported_totals_app; simpl;
      rewrite Hwd, Hdd, Hrd, Htd, Hdl, Hrl, Htl, Hwm, Hdm, Hrm, Htm;
      rewrite !app_nil_r; done.
  - unfold mbind, M_bind, print, when, makedirs.
    destruct (Args.save_markdown args); simpl;
      rewrite !reported_depths_app, !reported_totals_app; simpl;
      rewrite Hdl, Hrl, Htl; done.
Qed.

End ModeFacts.

(** ** Streaming against batch *)

Section Agreement.
Context `{PyLib}.
Import Crawl4ai.

(** What a run that returns has computed, in either mode. *)
Lemma mode_returns_inv (stream : bool) (args : Args.t)
    (results : list CrawlResult) (o : Output) (st : Locals) :
  (if stream then stream_mode args results else batch_mode args results)
  = (o, Ok st) →
  total_pages st = length results
  ∧ pages_by_depth st = group_by_depth results
  ∧ (if Args.save_markdown args
     then ∃ ob, for_each (batch_save_body args) 0%nat results
                = (ob, Ok (markdown_count st))
                ∧ written o = written ob
     else written o = [] ∧ markdown_count st = 0%nat)
  ∧ reported_depths o = depth_lines (group_by_depth results)
  ∧ reported_totals o = [length results].
Proof.
  destruct stream; intros Hrun.
  - pose proof (stream_mode_spec args results) as (Hr & Hw & _ & Hd & Ht).
    rewrite Hrun in Hr, Hw, Hd, Ht. simpl in Hr, Hw, Hd, Ht.
    destruct (Args.save_markdown args) eqn:Hsave.
    + destruct (stream_loop_saving args results Hsave locals0)
        as (os & Hloop & Hws & _). simpl in Hloop, Hws.
      rewrite Hloop in Hr, Hw, Hd, Ht. simpl in Hr, Hw, Hd, Ht.
      destruct (for_each (batch_save_body args) 0%nat results)
        as [ob [n|e]]; simpl in *; [|done].
      injection Hr as ->. simpl in *.
      repeat split; try done. exists ob. by rewrite Hw, Hws.
    + destruct (stream_loop_plain args results Hsave locals0)
        as (os & Hloop & Hws & _). simpl in Hloop.
      rewrite Hloop in Hr, Hw, Hd, Ht. simpl in Hr, Hw, Hd, Ht.
      injection Hr as ->. simpl in *. by rewrite Hw, Hws.
  - pose proof (batch_mode_spec args results) as (Hr & Hw & _ & Hd & Ht).
    rewrite Hrun in Hr, Hw, Hd, Ht. simpl in Hr, Hw, Hd, Ht.
    destruct (Args.save_markdown args) eqn:Hsave.
    + destruct (for_each (batch_save_body args) 0%nat results)
        as [ob [n|e]]; simpl in *; [|done].
      injection Hr as ->. simpl. repeat split; try done. by exists ob.
    + by injection Hr as ->.
Qed.

(** When each filename derivation that saving needs returns, the two
    modes complete with the same loop variables, the same files and the
    same counts in the summary. *)
Lemma modes_complete (args : Args.t) (results : list CrawlResult) :
  Forall (fun r => to_save args r = true →
                   is_ok (get_filename_from_url (url r)) = true) results →
  ∃ os ob st,
    stream_mode args results = (os, Ok st)
    ∧ batch_mode args results = (ob, Ok st)
    ∧ total_pages st = length results
    ∧ pages_by_depth st = group_by_depth results
    ∧ written os = written ob
    ∧ made_dirs os = made_dirs ob
    ∧ reported_depths os = reported_depths ob
    ∧ reported_totals os = reported_totals ob.
Proof.
  intros Hok.
  pose proof (stream_mode_spec args results) as (Hrs & Hws & Hms & Hds & Hts).
  pose proof (batch_mode_spec args results) as (Hrb & Hwb & Hmb & Hdb & Htb).
  simpl in *.
  destruct (stream_mode args results) as [os rs],
    (batch_mode args results) as [ob rb]. simpl in *.
  exists os, ob. rewrite Hms, Hmb, Hws, Hwb, Hds, Hts, Hdb, Htb, Hrs, Hrb.
  clear Hms Hmb Hws Hwb Hds Hts Hdb Htb Hrs Hrb.
  destruct (Args.save_markdown args) eqn:Hsave.
  - destruct (batch_save_returns args results) with (n := 0%nat)
      as [n Hn].
    { eapply Forall_impl; [exact Hok|]. intros r Hr Hsucc Hmd. apply Hr.
      unfold to_save. rewrite Hsave, Hsucc. simpl.
      by apply bool_decide_eq_true. }
    destruct (stream_loop_saving args results Hsave locals0)
      as (ol & -> & Hwl & _). simpl in Hwl. simpl. rewrite !Hn. simpl.
    exists (locals_after locals0 results n). by rewrite Hwl.
  - destruct (stream_loop_plain args results Hsave locals0)
      as (ol & -> & Hwl & _). simpl.
    exists (locals_after locals0 results 0). by rewrite Hwl.
Qed.

End Agreement.

(** ** Pages whose filter retained nothing *)

Section Fallback.
Context `{PyLib}.
Import Crawl4ai.


End Fallback.



(** ** The final summary *)

#[local] Instance depth_le_trans : Transitive depth_le.
Proof. unfold depth_le. intros p q r. lia. Qed.

#[local] Instance depth_le_total : Total depth_le.
Proof. unfold depth_le. intros p q. lia. Qed.

Lemma sorted_items_elem (m : gmap Z (list pystr)) (d : Z)
    (urls : list pystr) :
  (d, urls) ∈ sorted_items m ↔ m !! d = Some urls.
Proof.
  unfold sorted_items. rewrite merge_sort_Permutation.
  apply elem_of_map_to_list.
Qed.

(** The depth lines are those of the depths that have a result, each with
    the number of results at that depth. *)
Lemma depth_lines_elem (results : list Crawl4ai.CrawlResult) (d : Z)
    (n : nat) :
  (d, n) ∈ depth_lines (group_by_depth results)
  ↔ at_depth d results ≠ [] ∧ n = length (at_depth d results).
Proof.
  unfold depth_lines.
  change (map ?f ?l) with (f <$> l). rewrite list_elem_of_fmap. split.
  - intros ([d' urls] & [= -> ->] & Hin). simpl.
    apply sorted_items_elem in Hin. rewrite group_by_depth_lookup in Hin.
    destruct (at_depth d' results) as [|r rs]; [done|].
    injection Hin as <-. split; [done|]. simpl. by rewrite length_map.
  - intros [Hne ->].
    exists (d, map Crawl4ai.url (at_depth d results)). split.
    + simpl. by rewrite length_map.
    + apply sorted_items_elem. rewrite group_by_depth_lookup.
      by destruct (at_depth d results).
Qed.

(** The depth lines come in ascending order of depth. *)
Lemma depth_lines_sorted (m : gmap Z (list pystr)) :
  StronglySorted (fun p q : Z * nat => p.1 ≤ q.1) (depth_lines m).
Proof.
  unfold depth_lines, sorted_items.
  change (map ?f ?l) with (f <$> l).
  apply (StronglySorted_fmap _ depth_le).
  - by intros p q Hpq.
  - apply StronglySorted_merge_sort; apply _.
Qed.

(** Each depth has one line, and the lines ascend strictly. *)
Lemma depth_lines_ascending (m : gmap Z (list pystr)) :
  StronglySorted (fun p q : Z * nat => p.1 < q.1) (depth_lines m).
Proof.
  assert (NoDup (depth_lines m).*1) as Hnodup.
  { unfold depth_lines, sorted_items.
    change (map ?f ?l) with (f <$> l). rewrite <- list_fmap_compose.
    change (fst ∘ _) with (fst : Z * list pystr → Z).
    rewrite merge_sort_Permutation. apply NoDup_fst_map_to_list. }
  pose proof (depth_lines_sorted m) as Hsorted.
  induction Hsorted as [|p l Hl IH Hp]; [constructor|].
  apply NoDup_cons in Hnodup as [Hnotin Hnodup].
  constructor; [by apply IH|].
  apply Forall_forall. intros q Hq.
  pose proof (proj1 (Forall_forall _ _) Hp q Hq) as Hle.
  cbv beta in Hle |- *.
  assert (p.1 ≠ q.1); [|lia].
  intros Heq. apply Hnotin. rewrite Heq.
  apply list_elem_of_fmap. by exists q.
Qed.

Section Summary.
Context `{PyLib}.
Import Crawl4ai.

(** C6: the summary of a completed crawl, in either mode, reports the
    total number of results and, in strictly ascending order of depth and
    so with one line for each depth, the number of results at each depth
    that has one. *)
Theorem summary_reports (stream : bool) (args : Args.t)
    (results : list CrawlResult) (o : Output) (st : Locals) :
  (if stream then stream_mode args results else batch_mode args results)
  = (o, Ok st) →
  reported_totals o = [length results]
  ∧ (∀ d n, (d, n) ∈ reported_depths o
            ↔ at_depth d results ≠ [] ∧ n = length (at_depth d results))
  ∧ StronglySorted (fun p q : Z * nat => p.1 < q.1) (reported_depths o).
Proof.
  intros Hrun.
  apply mode_returns_inv in Hrun as (_ & _ & _ & Hdepths & Htotals).
  rewrite Hdepths, Htotals. split; [done|]. split.
  - intros d n. apply depth_lines_elem.
  - apply depth_lines_ascending.
Qed.

End Summary.

(** Two crawls that differ only in whether the page was fetched
    successfully print the same output, in either mode: the number of
    successful pages is not part of the summary. *)
Lemma summary_omits_successes :
  let args stream :=
    Example.command_line (lit "https://example.com") 2 None None false
      stream in
  succeeded [Example.docs_page] = 1%nat
  ∧ succeeded [Example.failed_docs_page] = 0%nat
  ∧ @main Example.ascii_pylib (Example.replay [Example.docs_page])
      (args true)
    = @main Example.ascii_pylib (Example.replay [Example.failed_docs_page])
        (args true)
  ∧ @main Example.ascii_pylib (Example.replay [Example.docs_page])
      (args false)
    = @main Example.ascii_pylib (Example.replay [Example.failed_docs_page])
        (args false).
Proof. repeat split; vm_compute; reflexivity. Qed.

Lemma summary_reports_witness :
  let args :=
    Example.command_line (lit "https://example.com") 2 None None false
      false in
  let o := (@batch_mode Example.ascii_pylib args [Example.docs_page]).1 in
  reported_totals o = [1%nat]
  ∧ (∀ d n, (d, n) ∈ reported_depths o
            ↔ at_depth d [Example.docs_page] ≠ []
              ∧ n = length (at_depth d [Example.docs_page]))
  ∧ StronglySorted (fun p q : Z * nat => p.1 < q.1) (reported_depths o).
Proof.
  intros args o.
  exact (@summary_reports Example.ascii_pylib false args
           [Example.docs_page] o
           (locals_after locals0 [Example.docs_page] 0) eq_refl).
Defined.

(** ** A content filter without [--save-markdown] *)

Lemma for_each_ext {A S} (body1 body2 : S → A → M S) (l : list A) :
  (∀ s x, body1 s x = body2 s x) →
  ∀ s, for_each body1 s l = for_each body2 s l.
Proof.
  intros Hext. induction l as [|x l IH]; intros s; [done|].
  rewrite !for_each_cons, Hext. unfold mbind, M_bind.
  destruct (body2 s x) as [o [s'|e]]; [|done]. by rewrite IH.
Qed.

Section UnusedFilter.
Context `{PyLib} `{Crawler}.
Import Crawl4ai.

Lemma build_content_filter_none (args : Args.t) :
  build_content_filter (with_content_filter None args) = (silent, Ok None).
Proof. reflexivity. Qed.

Lemma build_content_filter_some (args : Args.t) (c : ContentFilterChoice) :
  ∃ o cf, build_content_filter (with_content_filter (Some c) args)
          = (o, Ok (Some cf)).
Proof.
  unfold build_content_filter. destruct c; simpl.
  - eauto.
  - unfold when. destruct (negb _); eauto.
  - destruct (truthy _); eauto.
Qed.

(** Without saving, the choice of content filter changes what the
    configuration phase announces and nothing of what it builds. *)
Lemma configure_unsaved (args : Args.t) (choice : option ContentFilterChoice) :
  Args.save_markdown args = false →
  configure (with_content_filter choice args)
  = (out_app
       (build_content_filter (with_content_filter choice args)).1
       (configure (with_content_filter None args)).1,
     (configure (with_content_filter None args)).2).
Proof.
  intros Hsave. unfold configure at 1 2 3.
  rewrite build_content_filter_none.
  destruct (build_content_filter_returns (with_content_filter choice args))
    as [cf Hcf].
  destruct (build_content_filter (with_content_filter choice args))
    as [o1 r1]. simpl in Hcf. subst r1.
  unfold mbind, M_bind. simpl. rewrite Hsave. simpl.
  destruct (Args.cache_mode args); simpl;
  repeat match goal with
         | |- context [if ?b then _ else _] => destruct b; simpl
         | |- context [match Args.dispatcher ?a with _ => _ end] =>
             destruct (Args.dispatcher a); simpl
         end;
    by rewrite ?out_app_silent_l, ?out_app_silent_r.
Qed.

Lemma stream_mode_unsaved (args : Args.t) (choice : option ContentFilterChoice)
    (results : list CrawlResult) :
  Args.save_markdown args = false →
  stream_mode (with_content_filter choice args) results
  = stream_mode (with_content_filter None args) results.
Proof.
  intros Hsave. unfold stream_mode. simpl.
  rewrite (for_each_ext (stream_body (with_content_filter choice args))
             (stream_body (with_content_filter None args))); [done|].
  intros st r. unfold stream_body. simpl. by rewrite Hsave.
Qed.

Lemma batch_mode_unsaved (args : Args.t) (choice : option ContentFilterChoice)
    (results : list CrawlResult) :
  Args.save_markdown args = false →
  batch_mode (with_content_filter choice args) results
  = batch_mode (with_content_filter None args) results.
Proof. intros Hsave. unfold batch_mode. simpl. by rewrite Hsave. Qed.

(** The rest of [main] after the announcement of the content filter. *)
Lemma main_try_unsaved (args : Args.t) (choice : option ContentFilterChoice) :
  Args.save_markdown args = false →
  main_try (with_content_filter choice args)
  = (out_app
       (build_content_filter (with_content_filter choice args)).1
       (main_try (with_content_filter None args)).1,
     (main_try (with_content_filter None args)).2).
Proof.
  intros Hsave. unfold main_try.
  rewrite (configure_unsaved args choice Hsave).
  destruct (configure (with_content_filter None args)) as [o0 [setup|e]];
    simpl; [|done].
  rewrite (stream_mode_unsaved args choice _ Hsave),
    (batch_mode_unsaved args choice _ Hsave).
  match goal with
  | |- context [if ?b then ?x else ?y] => destruct (if b then x else y)
  end.
  simpl. by rewrite out_app_assoc.
Qed.

(** C8: with a content filter selected and [--save-markdown] unset, the
    filter object is built and never used: the configuration phase ends
    as it does without any filter, with the same configuration for the
    crawler or the same exception; every configuration it hands over has
    no markdown generator, and it hands one over for every cache mode but
    [refresh]. The run ends the same way with the same files, directories
    and summary; the output differs only by the announcement of the
    filter. *)
Theorem unused_content_filter (args : Args.t) (c : ContentFilterChoice) :
  Args.save_markdown args = false →
  let selected := with_content_filter (Some c) args in
  let unselected := with_content_filter None args in
  (∃ o cf, build_content_filter selected = (o, Ok (Some cf)))
  ∧ (configure selected).2 = (configure unselected).2
  ∧ (∀ o setup,
       configure selected = (o, Ok setup) →
       markdown_generator (setup_config setup) = None)
  ∧ (configurable args = true →
     ∃ o setup, configure selected = (o, Ok setup)
                ∧ (configure unselected).2 = Ok setup
                ∧ markdown_generator (setup_config setup) = None)
  ∧ (main_try selected).2 = (main_try unselected).2
  ∧ written (main selected) = written (main unselected)
  ∧ made_dirs (main selected) = made_dirs (main unselected)
  ∧ reported_depths (main selected) = reported_depths (main unselected)
  ∧ reported_totals (main selected) = reported_totals (main unselected)
  ∧ stdout (main selected)
    = stdout (build_content_filter selected).1 ++ stdout (main unselected).
Proof.
  intros Hsave. cbv zeta.
  split; [apply build_content_filter_some|].
  split; [by rewrite (configure_unsaved args _ Hsave)|].
  split.
  { intros o setup Hc.
    by apply (configure_no_generator (with_content_filter (Some c) args) o). }
  split.
  { intros Hmode.
    destruct (configure_returns (with_content_filter (Some c) args) Hmode)
      as [setup Hret].
    destruct (configure (with_content_filter (Some c) args)) as [o r] eqn:Hc.
    simpl in Hret. subst r. exists o, setup. split; [done|]. split.
    - rewrite (configure_unsaved args _ Hsave) in Hc.
      by injection Hc as _ Hunselected.
    - by apply (configure_no_generator
                  (with_content_filter (Some c) args) o). }
  assert (main (with_content_filter (Some c) args)
          = out_app
              (build_content_filter (with_content_filter (Some c) args)).1
              (main (with_content_filter None args)))
    as Hmain.
  { unfold main. rewrite (main_try_unsaved args (Some c) Hsave).
    destruct (main_try (with_content_filter None args)) as [o0 [st|e]];
      cbn [fst snd]; [done|]. by rewrite out_app_assoc. }
  split; [by rewrite (main_try_unsaved args (Some c) Hsave)|].
  rewrite Hmain, reported_depths_app, reported_totals_app. simpl.
  destruct (build_content_filter_prints_only
              (with_content_filter (Some c) args)) as [-> ->].
  assert (quiet (build_content_filter
                   (with_content_filter (Some c) args)).1) as (_ & -> & ->).
  { unfold build_content_filter. simpl. destruct c; simpl; try done.
    - unfold when. by destruct (negb _).
    - by destruct (truthy _). }
  done.
Qed.

End UnusedFilter.

Lemma unused_content_filter_witness :
  let args :=
    Example.command_line (lit "https://example.com") 2 None None false
      false in
  let crawler := Example.replay [Example.docs_page] in
  Args.save_markdown args = false
  ∧ (@main_try Example.ascii_pylib crawler
       (with_content_filter (Some llm) args)).2
    = (@main_try Example.ascii_pylib crawler
         (with_content_filter None args)).2
  ∧ written (@main Example.ascii_pylib crawler
               (with_content_filter (Some llm) args))
    = written (@main Example.ascii_pylib crawler
                 (with_content_filter None args)).
Proof.
  intros args crawler. split; [reflexivity|].
  pose proof (@unused_content_filter Example.ascii_pylib crawler args llm
                eq_refl) as (_ & _ & _ & _ & Hresult & Hwritten & _).
  split; [exact Hresult | exact Hwritten].
Defined.

(** ** Errors *)

Section Errors.
Context `{PyLib} `{Crawler}.
Import Crawl4ai.

(** [main] is the configuration phase followed, when that phase returns,
    by one of the two modes on the results of the crawl. *)
Lemma main_try_unfold (args : Args.t) :
  main_try args
  = if configurable args then
      (out_app (configure args).1
         (if Args.stream args
          then stream_mode args (crawl_results args)
          else batch_mode args (crawl_results args)).1,
       (if Args.stream args
        then stream_mode args (crawl_results args)
        else batch_mode args (crawl_results args)).2)
    else ((configure args).1, Raise AttributeError).
Proof.
  unfold main_try, crawl_results.
  destruct (configurable args) eqn:Hmode.
  - destruct (configure_returns args Hmode) as [setup Hret].
    destruct (configure args) as [o r]. simpl in Hret. subst r.
    unfold mbind, M_bind. simpl.
    by destruct (if Args.stream args then _ else _).
  - destruct (configure_raises args Hmode) as [o ->]. done.
Qed.

(** Without a configuration there is no crawl. *)
Lemma crawl_results_unconfigured (args : Args.t) :
  configurable args = false → crawl_results args = [].
Proof.
  intros Hmode. unfold crawl_results.
  by destruct (configure_raises args Hmode) as [o ->].
Qed.

(** An exception in the saving loop comes from the filename derivation
    of one of the results it saves. *)
Lemma batch_save_raise (args : Args.t) (results : list CrawlResult)
    (n : nat) (o : Output) (e : Exn) :
  for_each (batch_save_body args) n results = (o, Raise e) →
  ∃ r, r ∈ results ∧ success r = true ∧ is_Some (markdown r)
       ∧ get_filename_from_url (url r) = Raise e.
Proof.
  revert n o. induction results as [|r results IH]; intros n o Hloop;
    [done|].
  rewrite for_each_cons in Hloop.
  apply bind_raise_inv in Hloop
    as [Hbody | (o1 & n1 & o2 & _ & Hrest & _)].
  - exists r. split; [left|]. unfold batch_save_body in Hbody.
    destruct (markdown r) as [md|]; [|done].
    destruct (success r); [|done].
    apply bind_raise_inv in Hbody
      as [Hsave | (o1 & [] & o2 & _ & Hret & _)]; [|done].
    destruct (get_filename_from_url (url r)) as [filename|e'] eqn:Hname.
    + destruct (save_result_ok args r md filename Hname) as (msg & Hs & _).
      by rewrite Hs in Hsave.
    + pose proof (save_result_raise args r md e' Hname) as Hs.
      assert (e' = e) as -> by congruence. done.
  - destruct (IH _ _ Hrest) as (r' & Hin & Hr'). exists r'.
    split; [by right | done].
Qed.

(** Whatever ends [main] with an exception was raised by line 285 or
    while saving one of the crawled results. *)
Lemma main_try_raise (args : Args.t) (o : Output) (e : Exn) :
  main_try args = (o, Raise e) →
  configurable args = false ∧ e = AttributeError
  ∨ ∃ r, r ∈ crawl_results args ∧ to_save args r = true
         ∧ get_filename_from_url (url r) = Raise e.
Proof.
  rewrite main_try_unfold.
  destruct (configurable args); [|intros [= _ <-]; by left].
  intros [= _ Hmode]. right.
  assert (Args.save_markdown args = true
          ∧ ∃ ob, for_each (batch_save_body args) 0%nat (crawl_results args)
                  = (ob, Raise e)) as [Hsave [ob Hloop]].
  { destruct (Args.stream args).
    - pose proof (stream_mode_spec args (crawl_results args)) as (Hr & _).
      rewrite Hmode in Hr.
      destruct (Args.save_markdown args) eqn:Hsave.
      + destruct (stream_loop_saving args (crawl_results args) Hsave locals0)
          as (os & Hloop & _). rewrite Hloop in Hr. simpl in Hr.
        destruct (for_each (batch_save_body args) 0%nat (crawl_results args))
          as [ob [n|e']]; [done|]. injection Hr as ->. eauto.
      + destruct (stream_loop_plain args (crawl_results args) Hsave locals0)
          as (os & Hloop & _). by rewrite Hloop in Hr.
    - pose proof (batch_mode_spec args (crawl_results args)) as (Hr & _).
      rewrite Hmode in Hr.
      destruct (Args.save_markdown args); [|done].
      destruct (for_each (batch_save_body args) 0%nat (crawl_results args))
        as [ob [n|e']]; [done|]. injection Hr as ->. eauto. }
  destruct (batch_save_raise _ _ _ _ _ Hloop) as (r & Hin & Hs & Hmd & Hname).
  exists r. split; [done|]. split; [|done].
  unfold to_save. rewrite Hsave, Hs. simpl. by apply bool_decide_eq_true.
Qed.

(** C4: with the LLM filter selected and no token on the command line the
    program checks no credential: the filter is built with the absent
    token, and the environment variable that the package is left to read
    is announced. The configuration phase then returns for every cache
    mode but [refresh], for which line 285 raises [AttributeError] before
    any fetch. Whatever exception ends [main] is that [AttributeError] or
    was raised while saving a crawled result, after its fetch; the handler
    reports it with its three prints. The results of the crawler are
    given and the calls to the file system succeed. *)
Theorem no_credential_check (args : Args.t) :
  Args.content_filter args = Some llm →
  truthy (or_empty (Args.llm_api_token args)) = false →
  (∃ o, build_content_filter args
        = (o, Ok (Some (LLMContentFilter
                          {| provider := Args.llm_provider args;
                             api_token := Args.llm_api_token args |}
                          (Args.llm_instruction args)
                          (Args.chunk_token_threshold args)
                          (Args.llm_verbose args))))
        ∧ MsgTokenFromEnv
            (str_upper (hd [] (Str.split Str.slash (Args.llm_provider args)))
             ++ lit "_API_KEY") ∈ stdout o)
  ∧ (configurable args = true → ∃ o setup, configure args = (o, Ok setup))
  ∧ (configurable args = false →
     ∃ o, configure args = (o, Raise AttributeError)
          ∧ main_try args = (o, Raise AttributeError))
  ∧ ∀ o e, main_try args = (o, Raise e) →
      (configurable args = false ∧ e = AttributeError
       ∨ ∃ r, r ∈ crawl_results args ∧ to_save args r = true
              ∧ get_filename_from_url (url r) = Raise e)
      ∧ stdout (main args)
        = stdout o ++ [MsgError e; MsgTracebackBanner; MsgTraceback e].
Proof.
  intros Hllm Htoken. split; [|split; [|split]].
  - unfold build_content_filter. rewrite Hllm, Htoken.
    eexists. split; [reflexivity|]. simpl. set_solver.
  - intros Hmode. destruct (configure_returns args Hmode) as [setup Hret].
    destruct (configure args) as [o r]. simpl in Hret. subst r. eauto.
  - intros Hmode. rewrite main_try_unfold, Hmode.
    destruct (configure_raises args Hmode) as [o ->]. eauto.
  - intros o e Hraise. split; [by apply (main_try_raise args o)|].
    unfold main. by rewrite Hraise.
Qed.

End Errors.

(** With the LLM filter selected, no token given and saving on, the run
    announces the environment variable, starts the crawl, processes the
    first page and is then ended by the [IndexError] of its filename
    derivation. *)
Lemma fatal_error_after_fetch :
  let args :=
    Example.command_line (lit "https://localhost") 2 (Some llm) None true
      true in
  stdout (@main Example.ascii_pylib
            (Example.replay [Example.local_page; Example.docs_page]) args)
  = [MsgUsingLLM (lit "openai/gpt-4o") 4096;
     MsgLLMInstruction Example.default_llm_instruction;
     MsgTokenFromEnv (lit "OPENAI_API_KEY");
     MsgMarkdownWithFilter llm;
     MsgMemoryDispatcher (90 # 1) 10;
     MsgStreamingBanner;
     MsgProcessingBanner;
     MsgProcessed 1 (lit "https://localhost") 0;
     MsgError IndexError;
     MsgTracebackBanner;
     MsgTraceback IndexError].
Proof. vm_compute. reflexivity. Qed.

Lemma no_credential_check_witness :
  let args :=
    Example.command_line (lit "https://localhost") 2 (Some llm) None true
      true in
  let crawler := Example.replay [Example.local_page; Example.docs_page] in
  Args.content_filter args = Some llm
  ∧ truthy (or_empty (Args.llm_api_token args)) = false
  ∧ (∃ o setup, @configure Example.ascii_pylib args = (o, Ok setup))
  ∧ ∃ r, r ∈ @crawl_results Example.ascii_pylib crawler args
         ∧ to_save args r = true
         ∧ @get_filename_from_url Example.ascii_pylib (Crawl4ai.url r)
           = Raise IndexError.
Proof.
  intros args crawler. split; [reflexivity|]. split; [reflexivity|].
  pose proof (@no_credential_check Example.ascii_pylib crawler args
                eq_refl eq_refl) as (_ & Hconfigure & _ & Hraise).
  split; [exact (Hconfigure eq_refl)|].
  destruct (Hraise (@main_try Example.ascii_pylib crawler args).1
              IndexError eq_refl) as [[[Hmode _] | Horigin] _].
  - discriminate Hmode.
  - exact Horigin.
Defined.

(** With [--cache-mode refresh] and saving requested, the run announces
    the markdown generator and is then ended by the [AttributeError] of
    line 285: nothing is crawled, no directory is created and nothing is
    written. *)
Example refresh_ends_configuration :
  let args :=
    with_cache_mode refresh
      (Example.command_line (lit "https://example.com") 2 None None true
         false) in
  let crawler := Example.replay [Example.docs_page] in
  @main Example.ascii_pylib crawler args
  = {| stdout := [MsgMarkdownDefault; MsgError AttributeError;
                  MsgTracebackBanner; MsgTraceback AttributeError];
       written := []; made_dirs := [] |}
  ∧ @crawl_results Example.ascii_pylib crawler args = [].
Proof. split; vm_compute; reflexivity. Qed.

(** ** The breadth-first strategy *)

Module DeepCrawlFacts.
Import Crawl4ai FilterChainModel DeepCrawlModel.

Section Strategy.
Context `{PatternEngine} `{Web}.
Variable strategy : BFSDeepCrawlStrategy.

(** A link is queued one level below its task, and only within the
    maximum depth; nothing else of the frontier changes but the visited
    set. *)
Lemma admit_link_spec (task : CrawlTask) (fr : Frontier) (link : pystr) :
  outcomes (admit_link strategy task fr link) = outcomes fr
  ∧ produced (admit_link strategy task fr link) = produced fr
  ∧ ∃ new,
      queued (admit_link strategy task fr link) = queued fr ++ new
      ∧ Forall (fun t => task_depth t = task_depth task + 1
                         ∧ task_depth task + 1 ≤ max_depth strategy) new.
Proof.
  unfold admit_link.
  destruct (task_depth task + 1 <=? max_depth strategy) eqn:Hdepth; simpl.
  - apply Z.leb_le in Hdepth.
    match goal with
    | |- context [if ?c then _ else _] => destruct c
    end; simpl.
    + repeat split. eexists. split; [done|]. by repeat constructor.
    + repeat split. exists []. by rewrite app_nil_r.
  - repeat split. exists []. by rewrite app_nil_r.
Qed.

Lemma expand_spec (task : CrawlTask) (links : list pystr) (fr : Frontier) :
  outcomes (foldl (admit_link strategy task) fr links) = outcomes fr
  ∧ ∃ new,
      queued (foldl (admit_link strategy task) fr links) = queued fr ++ new
      ∧ Forall (fun t => task_depth t = task_depth task + 1
                         ∧ task_depth task + 1 ≤ max_depth strategy) new.
Proof.
  revert fr. induction links as [|link links IH]; intros fr; simpl.
  - split; [done|]. exists []. by rewrite app_nil_r.
  - destruct (IH (admit_link strategy task fr link))
      as (Ho & new2 & Hq & Hnew2).
    destruct (admit_link_spec task fr link) as (Ho1 & _ & new1 & Hq1 & Hnew1).
    split; [by rewrite Ho, Ho1|]. exists (new1 ++ new2).
    rewrite Hq, Hq1, app_assoc. split; [done|]. by apply Forall_app.
Qed.

(** A task adds at most its own outcome, at its own depth, and queues
    tasks one level deeper. *)
Lemma run_task_spec (fr : Frontier) (task : CrawlTask) :
  ∃ out new,
    outcomes (run_task strategy fr task) = outcomes fr ++ out
    ∧ queued (run_task strategy fr task) = queued fr ++ new
    ∧ Forall (fun o => depth o = task_depth task) out
    ∧ Forall (fun t => task_depth t = task_depth task + 1
                       ∧ task_depth task + 1 ≤ max_depth strategy) new.
Proof.
  unfold run_task. destruct (budget_exhausted strategy (produced fr)).
  { exists [], []. by rewrite !app_nil_r. }
  destruct (page_success (fetch (task_url task))); simpl.
  - match goal with
    | |- context [foldl _ ?fr0 ?links] =>
        destruct (expand_spec task links fr0) as (Ho & new & Hq & Hnew)
    end.
    eexists [_], new. rewrite Ho, Hq. simpl. split; [reflexivity|].
    split; [reflexivity|]. split; [|exact Hnew].
    constructor; [reflexivity | constructor].
  - eexists [_], []. split; [reflexivity|].
    split; [by rewrite app_nil_r|]. split; [|constructor].
    constructor; [reflexivity | constructor].
Qed.

(** A level of tasks of depth [k] adds outcomes of depth [k] and queues
    tasks of depth [k + 1], which is then within the maximum depth. *)
Lemma level_spec (k : Z) (level : list CrawlTask) (fr : Frontier) :
  Forall (fun t => task_depth t = k) level →
  ∃ out new,
    outcomes (foldl (run_task strategy) fr level) = outcomes fr ++ out
    ∧ queued (foldl (run_task strategy) fr level) = queued fr ++ new
    ∧ Forall (fun o => depth o = k) out
    ∧ Forall (fun t => task_depth t = k + 1
                       ∧ k + 1 ≤ max_depth strategy) new.
Proof.
  intros Hlevel. revert fr.
  induction Hlevel as [|task level Hk _ IH]; intros fr; simpl.
  - exists [], []. by rewrite !app_nil_r.
  - destruct (IH (run_task strategy fr task))
      as (out2 & new2 & Ho & Hq & Hout2 & Hnew2).
    destruct (run_task_spec fr task) as (out1 & new1 & Ho1 & Hq1 & Hout1 & Hnew1).
    rewrite Hk in Hout1, Hnew1.
    exists (out1 ++ out2), (new1 ++ new2).
    rewrite Ho, Hq, Ho1, Hq1, !app_assoc.
    split; [done|]. split; [done|]. split; by apply Forall_app.
Qed.

Lemma run_level_spec (k : Z) (level : list CrawlTask) (fr : Frontier) :
  Forall (fun t => task_depth t = k) level →
  ∃ out,
    outcomes (run_level strategy level fr) = outcomes fr ++ out
    ∧ Forall (fun o => depth o = k) out
    ∧ Forall (fun t => task_depth t = k + 1 ∧ k + 1 ≤ max_depth strategy)
        (queued (run_level strategy level fr)).
Proof.
  intros Hlevel. unfold run_level.
  match goal with
  | |- context [foldl _ ?fr0 _] =>
      destruct (level_spec k level fr0 Hlevel)
        as (out & new & Ho & Hq & Hout & Hnew)
  end.
  exists out. by rewrite Ho, Hq.
Qed.

Lemma crawl_levels_step (fuel : nat) (task : CrawlTask)
    (level : list CrawlTask) (fr : Frontier) :
  crawl_levels strategy (S fuel) (task :: level) fr
  = crawl_levels strategy fuel
      (queued (run_level strategy (task :: level) fr))
      (run_level strategy (task :: level) fr).
Proof. reflexivity. Qed.

(** From a level of depth [k], where [k] is 0 or within the maximum depth,
    the crawl adds outcomes whose depth is at least [k] and at most the
    maximum depth (or 0, for the start page). *)
Lemma crawl_levels_depths (fuel : nat) :
  ∀ (k : Z) (level : list CrawlTask) (fr : Frontier),
    0 ≤ k → k = 0 ∨ k ≤ max_depth strategy →
    Forall (fun t => task_depth t = k) level →
    ∃ out,
      outcomes (crawl_levels strategy fuel level fr).1 = outcomes fr ++ out
      ∧ Forall (fun o => k ≤ depth o ≤ Z.max 0 (max_depth strategy)) out.
Proof.
  induction fuel as [|fuel IH]; intros k level fr Hk0 Hk Hlevel.
  - exists []. rewrite app_nil_r. by destruct level.
  - destruct level as [|task level].
    { exists []. by rewrite app_nil_r. }
    rewrite crawl_levels_step.
    destruct (run_level_spec k (task :: level) fr Hlevel)
      as (out & Ho & Hout & Hnew).
    assert (Forall (fun o => k ≤ depth o ≤ Z.max 0 (max_depth strategy)) out)
      as Hout'.
    { eapply Forall_impl; [exact Hout|]. intros o ->. lia. }
    destruct (queued (run_level strategy (task :: level) fr))
      as [|t new] eqn:Hq.
    + exists out. by destruct fuel.
    + assert (k + 1 ≤ max_depth strategy) as Hnext.
      { by inversion Hnew as [|? ? [_ ?] _]. }
      destruct (IH (k + 1) (t :: new)
                  (run_level strategy (task :: level) fr))
        as (out2 & Ho2 & Hout2); [lia | by right | |].
      { eapply Forall_impl; [exact Hnew|]. by intros ? [? _]. }
      rewrite Ho2, Ho. exists (out ++ out2). rewrite app_assoc.
      split; [done|]. apply Forall_app. split; [done|].
      eapply Forall_impl; [exact Hout2|]. simpl. lia.
Qed.

(** With a level for every depth up to the maximum, no task is left
    over. *)
Lemma crawl_levels_complete (fuel : nat) :
  ∀ (k : Z) (level : list CrawlTask) (fr : Frontier),
    Forall (fun t => task_depth t = k) level →
    level = [] ∨ (Z.to_nat (max_depth strategy - k) < fuel)%nat →
    (crawl_levels strategy fuel level fr).2 = [].
Proof.
  induction fuel as [|fuel IH]; intros k level fr Hlevel Hfuel.
  - destruct Hfuel as [-> | ?]; [done | lia].
  - destruct level as [|task level]; [done|].
    destruct Hfuel as [? | Hfuel]; [done|].
    rewrite crawl_levels_step.
    destruct (run_level_spec k (task :: level) fr Hlevel)
      as (out & _ & _ & Hnew).
    apply (IH (k + 1)).
    + eapply Forall_impl; [exact Hnew|]. by intros ? [? _].
    + destruct (queued (run_level strategy (task :: level) fr))
        as [|t new]; [by left | right].
      inversion Hnew as [|? ? [_ ?] _]. lia.
Qed.

(** Every outcome of the crawl has a depth between 0 and the maximum
    depth (or 0), and the crawl leaves no task behind. *)
Lemma deep_crawl_depths (start_url : pystr) :
  Forall (fun o => 0 ≤ depth o ≤ Z.max 0 (max_depth strategy))
    (deep_crawl strategy start_url)
  ∧ (crawl_levels strategy (levels_needed strategy)
       [start_task start_url] (start_frontier start_url)).2 = [].
Proof.
  split.
  - unfold deep_crawl.
    destruct (crawl_levels_depths (levels_needed strategy) 0
                [start_task start_url] (start_frontier start_url))
      as (out & -> & Hout); [lia | by left | by repeat constructor |].
    done.
  - apply (crawl_levels_complete _ 0); [by repeat constructor|].
    right. unfold levels_needed. rewrite Z.sub_0_r. lia.
Qed.

End Strategy.

Lemma depth_of_to_crawl_result (o : FetchOutcome) :
  depth_of (to_crawl_result o) = depth o.
Proof. unfold depth_of, to_crawl_result. simpl. by rewrite lookup_singleton_eq. Qed.

End DeepCrawlFacts.

(** ** Depths of the crawled pages *)

Section QuietConfiguration.
Context `{PyLib}.

Lemma configure_quiet (args : Args.t) : quiet (configure args).1.
Proof.
  unfold configure, build_content_filter, when.
  repeat first
    [ apply quiet_bind
    | progress intros
    | match goal with
      | |- context [match ?x with _ => _ end] => destruct x
      | |- context [if ?b then _ else _] => destruct b
      end
    | done ].
Qed.

(** The depth lines a mode prints, if any, are those of the grouping of
    all results. *)
Lemma mode_reported_depths (stream : bool) (args : Args.t)
    (results : list Crawl4ai.CrawlResult) (d : Z) (n : nat) :
  (d, n) ∈ reported_depths
             (if stream then stream_mode args results
              else batch_mode args results).1 →
  (d, n) ∈ depth_lines (group_by_depth results).
Proof.
  destruct stream.
  - pose proof (stream_mode_spec args results) as (_ & _ & _ & -> & _).
    destruct (Args.save_markdown args) eqn:Hsave.
    + destruct (stream_loop_saving args results Hsave locals0)
        as (os & -> & _). simpl.
      by destruct (for_each (batch_save_body args) 0%nat results).2;
        [|intros ?%not_elem_of_nil].
    + by destruct (stream_loop_plain args results Hsave locals0)
        as (os & -> & _).
  - by pose proof (batch_mode_spec args results) as (_ & _ & _ & -> & _).
Qed.

End QuietConfiguration.

Section Depths.
Context `{PyLib} `{FilterChainModel.PatternEngine} `{DeepCrawlModel.Web}.
Import Crawl4ai DeepCrawlModel DeepCrawlFacts.

Lemma bfs_crawl_results (args : Args.t) :
  configurable args = true →
  @crawl_results _ bfs_crawler args
  = map to_crawl_result (deep_crawl (build_strategy args) (Args.url args)).
Proof.
  intros Hmode. unfold crawl_results.
  destruct (configure_returns args Hmode) as [setup Hret].
  destruct (configure args) as [o r] eqn:Hc. simpl in Hret. subst r.
  simpl. by rewrite (configure_strategy _ _ _ Hc).
Qed.

Lemma bfs_crawl_results_depths (args : Args.t) :
  Forall (fun r => 0 ≤ depth_of r ≤ Z.max 0 (Args.max_depth args))
    (@crawl_results _ bfs_crawler args).
Proof.
  destruct (configurable args) eqn:Hmode;
    [|rewrite (@crawl_results_unconfigured _ bfs_crawler args Hmode);
      constructor].
  rewrite (bfs_crawl_results args Hmode). apply Forall_map.
  destruct (deep_crawl_depths (build_strategy args) (Args.url args))
    as [Hdepths _].
  eapply Forall_impl; [exact Hdepths|]. intros o Ho. simpl.
  by rewrite depth_of_to_crawl_result.
Qed.

(** C5: for the breadth-first crawl configured with [max_depth = d], every
    delivered result has a depth between 0 and max(d, 0), and so has every
    depth recorded in the per-depth grouping and every depth line of the
    summary; the crawl leaves no admitted task unprocessed. *)
Theorem depth_within_maximum (args : Args.t) :
  let results := @crawl_results _ bfs_crawler args in
  let bound := Z.max 0 (Args.max_depth args) in
  Forall (fun r => 0 ≤ depth_of r ≤ bound) results
  ∧ (∀ d urls, group_by_depth results !! d = Some urls → 0 ≤ d ≤ bound)
  ∧ (∀ o st, @main_try _ bfs_crawler args = (o, Ok st) →
             pages_by_depth st = group_by_depth results)
  ∧ (∀ d n, (d, n) ∈ reported_depths (@main _ bfs_crawler args) →
            0 ≤ d ≤ bound)
  ∧ (crawl_levels (build_strategy args)
       (levels_needed (build_strategy args))
       [start_task (Args.url args)] (start_frontier (Args.url args))).2 = [].
Proof.
  intros results bound.
  pose proof (bfs_crawl_results_depths args) as Hdepths.
  fold results bound in Hdepths.
  assert (∀ d urls, group_by_depth results !! d = Some urls → 0 ≤ d ≤ bound)
    as Hkeys.
  { intros d urls Hd.
    destruct (group_by_depth_keys _ _ _ Hd) as (r & Hin & <-).
    by apply (proj1 (Forall_forall _ _) Hdepths). }
  split; [done|]. split; [done|]. split; [|split].
  - intros o st Hrun. rewrite main_try_unfold in Hrun.
    fold results in Hrun. destruct (configurable args); [|done].
    destruct (if Args.stream args then _ else _) as [om rm] eqn:Hmode.
    simpl in Hrun. injection Hrun as _ ->.
    by apply mode_returns_inv in Hmode as (_ & ? & _).
  - intros d n Hline.
    assert ((d, n) ∈ depth_lines (group_by_depth results)) as Hin.
    { apply (mode_reported_depths (Args.stream args) args).
      unfold main in Hline. rewrite main_try_unfold in Hline.
      fold results in Hline.
      pose proof (configure_quiet args) as (_ & Hq & _).
      destruct (configurable args).
      - destruct (Args.stream args);
          match type of Hline with
          | context [(?m).2] => destruct m as [om [st|e]]
          end; cbn [fst snd] in Hline |- *;
          rewrite ?reported_depths_app, Hq in Hline; simpl in Hline;
          by rewrite ?app_nil_r in Hline.
      - rewrite reported_depths_app, Hq in Hline.
        by apply elem_of_nil in Hline. }
    apply depth_lines_elem in Hin as [Hne _].
    destruct (at_depth d results) as [|r rs] eqn:Hrs; [done|].
    assert (r ∈ at_depth d results) as Hr by (rewrite Hrs; left).
    unfold at_depth in Hr. apply list_elem_of_filter in Hr as [<- Hr].
    by apply (proj1 (Forall_forall _ _) Hdepths).
  - apply deep_crawl_depths.
Qed.

End Depths.

(** The specification's scenario 7: maximum depth 1, no filters, no
    external links: the root and its two same-domain pages are delivered,
    the external link is dropped. *)
Example scenario_same_domain :
  let args :=
    Example.command_line Example.root_url 1 None None false false in
  map (fun r => (Crawl4ai.url r, depth_of r))
    (@crawl_results Example.ascii_pylib Example.scenario_crawler args)
  = [(Example.root_url, 0); (lit "https://example.com/a", 1);
     (lit "https://example.com/b", 1)].
Proof. vm_compute. reflexivity. Qed.

(** The specification's scenario 9: with a page budget of 1 the root is
    the only outcome and none of its links is dispatched. *)
Example scenario_page_budget :
  map (fun o => (DeepCrawlModel.outcome_url o, DeepCrawlModel.depth o))
    (@DeepCrawlModel.deep_crawl Example.any_pattern Example.scenario_web
       {| Crawl4ai.max_depth := 1;
          Crawl4ai.include_external := false;
          Crawl4ai.filter_chain := Some {| Crawl4ai.filters := [] |};
          Crawl4ai.max_pages := Some 1 |}
       Example.root_url)
  = [(Example.root_url, 0)].
Proof. vm_compute. reflexivity. Qed.

(** With [--max-depth -1] the start page is still fetched and reported at
    depth 0, above the configured maximum. *)
Lemma start_page_above_negative_maximum :
  let args :=
    Example.command_line Example.root_url (-1) None None false false in
  Args.max_depth args = -1
  ∧ map depth_of
      (@crawl_results Example.ascii_pylib Example.scenario_crawler args)
    = [0]
  ∧ reported_depths
      (@main Example.ascii_pylib Example.scenario_crawler args)
    = [(0, 1%nat)].
Proof. repeat split; vm_compute; reflexivity. Qed.

(** ** The rate limiter *)

Module RateLimiterFacts.
Import RateLimiterModel.

Section Limiter.
Variable limits : Limits.

(** Doubling under the ceiling, step by step, is doubling all at once
    under the ceiling. *)
Lemma backoff_from_reset (base : Delay) (k : nat) :
  foldl (observe limits) (reset limits base) (replicate k Throttle)
  = {| currentDelay := N.min (base * 2 ^ N.of_nat k) (maxDelay limits);
       consecutiveThrottles := k |}.
Proof.
  induction k as [|k IH].
  - simpl. unfold reset. f_equal. lia.
  - rewrite replicate_S_end, foldl_app, IH. simpl. f_equal.
    rewrite Nat2N.inj_succ, N.pow_succ_r'. lia.
Qed.

Lemma observe_after_success (st : RateLimiterState)
    (earlier : list Signal) (base : Delay) :
  foldl (observe limits) st (earlier ++ [Success base]) = reset limits base.
Proof. by rewrite foldl_app. Qed.

(** A task never uses more retries than allowed, and one that ended
    exhausted has used them all. *)
Lemma respond_retries (run : TaskRun) (s : Signal) :
  (retries run ≤ maxRetries limits)%nat
  ∧ (outcome run = ThrottleExhausted → retries run = maxRetries limits) →
  (retries (respond limits run s) ≤ maxRetries limits)%nat
  ∧ (outcome (respond limits run s) = ThrottleExhausted →
     retries (respond limits run s) = maxRetries limits).
Proof.
  intros [Hle Hex]. unfold respond.
  destruct (outcome run) eqn:Ho;
    [split; [done | congruence] | split; [done | by rewrite Ho] |].
  destruct s as [|base']; simpl; [|done].
  destruct (retries run <? maxRetries limits)%nat eqn:Hlt; simpl.
  - apply Nat.ltb_lt in Hlt. split; [lia | done].
  - apply Nat.ltb_ge in Hlt. split; [done | lia].
Qed.

Lemma run_retries (base : Delay) (responses : list Signal) :
  (retries (foldl (respond limits) (start_run limits base) responses)
   ≤ maxRetries limits)%nat
  ∧ (outcome (foldl (respond limits) (start_run limits base) responses)
     = ThrottleExhausted →
     retries (foldl (respond limits) (start_run limits base) responses)
     = maxRetries limits).
Proof.
  induction responses as [|s responses IH] using rev_ind.
  - simpl. split; [lia | done].
  - rewrite foldl_app. simpl. by apply respond_retries.
Qed.

(** While retries remain a throttled task stays pending, with one retry
    used per throttle and the domain backing off. *)
Lemma throttled_run (base : Delay) (k : nat) :
  (k ≤ maxRetries limits)%nat →
  foldl (respond limits) (start_run limits base) (replicate k Throttle)
  = {| outcome := Pending; retries := k;
       domain := foldl (observe limits) (reset limits base)
                   (replicate k Throttle) |}.
Proof.
  induction k as [|k IH]; intros Hk; [done|].
  rewrite !replicate_S_end, !foldl_app, IH by lia. simpl.
  unfold respond. simpl.
  by destruct (Nat.ltb_spec k (maxRetries limits)); [|lia].
Qed.

(** A terminated task takes no further response. *)
Lemma terminated_run (run : TaskRun) (responses : list Signal) :
  outcome run ≠ Pending → foldl (respond limits) run responses = run.
Proof.
  intros Hdone. induction responses as [|s responses IH]; [done|].
  simpl. unfold respond at 2. by destruct (outcome run).
Qed.

(** One throttle more than the allowed retries exhausts the task, whatever
    comes after. *)
Lemma exhausted_run (base : Delay) (later : list Signal) :
  foldl (respond limits) (start_run limits base)
    (replicate (S (maxRetries limits)) Throttle ++ later)
  = {| outcome := ThrottleExhausted; retries := maxRetries limits;
       domain := foldl (observe limits) (reset limits base)
                   (replicate (S (maxRetries limits)) Throttle) |}.
Proof.
  rewrite foldl_app, !replicate_S_end, !foldl_app, throttled_run by lia.
  simpl. unfold respond at 2. simpl. rewrite Nat.ltb_irrefl.
  by apply terminated_run.
Qed.

End Limiter.

(** C7: in every run of the rate limiter the delay applied after [k]
    consecutive throttles of a domain is [min (base * 2^k) maxDelay], from
    the start and after any earlier history ending in a success that reset
    the delay to [base]; this is also the delay a task sees before each
    retry. The retry count of a task never exceeds [maxRetries], a task
    exhausted has used exactly [maxRetries] retries, and a task throttled
    [maxRetries + 1] times in a row ends with [ThrottleExhausted]. *)
Theorem backoff_and_retries (limits : Limits) (base : Delay) :
  (∀ k, waitFor (foldl (observe limits) (reset limits base)
                   (replicate k Throttle))
        = N.min (base * 2 ^ N.of_nat k) (maxDelay limits))
  ∧ (∀ st earlier k,
       waitFor (foldl (observe limits) st
                  (earlier ++ [Success base] ++ replicate k Throttle))
       = N.min (base * 2 ^ N.of_nat k) (maxDelay limits))
  ∧ (∀ k, (k ≤ S (maxRetries limits))%nat →
       waitFor (domain (foldl (respond limits) (start_run limits base)
                          (replicate k Throttle)))
       = N.min (base * 2 ^ N.of_nat k) (maxDelay limits))
  ∧ (∀ responses,
       Forall (fun run => (retries run ≤ maxRetries limits)%nat
                          ∧ (outcome run = ThrottleExhausted →
                             retries run = maxRetries limits))
         (task_trace limits base responses))
  ∧ (∀ later,
       outcome (foldl (respond limits) (start_run limits base)
                  (replicate (S (maxRetries limits)) Throttle ++ later))
       = ThrottleExhausted).
Proof.
  split; [|split; [|split; [|split]]].
  - intros k. by rewrite backoff_from_reset.
  - intros st earlier k.
    by rewrite app_assoc, foldl_app, observe_after_success,
      backoff_from_reset.
  - intros k Hk. destruct (decide (k ≤ maxRetries limits)%nat) as [Hle|Hgt].
    + by rewrite throttled_run, backoff_from_reset.
    + assert (k = S (maxRetries limits)) as -> by lia.
      rewrite <- (app_nil_r (replicate _ _)), exhausted_run.
      cbn [domain]. by rewrite backoff_from_reset.
  - intros responses. unfold task_trace. apply Forall_map, Forall_forall.
    intros n _. apply run_retries.
  - intros later. by rewrite exhausted_run.
Qed.

End RateLimiterFacts.

(** * Further properties *)

(** ** Where the filename comes from *)

Module SplitFacts.
Import Str StrFacts.

(** Splitting at a separator splits what precedes it and what follows
    it. *)
Lemma split_app (c : char) (a b : pystr) :
  split c (a ++ c :: b) = split c a ++ split c b.
Proof.
  induction a as [|x a IH]; simpl.
  - by rewrite N.eqb_refl.
  - destruct (N.eqb x c); [by rewrite IH|]. rewrite IH.
    pose proof (split_nonempty c a). by destruct (split c a).
Qed.

(** The last two pieces of a string that ends with two components. *)
Lemma split_last_two (c : char) (lead parent last : pystr) :
  ends_component c lead →
  contains c parent = false → contains c last = false →
  ∃ pieces, split c (lead ++ parent ++ [c] ++ last)
            = pieces ++ [parent; last].
Proof.
  intros Hlead Hparent Hlast.
  change (parent ++ [c] ++ last) with (parent ++ c :: last).
  assert (split c (parent ++ c :: last) = [parent; last]) as Htwo.
  { by rewrite split_app, !split_no_separator. }
  destruct Hlead as [-> | [pre ->]].
  - exists []. exact Htwo.
  - exists (split c pre). rewrite <- app_assoc.
    change ([c] ++ parent ++ c :: last) with (c :: (parent ++ c :: last)).
    rewrite split_app. f_equal. exact Htwo.
Qed.

Lemma index_from_end_app {A} (pieces : list A) (x y : A) :
  index_from_end (pieces ++ [x; y]) 1 = Ok y
  ∧ index_from_end (pieces ++ [x; y]) 2 = Ok x.
Proof.
  unfold index_from_end. by rewrite rev_app_distr.
Qed.

Lemma contains_app (c : char) (a b : pystr) :
  contains c (a ++ b) = contains c a || contains c b.
Proof. unfold contains. apply existsb_app. Qed.

Lemma contains_head (c : char) (s : pystr) : contains c (c :: s) = true.
Proof. unfold contains. simpl. by rewrite N.eqb_refl. Qed.

End SplitFacts.

Section FilenameOrigin.
Context `{PyLib}.
Import Str StrFacts SplitFacts.

(** The derivation is the choice of a name followed by its cleaning. *)
Lemma get_filename_unfold (url : pystr) (p : ParseResult) (name : pystr) :
  urlparse url = Ok p →
  (let path := rstrip slash (path p) in
   if truthy path && contains slash path then
     let path_parts := split slash path in
     last_part ← index_from_end path_parts 1;
     parent_part ←
       (if (2 <=? length path_parts)%nat
        then index_from_end path_parts 2
        else Ok []);
     if truthy parent_part
     then Ok (parent_part ++ [underscore] ++ last_part)
     else Ok last_part
   else if truthy path then Ok path
   else index_from_end (split dot (netloc p)) 2) = Ok name →
  get_filename_from_url url = Ok (clean_filename name).
Proof.
  intros Hparse Hname. unfold get_filename_from_url. rewrite Hparse.
  unfold mbind at 1, result_bind at 1.
  cbv zeta in Hname. unfold mbind at 1, result_bind at 1.
  by rewrite Hname.
Qed.

(** X1: for a URL whose path, after stripping trailing slashes, ends in
    [parent/last], the filename is the cleaned [parent_last], or the
    cleaned [last] when [parent] is empty; it depends on nothing else of
    the URL. *)
Theorem filename_of_nested_path (url : pystr) (p : ParseResult)
    (lead parent last : pystr) :
  urlparse url = Ok p →
  rstrip slash (path p) = lead ++ parent ++ [slash] ++ last →
  ends_component slash lead →
  contains slash parent = false → contains slash last = false →
  get_filename_from_url url
  = Ok (clean_filename (if truthy parent
                        then parent ++ [underscore] ++ last
                        else last)).
Proof.
  intros Hparse Hpath Hlead Hparent Hlast.
  apply (get_filename_unfold url p); [done|]. cbv zeta. rewrite Hpath.
  destruct (split_last_two slash lead parent last Hlead Hparent Hlast)
    as [pieces Hsplit].
  assert (truthy (lead ++ parent ++ [slash] ++ last)
          && contains slash (lead ++ parent ++ [slash] ++ last) = true)
    as ->.
  { change ([slash] ++ last) with (slash :: last).
    rewrite !contains_app, contains_head, !orb_true_r.
    by destruct lead, parent. }
  rewrite Hsplit.
  destruct (index_from_end_app pieces parent last) as [-> ->].
  unfold mbind, result_bind.
  assert ((2 <=? length (pieces ++ [parent; last]))%nat = true) as ->.
  { apply Nat.leb_le. rewrite length_app. simpl. lia. }
  by destruct (truthy parent).
Qed.

(** X2: for a URL with no path (or only slashes) whose network location
    ends in [label.last], the filename is the cleaned [label], the
    second-to-last dot-separated part of the location, whatever precedes
    it: the fallback name [index] when nothing is left of the label once
    a query or fragment is removed, as for an empty label, and otherwise
    what is left with its invalid characters replaced. *)
Theorem filename_of_root_url (url : pystr) (p : ParseResult)
    (lead label last : pystr) :
  urlparse url = Ok p →
  rstrip slash (path p) = [] →
  netloc p = lead ++ label ++ [dot] ++ last →
  ends_component dot lead →
  contains dot label = false → contains dot last = false →
  get_filename_from_url url = Ok (clean_filename label)
  ∧ (Re.sub_query_fragment label = [] →
     get_filename_from_url url = Ok (lit "index"))
  ∧ (Re.sub_query_fragment label ≠ [] →
     get_filename_from_url url
     = Ok (Re.sub_invalid (Re.sub_query_fragment label))).
Proof.
  intros Hparse Hpath Hnetloc Hlead Hlabel Hlast.
  assert (get_filename_from_url url = Ok (clean_filename label)) as ->.
  { apply (get_filename_unfold url p); [done|]. cbv zeta.
    rewrite Hpath, Hnetloc.
    destruct (split_last_two dot lead label last Hlead Hlabel Hlast)
      as [pieces Hsplit].
    rewrite Hsplit.
    by destruct (index_from_end_app pieces label last) as [_ ->]. }
  split; [done|]. unfold clean_filename. split.
  - by intros ->.
  - intros Hleft. by destruct (Re.sub_query_fragment label).
Qed.

(** Without a newline, everything from the first [?] or [#] on is
    removed. *)
Lemma sub_query_fragment_plain (s : pystr) :
  contains newline s = false → Re.sub_query_fragment s = before_query s.
Proof.
  assert (∀ t, contains newline t = false → Re.dot_star_eol t = Some [])
    as Hmatch.
  { unfold contains. induction t as [|x t IH];
      cbn [existsb Re.dot_star_eol]; [done|].
    intros Hno. apply orb_false_iff in Hno as [Hx Ht].
    rewrite N.eqb_sym, Hx. by apply IH. }
  unfold contains. induction s as [|x s IH];
    cbn [existsb Re.sub_query_fragment before_query]; [done|].
  intros Hno. apply orb_false_iff in Hno as [Hx Hs].
  destruct (N.eqb x qmark || N.eqb x hash).
  - by rewrite (Hmatch s Hs).
  - by rewrite (IH Hs).
Qed.

Lemma before_query_clean (s : pystr) :
  contains qmark (before_query s) = false
  ∧ contains hash (before_query s) = false.
Proof.
  unfold contains. induction s as [|x s [IHq IHh]];
    cbn [existsb before_query]; [done|].
  destruct (N.eqb x qmark) eqn:Hq; cbn [orb existsb]; [done|].
  destruct (N.eqb x hash) eqn:Hh; cbn [orb existsb]; [done|].
  by rewrite (N.eqb_sym qmark), Hq, (N.eqb_sym hash), Hh, IHq, IHh.
Qed.

Lemma before_query_id (s : pystr) :
  contains qmark s = false → contains hash s = false → before_query s = s.
Proof.
  unfold contains. induction s as [|x s IH];
    cbn [existsb before_query]; [done|].
  intros Hq Hh. apply orb_false_iff in Hq as [Hq Hqs].
  apply orb_false_iff in Hh as [Hh Hhs].
  rewrite (N.eqb_sym x), Hq, (N.eqb_sym x), Hh. cbn [orb]. by rewrite IH.
Qed.

(** X3: on a name without newline, the query-and-fragment substitution
    keeps exactly what precedes the first [?] or [#], so its result holds
    neither; a name holding neither is left as it is. *)
Theorem query_and_fragment_removed (s : pystr) :
  contains newline s = false →
  Re.sub_query_fragment s = before_query s
  ∧ contains qmark (Re.sub_query_fragment s) = false
  ∧ contains hash (Re.sub_query_fragment s) = false
  ∧ (contains qmark s = false → contains hash s = false →
     Re.sub_query_fragment s = s).
Proof.
  intros Hno. rewrite (sub_query_fragment_plain s Hno).
  split; [done|]. destruct (before_query_clean s) as [Hq Hh].
  split; [done|]. split; [done|]. apply before_query_id.
Qed.

(** A cleaned name is made of word characters, hyphens and dots. *)
Lemma clean_filename_chars (name : pystr) :
  clean_filename name ≠ []
  ∧ Forall (fun c => filename_char c = true) (clean_filename name).
Proof.
  unfold clean_filename. split; [|apply sub_invalid_chars].
  intros Hnil. apply (f_equal truthy) in Hnil.
  unfold Re.sub_invalid in Hnil. rewrite truthy_map in Hnil.
  by destruct (truthy (Re.sub_query_fragment name)) eqn:Htruthy;
    [rewrite Htruthy in Hnil|].
Qed.

Lemma filename_char_ordinary (c : char) :
  filename_char c = true →
  c ≠ slash ∧ c ≠ qmark ∧ c ≠ hash ∧ c ≠ newline.
Proof.
  unfold filename_char, Re.is_word, Re.ascii_alnum, slash, hyphen, dot,
    underscore, qmark, hash, newline.
  destruct (N.ltb_spec c 128) as [Hlt|Hge]; [|lia].
  intros Hc.
  repeat match type of Hc with
         | (_ || _) = true => apply orb_true_iff in Hc as [Hc|Hc]
         | (_ && _) = true => apply andb_true_iff in Hc as [? Hc]
         end;
    repeat match goal with
           | H : (_ <=? _)%N = true |- _ => apply N.leb_le in H
           | H : (_ =? _)%N = true |- _ => apply N.eqb_eq in H
           end; lia.
Qed.

Lemma contains_false (c : char) (s : pystr) :
  Forall (fun x => x ≠ c) s → contains c s = false.
Proof.
  unfold contains. induction 1 as [|x s Hx _ IH]; simpl; [done|].
  rewrite IH, orb_false_r. apply N.eqb_neq. congruence.
Qed.

Lemma sub_invalid_id (s : pystr) :
  Forall (fun c => filename_char c = true) s → Re.sub_invalid s = s.
Proof.
  unfold Re.sub_invalid. induction 1 as [|c s Hc _ IH]; simpl; [done|].
  rewrite IH. unfold Re.is_invalid. fold (filename_char c).
  by rewrite Hc.
Qed.

(** A derived filename is a cleaned name. *)
Lemma get_filename_inv (url filename : pystr) :
  get_filename_from_url url = Ok filename →
  ∃ name, filename = clean_filename name.
Proof.
  unfold get_filename_from_url, clean_filename.
  destruct (urlparse url) as [p|e]; [|done].
  unfold mbind at 1, result_bind at 1. cbv zeta.
  match goal with
  | |- mbind _ ?m = _ → _ => destruct m as [name|e]; [|done]
  end.
  unfold mbind, result_bind. intros [= <-]. by exists name.
Qed.

(** X4: cleaning is idempotent: a cleaned name is left as it is by a
    second cleaning. Every filename that [get_filename_from_url] returns
    is a cleaned name, so cleaning it again gives the same filename. *)
Theorem clean_filename_idempotent (name : pystr) :
  clean_filename (clean_filename name) = clean_filename name
  ∧ ∀ url filename,
      get_filename_from_url url = Ok filename →
      (∃ chosen, filename = clean_filename chosen)
      ∧ clean_filename filename = filename.
Proof.
  assert (∀ name,
            clean_filename (clean_filename name) = clean_filename name)
    as Hidem; [clear name; intros name|].
  2: { split; [apply Hidem|]. intros url filename Hname.
       destruct (get_filename_inv url filename Hname) as [chosen ->].
       split; [by exists chosen | apply Hidem]. }
  destruct (clean_filename_chars name) as [Hne Hchars].
  set (cleaned := clean_filename name) in *.
  assert (Re.sub_query_fragment cleaned = cleaned) as Hsame.
  { rewrite sub_query_fragment_plain.
    - apply before_query_id; apply contains_false;
        (eapply Forall_impl; [exact Hchars|]);
        intros c Hc; by destruct (filename_char_ordinary c Hc) as (?&?&?&?).
    - apply contains_false. eapply Forall_impl; [exact Hchars|].
      intros c Hc. by destruct (filename_char_ordinary c Hc) as (?&?&?&?). }
  unfold clean_filename at 1. rewrite Hsame.
  destruct cleaned; [done|]. simpl truthy. cbv iota.
  by apply sub_invalid_id.
Qed.

End FilenameOrigin.

Lemma filename_of_nested_path_witness :
  @get_filename_from_url Example.ascii_pylib
     (lit "https://console.groq.com/docs/libraries")
  = Ok (@clean_filename Example.ascii_pylib (lit "docs_libraries")).
Proof.
  refine (@filename_of_nested_path Example.ascii_pylib
            (lit "https://console.groq.com/docs/libraries") _
            (lit "/") (lit "docs") (lit "libraries") eq_refl eq_refl
            _ eq_refl eq_refl).
  right. by exists [].
Defined.

Lemma filename_of_root_url_witness :
  @get_filename_from_url Example.ascii_pylib (lit "https://www.example.com/")
  = Ok (@clean_filename Example.ascii_pylib (lit "example")).
Proof.
  refine (proj1 (@filename_of_root_url Example.ascii_pylib
                   (lit "https://www.example.com/") _
                   (lit "www.") (lit "example") (lit "com") eq_refl eq_refl
                   eq_refl _ eq_refl eq_refl)).
  right. by exists (lit "www").
Defined.

Lemma query_and_fragment_removed_witness :
  Re.sub_query_fragment (lit "page?x=1#top") = lit "page".
Proof.
  destruct (query_and_fragment_removed (lit "page?x=1#top") eq_refl)
    as [Hsub _].
  exact Hsub.
Defined.

(** ** What the two modes write and how they end *)

Lemma lines_of_app (P : Msg → bool) (o1 o2 : Output) :
  lines_of P (out_app o1 o2) = lines_of P o1 ++ lines_of P o2.
Proof. unfold lines_of. simpl. apply List.filter_app. Qed.

Lemma lines_of_without (P : Msg → bool) {A} (m : M A) :
  prints_within (fun x => negb (P x)) m → lines_of P m.1 = [].
Proof.
  unfold prints_within, lines_of. induction 1 as [|x l Hx _ IH]; [done|].
  simpl. apply negb_true_iff in Hx. by rewrite Hx.
Qed.

Lemma within_bind (P : Msg → bool) {A B} (f : A → M B) (m : M A) :
  prints_within P m → (∀ a, prints_within P (f a)) →
  prints_within P (mbind f m).
Proof.
  unfold prints_within. destruct m as [o [a|e]]; simpl; [|done].
  intros Hm Hf. specialize (Hf a). destruct (f a) as [o2 r2]. simpl in *.
  by apply Forall_app.
Qed.

Lemma within_print (P : Msg → bool) (m : Msg) :
  P m = true → prints_within P (print m).
Proof. intros Hm. by repeat constructor. Qed.

Lemma within_silent (P : Msg → bool) {A} (m : M A) :
  stdout m.1 = [] → prints_within P m.
Proof. unfold prints_within. intros ->. constructor. Qed.

Lemma within_for_each (P : Msg → bool) {A S} (body : S → A → M S)
    (l : list A) :
  (∀ s x, prints_within P (body s x)) →
  ∀ s, prints_within P (for_each body s l).
Proof.
  intros Hbody. induction l as [|x l IH]; intros s; simpl.
  - by apply within_silent.
  - apply within_bind; [apply Hbody | apply IH].
Qed.

Ltac within :=
  repeat first
    [ progress intros
    | apply within_bind
    | apply within_for_each
    | by apply within_silent
    | by apply within_print
    | progress unfold when
    | match goal with
      | |- context [match ?x with _ => _ end] => destruct x
      | |- context [if ?b then _ else _] => destruct b
      end ].

Section Closed.
Context `{PyLib}.
Import Crawl4ai.

(** The saving statements print only lines about the file they saved. *)
Lemma save_result_within (args : Args.t) (r : CrawlResult)
    (md : MarkdownGenerationResult) :
  prints_within is_save_line (save_result args r md).
Proof.
  destruct (get_filename_from_url (url r)) as [filename|e] eqn:Hname.
  - destruct (save_result_ok args r md filename Hname)
      as (msg & -> & [-> | ->]); unfold prints_within; simpl;
      repeat constructor; done.
  - rewrite (save_result_raise args r md e Hname). by apply within_silent.
Qed.

(** One round of the saving loop. *)
Lemma batch_save_body_closed (args : Args.t) (n : nat) (r : CrawlResult) :
  written (batch_save_body args n r).1
  = match save_attempt args r with
    | Some (Ok file) => [file]
    | _ => []
    end
  ∧ (batch_save_body args n r).2
    = match save_attempt args r with
      | Some (Ok _) => Ok (S n)
      | Some (Raise e) => Raise e
      | None => Ok n
      end.
Proof.
  unfold batch_save_body, save_attempt.
  destruct (markdown r) as [md|]; [|done].
  destruct (success r); [|done].
  destruct (get_filename_from_url (url r)) as [filename|e] eqn:Hname.
  - destruct (save_result_ok args r md filename Hname) as (msg & -> & _).
    done.
  - by rewrite (save_result_raise args r md e Hname).
Qed.

(** The saving loop writes the files of the results before the first
    failure, counts them, and ends with that failure if there is one. *)
Lemma batch_loop_closed (args : Args.t) (results : list CrawlResult) :
  ∀ n,
    written (for_each (batch_save_body args) n results).1
    = saved_files args results
    ∧ (for_each (batch_save_body args) n results).2
      = match save_failure args results with
        | Some e => Raise e
        | None => Ok (n + length (saved_files args results))%nat
        end.
Proof.
  induction results as [|r results IH]; intros n.
  - simpl. split; [done|]. do 2 f_equal. lia.
  - rewrite for_each_cons.
    destruct (batch_save_body_closed args n r) as [Hw Hr].
    destruct (batch_save_body args n r) as [o1 r1]. simpl in Hw, Hr.
    subst r1. cbn [saved_files save_failure].
    destruct (save_attempt args r) as [[file|e]|].
    + destruct (IH (S n)) as [IHw IHr].
      unfold mbind, M_bind.
      destruct (for_each (batch_save_body args) (S n) results) as [o2 r2].
      simpl in *. rewrite Hw, IHw, IHr. split; [done|].
      destruct (save_failure args results); [done|]. do 2 f_equal. lia.
    + done.
    + destruct (IH n) as [IHw IHr].
      unfold mbind, M_bind.
      destruct (for_each (batch_save_body args) n results) as [o2 r2].
      simpl in *. by rewrite Hw, IHw, IHr.
Qed.

(** Either mode writes the files of the results before the first failure,
    creates the output directory when saving is requested, and ends with
    the first failure or with the loop variables. *)
Lemma mode_closed (stream : bool) (args : Args.t)
    (results : list CrawlResult) :
  let run :=
    if stream then stream_mode args results else batch_mode args results in
  run.2 = outcome args results
  ∧ written run.1
    = (if Args.save_markdown args then saved_files args results else [])
  ∧ made_dirs run.1
    = (if Args.save_markdown args then [Args.output_dir args] else []).
Proof.
  destruct (batch_loop_closed args results 0) as [Hbw Hbr].
  unfold outcome. destruct stream; cbv zeta.
  - pose proof (stream_mode_spec args results) as (Hr & Hw & Hd & _).
    cbv zeta in Hr, Hw, Hd. rewrite Hr, Hw, Hd.
    destruct (Args.save_markdown args) eqn:Hsave.
    + destruct (stream_loop_saving args results Hsave locals0)
        as (os & Hloop & Hws & _). cbv zeta in Hloop, Hws.
      change (markdown_count locals0) with 0%nat in Hloop, Hws.
      rewrite Hloop. simpl. rewrite Hws, Hbw, Hbr.
      by destruct (save_failure args results).
    + destruct (stream_loop_plain args results Hsave locals0)
        as (os & Hloop & Hws & _). rewrite Hloop. simpl. by rewrite Hws.
  - pose proof (batch_mode_spec args results) as (Hr & Hw & Hd & _).
    cbv zeta in Hr, Hw, Hd. rewrite Hr, Hw, Hd, Hbw, Hbr.
    destruct (Args.save_markdown args); [|done].
    by destruct (save_failure args results).
Qed.

(** X5: whatever the crawl yields, streaming mode and batch mode write
    the same files in the same order, create the same directory, and end
    the same way, with the same loop variables or the same exception; the
    two modes can differ only in what they print. *)
Theorem modes_same_effects (args : Args.t) (results : list CrawlResult) :
  (stream_mode args results).2 = (batch_mode args results).2
  ∧ written (stream_mode args results).1
    = written (batch_mode args results).1
  ∧ made_dirs (stream_mode args results).1
    = made_dirs (batch_mode args results).1.
Proof.
  destruct (mode_closed true args results) as (Hr1 & Hw1 & Hd1).
  destruct (mode_closed false args results) as (Hr2 & Hw2 & Hd2).
  cbv zeta in *. by rewrite Hr1, Hr2, Hw1, Hw2, Hd1, Hd2.
Qed.

End Closed.

(** ** What the two modes print *)

Section Printed.
Context `{PyLib}.
Import Crawl4ai.

(** The lines of streaming mode: the banners, the lines of the loop and,
    when the loop completes, the summary and the closing line. *)
Lemma stream_mode_stdout (args : Args.t) (results : list CrawlResult) :
  let l := for_each (stream_body args) locals0 results in
  stdout (stream_mode args results).1
  = [MsgStreamingBanner; MsgProcessingBanner] ++ stdout l.1
    ++ match l.2 with
       | Ok st =>
           [MsgResultsBanner; MsgTotal (total_pages st)]
           ++ stdout (print_depths (pages_by_depth st)).1
           ++ (if Args.save_markdown args
               then [if (0 <? markdown_count st)%nat
                     then MsgSavedTo (Args.output_dir args)
                     else MsgNoMarkdown]
               else [])
       | Raise _ => []
       end.
Proof.
  intros l. unfold stream_mode.
  change (for_each (stream_body args) _ results) with l.
  destruct l as [ol [st|e]].
  - destruct (print_depths_spec (pages_by_depth st)) as (od & Hd & _).
    unfold mbind, M_bind, print, when, makedirs, mret, M_ret.
    cbn [fst snd].
    destruct (Args.save_markdown args), (0 <? markdown_count st)%nat;
      cbn beta iota; rewrite !Hd; simpl;
      rewrite ?app_nil_r, <- ?app_assoc; done.
  - unfold mbind, M_bind, print, when, makedirs, mret, M_ret.
    destruct (Args.save_markdown args); simpl; by rewrite ?app_nil_r.
Qed.

(** The lines of batch mode: the summary, then, when saving is
    requested, the banner of the saving loop, its lines and, when it
    completes, the closing line. *)
Lemma batch_mode_stdout (args : Args.t) (results : list CrawlResult) :
  let b := for_each (batch_save_body args) 0%nat results in
  stdout (batch_mode args results).1
  = [MsgResultsBanner; MsgTotal (length results)]
    ++ stdout (print_depths (group_by_depth results)).1
    ++ (if Args.save_markdown args
        then [MsgSavingBanner] ++ stdout b.1
             ++ match b.2 with
                | Ok n => [if (0 <? n)%nat
                           then MsgSavedTo (Args.output_dir args)
                           else MsgNoMarkdown]
                | Raise _ => []
                end
        else []).
Proof.
  intros b. unfold batch_mode. fold b.
  destruct (print_depths_spec (group_by_depth results)) as (od & Hd & _).
  rewrite !Hd. unfold mbind, M_bind, print, when, makedirs, mret, M_ret.
  destruct (Args.save_markdown args);
    [|simpl; by rewrite ?app_nil_r].
  destruct b as [ob [n|e]]; cbn [fst snd].
  - destruct (0 <? n)%nat; simpl; by rewrite ?app_nil_r, <- ?app_assoc.
  - simpl. by rewrite ?app_nil_r.
Qed.

End Printed.

Lemma within_weaken (P Q : Msg → bool) {A} (m : M A) :
  (∀ x, P x = true → Q x = true) → prints_within P m → prints_within Q m.
Proof.
  intros HPQ Hm. unfold prints_within. eapply Forall_impl; [exact Hm|].
  exact HPQ.
Qed.

Lemma print_depths_within (m : gmap Z (list pystr)) :
  prints_within is_depth_line (print_depths m).
Proof. unfold print_depths. within. Qed.

Section Lines.
Context `{PyLib}.
Import Crawl4ai.

Lemma batch_save_body_within (args : Args.t) (n : nat) (r : CrawlResult) :
  prints_within is_save_line (batch_save_body args n r).
Proof.
  unfold batch_save_body.
  destruct (markdown r) as [md|]; [|by apply within_silent].
  destruct (success r); [|by apply within_silent].
  apply within_bind; [apply save_result_within|].
  intros. by apply within_silent.
Qed.

Lemma batch_loop_within (args : Args.t) (results : list CrawlResult)
    (n : nat) :
  prints_within is_save_line (for_each (batch_save_body args) n results).
Proof.
  apply within_for_each. intros s r. apply batch_save_body_within.
Qed.

Lemma stream_loop_within (args : Args.t) (results : list CrawlResult)
    (st : Locals) :
  prints_within (fun x => is_progress_line x || is_save_line x)
    (for_each (stream_body args) st results).
Proof.
  apply within_for_each. clear st. intros st r. unfold stream_body.
  apply within_bind; [by apply within_print|]. intros _.
  apply within_bind; [|intros; by apply within_silent].
  destruct (markdown r) as [md|]; [|by apply within_silent].
  destruct (Args.save_markdown args && success r);
    [|by apply within_silent].
  apply within_bind; [|intros; by apply within_silent].
  eapply within_weaken; [|apply save_result_within].
  intros x ->. apply orb_true_r.
Qed.

End Lines.

Section MainFacts.
Context `{PyLib} `{Crawler}.
Import Crawl4ai.

Lemma configure_within (args : Args.t) :
  prints_within is_setup_line (configure args).
Proof. unfold configure, build_content_filter. within. Qed.

Lemma mode_nil (stream : bool) (args : Args.t) :
  written (if stream then stream_mode args [] else batch_mode args []).1
  = [].
Proof.
  destruct stream;
    [destruct (mode_closed true args []) as (_ & Hw & _)
    |destruct (mode_closed false args []) as (_ & Hw & _)];
    cbv zeta in Hw; rewrite Hw; by destruct (Args.save_markdown args).
Qed.

(** The handler adds its three lines to what the body of the [try]
    statement printed and nothing to what it wrote. *)
Lemma main_unfold (args : Args.t) :
  let run :=
    if Args.stream args
    then stream_mode args (crawl_results args)
    else batch_mode args (crawl_results args) in
  stdout (main args)
  = stdout (configure args).1
    ++ (if configurable args
        then stdout run.1
             ++ match run.2 with
                | Raise e => stdout (report e).1
                | Ok _ => []
                end
        else stdout (report AttributeError).1)
  ∧ written (main args) = written run.1
  ∧ made_dirs (main args)
    = (if configurable args then made_dirs run.1 else []).
Proof.
  cbv zeta. unfold main. rewrite main_try_unfold.
  destruct (configure_prints_only args) as [Hw Hd].
  destruct (configurable args) eqn:Hmode.
  - destruct (if Args.stream args then _ else _) as [o [st|e]];
      cbn [fst snd out_app stdout written made_dirs];
      rewrite Hw, Hd, ?app_nil_r, <- ?app_assoc; done.
  - rewrite (crawl_results_unconfigured args Hmode), mode_nil.
    cbn [fst snd out_app stdout written made_dirs].
    by rewrite Hw, Hd.
Qed.

(** X6: the files that [main] writes are, in the order of the crawl, the
    files of the successful results with a markdown object that come
    before the first failing filename derivation, and only when
    [--save-markdown] is given. The output directory is created exactly
    when [--save-markdown] is given and the configuration phase returns,
    that is, for every cache mode but [refresh]; it is created once,
    whether or not anything is saved. The results of the crawler are
    given and the calls to the file system succeed. *)
Theorem main_files (args : Args.t) :
  written (main args)
  = (if Args.save_markdown args
     then saved_files args (crawl_results args) else [])
  ∧ made_dirs (main args)
    = (if Args.save_markdown args && configurable args
       then [Args.output_dir args] else []).
Proof.
  destruct (main_unfold args) as (_ & -> & ->).
  destruct (mode_closed (Args.stream args) args (crawl_results args))
    as (_ & -> & ->).
  split; [done|].
  by destruct (Args.save_markdown args), (configurable args).
Qed.

(** A saved file lies directly in the output directory. *)
Lemma saved_path_shape (args : Args.t) (url filename : pystr) :
  get_filename_from_url url = Ok filename →
  ∃ sep,
    saved_path args filename
    = Args.output_dir args ++ sep ++ filename ++ lit ".md"
    ∧ (sep = [] ∨ sep = [Str.slash])
    ∧ Str.contains Str.slash (filename ++ lit ".md") = false.
Proof.
  intros Hname. apply get_filename_inv in Hname as [name ->].
  destruct (clean_filename_chars name) as [Hne Hchars].
  set (filename := clean_filename name) in *.
  assert (Forall (fun c => c ≠ Str.slash) filename) as Hplain.
  { eapply Forall_impl; [exact Hchars|]. intros c Hc.
    by destruct (filename_char_ordinary c Hc). }
  assert (Str.contains Str.slash (filename ++ lit ".md") = false) as Hno.
  { rewrite SplitFacts.contains_app, (contains_false _ _ Hplain). done. }
  unfold saved_path, os_path_join.
  destruct filename as [|c rest]; [done|].
  apply Forall_cons_1 in Hplain as [Hc _].
  apply N.eqb_neq in Hc. cbn [app]. rewrite Hc.
  destruct (negb (truthy (Args.output_dir args))
            || bool_decide (last (Args.output_dir args) = Some Str.slash)).
  - exists []. split; [done|]. split; [by left | done].
  - exists [Str.slash]. split; [done|]. split; [by right | done].
Qed.

Lemma saved_files_elem (args : Args.t) (results : list CrawlResult)
    (file : pystr * pystr) :
  file ∈ saved_files args results →
  ∃ r, r ∈ results ∧ save_attempt args r = Some (Ok file).
Proof.
  induction results as [|r results IH]; cbn [saved_files].
  - by intros ?%elem_of_nil.
  - destruct (save_attempt args r) as [[file'|e]|] eqn:Hr.
    + intros [->|Hin]%elem_of_cons.
      * exists r. split; [left | done].
      * destruct (IH Hin) as (r' & Hin' & Hr'). exists r'.
        split; [by right | done].
    + by intros ?%elem_of_nil.
    + intros Hin. destruct (IH Hin) as (r' & Hin' & Hr'). exists r'.
      split; [by right | done].
Qed.

Lemma save_attempt_inv (args : Args.t) (r : CrawlResult)
    (file : pystr * pystr) :
  save_attempt args r = Some (Ok file) →
  ∃ md filename,
    markdown r = Some md ∧ success r = true
    ∧ get_filename_from_url (url r) = Ok filename
    ∧ file = (saved_path args filename,
              header (url r) ++ saved_body args md).
Proof.
  unfold save_attempt.
  destruct (markdown r) as [md|]; [|done].
  destruct (success r); [|done].
  destruct (get_filename_from_url (url r)) as [filename|e]; [|done].
  unfold mbind, result_bind. intros Hfile.
  exists md, filename. repeat split. congruence.
Qed.


Lemma stream_mode_within (args : Args.t) (results : list CrawlResult) :
  prints_within is_crawl_line (stream_mode args results).
Proof.
  unfold prints_within. rewrite stream_mode_stdout.
  pose proof (stream_loop_within args results locals0) as Hloop.
  destruct (for_each (stream_body args) locals0 results) as [ol [st|e]].
  - pose proof (print_depths_within (pages_by_depth st)) as Hdepths.
    cbn [fst snd]. repeat apply Forall_app_2.
    + by repeat constructor.
    + eapply Forall_impl; [exact Hloop|]. by intros [].
    + by repeat constructor.
    + eapply Forall_impl; [exact Hdepths|]. by intros [].
    + destruct (Args.save_markdown args), (0 <? markdown_count st)%nat;
        by repeat constructor.
  - cbn [fst snd]. repeat apply Forall_app_2.
    + by repeat constructor.
    + eapply Forall_impl; [exact Hloop|]. by intros [].
    + constructor.
Qed.

Lemma batch_mode_within (args : Args.t) (results : list CrawlResult) :
  prints_within is_crawl_line (batch_mode args results).
Proof.
  unfold prints_within. rewrite batch_mode_stdout.
  pose proof (batch_loop_within args results 0) as Hloop.
  pose proof (print_depths_within (group_by_depth results)) as Hdepths.
  repeat apply Forall_app_2.
  - by repeat constructor.
  - eapply Forall_impl; [exact Hdepths|]. by intros [].
  - destruct (Args.save_markdown args); [|constructor].
    repeat apply Forall_app_2.
    + by repeat constructor.
    + eapply Forall_impl; [exact Hloop|]. by intros [].
    + destruct (for_each (batch_save_body args) 0%nat results)
        as [ob [n|e]]; cbn [snd]; [|constructor].
      destruct (0 <? n)%nat; by repeat constructor.
Qed.

Lemma report_lines (e : Exn) :
  stdout (report e).1 = [MsgError e; MsgTracebackBanner; MsgTraceback e].
Proof. done. Qed.

(** X8: [main] ends in its handler exactly when line 285 raises, which
    it does for the cache mode [refresh] and before any fetch, or when
    saving is requested and the filename derivation fails for a result to
    save; the exception is then [AttributeError], or that of the first
    such result. The three prints of the handler (the exception, the line
    [Traceback:] and the traceback) are the last lines of the output and
    its only lines of that kind. In every other run the body completes
    with the loop variables of the whole crawl and the handler prints
    nothing. The results of the crawler are given and the calls to the
    file system succeed. *)
Theorem failure_reported (args : Args.t) :
  (main_try args).2 = main_outcome args
  ∧ ∃ before,
      stdout (main args)
      = before ++ match main_outcome args with
                  | Raise e =>
                      [MsgError e; MsgTracebackBanner; MsgTraceback e]
                  | Ok _ => []
                  end
      ∧ Forall (fun m => is_error_line m = false) before.
Proof.
  destruct (main_unfold args) as (Hout & _ & _). cbv zeta in Hout.
  rewrite main_try_unfold. unfold main_outcome.
  pose proof (mode_closed (Args.stream args) args (crawl_results args))
    as (Hrun & _). cbv zeta in Hrun.
  assert (prints_within is_crawl_line
            (if Args.stream args
             then stream_mode args (crawl_results args)
             else batch_mode args (crawl_results args))) as Hcrawl.
  { destruct (Args.stream args);
      [apply stream_mode_within | apply batch_mode_within]. }
  assert (Forall (fun m => is_error_line m = false)
            (stdout (configure args).1)) as Hsetup.
  { eapply Forall_impl; [exact (configure_within args)|]. by intros []. }
  rewrite Hrun in Hout. destruct (configurable args); cbn [snd].
  - split; [done|]. eexists. split.
    + by rewrite Hout, app_assoc.
    + apply Forall_app_2; [done|].
      eapply Forall_impl; [exact Hcrawl|]. by intros [].
  - split; [done|]. by exists (stdout (configure args).1).
Qed.

End MainFacts.

(** ** The summary, the closing line and the progress lines *)

Lemma filter_without (P Q : Msg → bool) (l : list Msg) :
  Forall (fun x => P x = true) l → (∀ x, P x = true → Q x = false) →
  List.filter Q l = [].
Proof.
  intros Hl HPQ. induction Hl as [|x l Hx _ IH]; [done|].
  simpl. by rewrite (HPQ x Hx).
Qed.

(** Appending to a bucket is an insertion. *)
Lemma bucket_append_insert (d : Z) (u : pystr) (m : gmap Z (list pystr)) :
  bucket_append d u m = <[d := default [] (m !! d) ++ [u]]> m.
Proof.
  apply map_eq. intros d'. rewrite bucket_append_lookup.
  destruct (decide (d = d')) as [<-|Hne].
  - by rewrite lookup_insert_eq.
  - by rewrite lookup_insert_ne.
Qed.

Lemma bucket_total_insert (d : Z) (urls : list pystr)
    (m : gmap Z (list pystr)) :
  (bucket_total (<[d := urls]> m) + length (default [] (m !! d)))%nat
  = (length urls + bucket_total m)%nat.
Proof.
  unfold bucket_total. destruct (m !! d) as [old|] eqn:Hm.
  - rewrite <- (insert_delete_eq m d urls).
    rewrite <- (insert_delete_id m d old Hm) at 2.
    rewrite !map_to_list_insert by apply lookup_delete_eq.
    simpl. lia.
  - rewrite map_to_list_insert by done. simpl. lia.
Qed.

Lemma bucket_total_append (d : Z) (u : pystr) (m : gmap Z (list pystr)) :
  bucket_total (bucket_append d u m) = S (bucket_total m).
Proof.
  rewrite bucket_append_insert.
  pose proof (bucket_total_insert d (default [] (m !! d) ++ [u]) m) as Hsum.
  rewrite length_app in Hsum. simpl in Hsum. lia.
Qed.

Lemma bucket_total_group (results : list Crawl4ai.CrawlResult) :
  bucket_total (group_by_depth results) = length results.
Proof.
  unfold group_by_depth.
  assert (∀ m, bucket_total
                 (foldl (fun pages_by_depth result =>
                           bucket_append (depth_of result)
                             (Crawl4ai.url result) pages_by_depth)
                        m results)
               = (bucket_total m + length results)%nat) as Hfold.
  { induction results as [|r results IH]; intros m; simpl; [lia|].
    rewrite IH, bucket_total_append. lia. }
  rewrite Hfold. unfold bucket_total. by rewrite map_to_list_empty.
Qed.

(** The counts of the depth lines add up to the number of URLs. *)
Lemma depth_lines_total (m : gmap Z (list pystr)) :
  sum_list_with snd (depth_lines m) = bucket_total m.
Proof.
  unfold depth_lines, bucket_total, sorted_items.
  rewrite <- (merge_sort_Permutation depth_le (map_to_list m)) at 2.
  induction (merge_sort depth_le (map_to_list m)) as [|p l IH]; [done|].
  simpl. by rewrite IH.
Qed.

Section Summaries.
Context `{PyLib}.
Import Crawl4ai.

(** X9: when a run completes, in either mode, the count of saved pages
    is the number of files written, and the closing line follows it:
    with [--save-markdown] the run ends with [Saved ... to] when a file
    was written and with [No markdown content was saved] when none was;
    without it there is no closing line. *)
Theorem saved_count (stream : bool) (args : Args.t)
    (results : list CrawlResult) (o : Output) (st : Locals) :
  (if stream then stream_mode args results else batch_mode args results)
  = (o, Ok st) →
  markdown_count st = length (written o)
  ∧ lines_of is_closing_line o
    = (if Args.save_markdown args
       then [match written o with
             | [] => MsgNoMarkdown
             | _ :: _ => MsgSavedTo (Args.output_dir args)
             end]
       else []).
Proof.
  intros Hrun.
  pose proof (mode_closed stream args results) as (Hr & Hw & _).
  cbv zeta in Hr, Hw. rewrite Hrun in Hr, Hw. cbn [fst snd] in Hr, Hw.
  assert (markdown_count st = length (written o)) as Hcount.
  { rewrite Hw. unfold outcome in Hr.
    destruct (Args.save_markdown args);
      [destruct (save_failure args results); [done|]|];
      by injection Hr as ->. }
  split; [done|]. unfold lines_of.
  assert (stdout o
          = stdout (if stream then stream_mode args results
                    else batch_mode args results).1) as ->
    by (destruct stream; by rewrite Hrun).
  destruct stream.
  - rewrite stream_mode_stdout.
    pose proof (stream_mode_spec args results) as (Hl & _).
    cbv zeta in Hl. rewrite Hrun in Hl. cbn [snd] in Hl.
    pose proof (stream_loop_within args results locals0) as Hloop.
    destruct (for_each (stream_body args) locals0 results) as [ol rl].
    cbn [fst snd] in *. subst rl.
    rewrite !List.filter_app.
    rewrite (filter_without _ _ _ Hloop) by (by intros []).
    rewrite (filter_without _ _ _ (print_depths_within (pages_by_depth st)))
      by (by intros []).
    rewrite Hcount.
    destruct (Args.save_markdown args); [|done].
    by destruct (written o).
  - rewrite batch_mode_stdout.
    destruct (batch_loop_closed args results 0) as [_ Hb].
    pose proof (batch_mode_spec args results) as (Hm & _).
    cbv zeta in Hm. rewrite Hrun in Hm. cbn [snd] in Hm.
    pose proof (batch_loop_within args results 0) as Hloop.
    rewrite !List.filter_app.
    rewrite (filter_without _ _ _
               (print_depths_within (group_by_depth results)))
      by (by intros []).
    destruct (Args.save_markdown args); [|done].
    rewrite !List.filter_app.
    rewrite (filter_without _ _ _ Hloop) by (by intros []).
    destruct (for_each (batch_save_body args) 0%nat results) as [ob [n|e]];
      cbn [fst snd] in *; [|done].
    injection Hm as Hst. rewrite Hst in Hcount. simpl in Hcount.
    rewrite Hcount. by destruct (written o).
Qed.

(** X10: in the summary of a completed run, in either mode, the page
    counts of the depth lines add up to the total that is printed, no
    depth line reports zero pages, and the depths ascend strictly, so
    that each depth has one line. *)
Theorem depth_counts_add_up (stream : bool) (args : Args.t)
    (results : list CrawlResult) (o : Output) (st : Locals) :
  (if stream then stream_mode args results else batch_mode args results)
  = (o, Ok st) →
  reported_totals o = [sum_list_with snd (reported_depths o)]
  ∧ Forall (fun p : Z * nat => (0 < p.2)%nat) (reported_depths o)
  ∧ StronglySorted (fun p q : Z * nat => p.1 < q.1) (reported_depths o).
Proof.
  intros Hrun.
  apply mode_returns_inv in Hrun as (_ & _ & _ & -> & ->).
  rewrite depth_lines_total, bucket_total_group. split; [done|].
  split; [|apply depth_lines_ascending].
  apply Forall_forall. intros [d n] Hin.
  apply depth_lines_elem in Hin as [Hne ->]. simpl.
  destruct (at_depth d results); [done|]. simpl. lia.
Qed.

(** X11: batch mode prints its summary before it saves anything, so the
    summary is complete whatever happens while saving; streaming mode
    prints the summary after its loop, so a failing filename derivation
    leaves the run without any summary line. *)
Theorem summary_and_failure (args : Args.t) (results : list CrawlResult) :
  reported_totals (batch_mode args results).1 = [length results]
  ∧ reported_depths (batch_mode args results).1
    = depth_lines (group_by_depth results)
  ∧ reported_totals (stream_mode args results).1
    = match outcome args results with
      | Ok _ => [length results]
      | Raise _ => []
      end
  ∧ reported_depths (stream_mode args results).1
    = match outcome args results with
      | Ok _ => depth_lines (group_by_depth results)
      | Raise _ => []
      end.
Proof.
  pose proof (batch_mode_spec args results) as (_ & _ & _ & Hbd & Hbt).
  pose proof (stream_mode_spec args results) as (Hl & _ & _ & Hsd & Hst).
  pose proof (mode_closed true args results) as (Hr & _).
  cbv zeta in *. rewrite Hl in Hr. rewrite Hbd, Hbt, Hsd, Hst, Hr.
  repeat split. all: unfold outcome;
    destruct (Args.save_markdown args); try destruct (save_failure _ _);
    simpl; unfold group_by_depth; f_equal; lia.
Qed.

End Summaries.

Section Progress.
Context `{PyLib}.
Import Crawl4ai.

Lemma progress_lines_cons (k : nat) (r : CrawlResult)
    (results : list CrawlResult) :
  progress_lines k (r :: results)
  = MsgProcessed (S k) (url r) (depth_of r) :: progress_lines (S k) results.
Proof.
  unfold progress_lines. rewrite imap_cons, Nat.add_0_r. f_equal.
  apply imap_ext. intros i x _. simpl. do 2 f_equal. lia.
Qed.

(** One round of the streaming loop: the progress line, then what the
    saving statements do when saving is requested. *)
Lemma stream_body_closed (args : Args.t) (st : Locals) (r : CrawlResult) :
  stream_body args st r
  = (print (MsgProcessed (S (total_pages st)) (url r) (depth_of r));;
     n ← (if Args.save_markdown args
          then batch_save_body args (markdown_count st) r
          else mret (markdown_count st));
     mret (locals_after st [r] n)).
Proof.
  destruct (Args.save_markdown args) eqn:Hsave.
  - by apply stream_body_saving.
  - unfold stream_body, locals_after. rewrite Hsave. simpl.
    replace (total_pages st + 1)%nat with (S (total_pages st)) by lia.
    by destruct (markdown r).
Qed.

(** The streaming loop prints one progress line for each result it
    reaches, numbered on from the count of the results before. *)
Lemma stream_loop_progress (args : Args.t) (results : list CrawlResult) :
  ∀ st,
    List.filter is_progress_line
      (stdout (for_each (stream_body args) st results).1)
    = progress_lines (total_pages st)
        (if Args.save_markdown args then reached args results else results).
Proof.
  induction results as [|r results IH]; intros st.
  - by destruct (Args.save_markdown args).
  - rewrite for_each_cons, stream_body_closed.
    assert (∃ o1 r1,
              (if Args.save_markdown args
               then batch_save_body args (markdown_count st) r
               else mret (markdown_count st)) = (o1, r1)
              ∧ List.filter is_progress_line (stdout o1) = []
              ∧ ((∃ n, r1 = Ok n)
                 ∧ (if Args.save_markdown args
                    then reached args (r :: results)
                    else r :: results)
                   = r :: (if Args.save_markdown args
                           then reached args results else results)
                 ∨ (∃ e, r1 = Raise e)
                   ∧ Args.save_markdown args = true
                   ∧ reached args (r :: results) = [r]))
      as (o1 & r1 & -> & Hquiet & Hcases).
    { destruct (Args.save_markdown args).
      - pose proof (batch_save_body_closed args (markdown_count st) r)
          as [_ Hr].
        pose proof (batch_save_body_within args (markdown_count st) r)
          as Hlines.
        destruct (batch_save_body args (markdown_count st) r) as [o1 r1].
        exists o1, r1. split; [done|]. split.
        { apply (filter_without _ _ _ Hlines). by intros []. }
        cbn [snd] in Hr. subst r1. cbn [reached].
        destruct (save_attempt args r) as [[file|e]|]; eauto 6.
      - exists silent, (Ok (markdown_count st)). eauto 8. }
    destruct Hcases as [([n ->] & ->) | ([e ->] & Hsave & Hreached)].
    + specialize (IH (locals_after st [r] n)).
      unfold mbind, M_bind, print, mret, M_ret in *.
      destruct (for_each (stream_body args) (locals_after st [r] n) results)
        as [o2 r2]. cbn [fst snd stdout out_app silent] in *.
      rewrite progress_lines_cons, !List.filter_app, Hquiet, IH.
      simpl. do 2 f_equal. lia.
    + rewrite Hsave, Hreached, progress_lines_cons.
      unfold mbind, M_bind, print. cbn [fst snd stdout out_app].
      rewrite List.filter_app, Hquiet. done.
Qed.

(** X12: streaming mode prints one progress line for each result it
    reaches, successful or not, numbered from 1 in the order of arrival
    and carrying the result's URL and depth; with [--save-markdown] the
    lines stop with the first result whose filename derivation fails.
    Batch mode prints no progress line. *)
Theorem progress_numbered (args : Args.t) (results : list CrawlResult) :
  lines_of is_progress_line (stream_mode args results).1
  = progress_lines 0
      (if Args.save_markdown args then reached args results else results)
  ∧ lines_of is_progress_line (batch_mode args results).1 = [].
Proof.
  unfold lines_of. split.
  - rewrite stream_mode_stdout, !List.filter_app.
    rewrite (stream_loop_progress args results locals0).
    change (total_pages locals0) with 0%nat.
    set (shown := progress_lines 0 _).
    destruct (for_each (stream_body args) locals0 results) as [ol [st|e]];
      cbn [fst snd]; [|simpl; by rewrite app_nil_r].
    rewrite !List.filter_app.
    rewrite (filter_without _ _ _ (print_depths_within (pages_by_depth st)))
      by (by intros []).
    destruct (Args.save_markdown args), (0 <? markdown_count st)%nat;
      simpl; by rewrite app_nil_r.
  - rewrite batch_mode_stdout, !List.filter_app.
    rewrite (filter_without _ _ _
               (print_depths_within (group_by_depth results)))
      by (by intros []).
    destruct (Args.save_markdown args); [|done].
    rewrite !List.filter_app.
    rewrite (filter_without _ _ _ (batch_loop_within args results 0))
      by (by intros []).
    destruct (for_each (batch_save_body args) 0%nat results) as [ob [n|e]];
      cbn [snd]; [|done].
    by destruct (0 <? n)%nat.
Qed.

End Progress.

(** ** Options of features that are not in use *)

Section Unused.
Context `{PyLib} `{Crawler}.
Import Crawl4ai.

Lemma build_markdown_options_effective (args : Args.t) :
  Args.save_markdown args = true →
  build_markdown_options (effective args) = build_markdown_options args.
Proof.
  intros Hsave. unfold build_markdown_options, effective. cbn.
  rewrite Hsave. cbn.
  destruct (0 <? Args.body_width args) eqn:Hwidth; [by rewrite Hwidth|].
  done.
Qed.

Lemma build_content_filter_effective (args : Args.t) :
  build_content_filter (effective args) = build_content_filter args.
Proof.
  unfold build_content_filter, effective. cbn.
  by destruct (Args.content_filter args) as [[]|].
Qed.

Lemma configure_effective (args : Args.t) :
  configure (effective args) = configure args.
Proof.
  unfold configure. rewrite build_content_filter_effective.
  destruct (Args.save_markdown args) eqn:Hsave.
  - rewrite (build_markdown_options_effective args Hsave).
    unfold effective. cbn. rewrite Hsave.
    by destruct (Args.enable_rate_limiter args), (Args.dispatcher args).
  - unfold effective. cbn. rewrite Hsave.
    by destruct (Args.enable_rate_limiter args), (Args.dispatcher args).
Qed.

(** X13: the options of a feature that is not in use do not influence
    the run: [main] prints, writes and creates the same on a command line
    and on the one in which the parameters of the content filters that
    are not selected, the markdown options without [--save-markdown], a
    body width that is not positive, the rate-limit delays and retries
    without [--enable-rate-limiter] and the memory settings with the
    semaphore dispatcher are replaced by fixed values; the crawler is
    called with the same configuration and dispatcher. *)
Theorem unused_options_ignored (args : Args.t) :
  configure (effective args) = configure args
  ∧ crawl_results (effective args) = crawl_results args
  ∧ main (effective args) = main args.
Proof.
  pose proof (configure_effective args) as Hconf.
  assert (main_try (effective args) = main_try args) as Htry.
  { unfold main_try. by rewrite Hconf. }
  split; [done|]. split.
  - unfold crawl_results. by rewrite Hconf.
  - unfold main. by rewrite Htry.
Qed.

End Unused.

(** ** Instances on a crawl of one page *)


Lemma saved_count_witness :
  let args :=
    Example.command_line (lit "https://example.com") 2 None None true
      false in
  let o := (@batch_mode Example.ascii_pylib args [Example.docs_page]).1 in
  markdown_count (locals_after locals0 [Example.docs_page] 1)
  = length (written o)
  ∧ lines_of is_closing_line o
    = (if Args.save_markdown args
       then [match written o with
             | [] => MsgNoMarkdown
             | _ :: _ => MsgSavedTo (Args.output_dir args)
             end]
       else []).
Proof.
  intros args o.
  apply (@saved_count Example.ascii_pylib false args [Example.docs_page] o
           (locals_after locals0 [Example.docs_page] 1)).
  vm_compute. reflexivity.
Defined.

Lemma depth_counts_add_up_witness :
  let args :=
    Example.command_line (lit "https://example.com") 2 None None false
      true in
  let o :=
    (@stream_mode Example.ascii_pylib args
       [Example.docs_page; Example.failed_docs_page]).1 in
  reported_totals o = [sum_list_with snd (reported_depths o)]
  ∧ Forall (fun p : Z * nat => (0 < p.2)%nat) (reported_depths o)
  ∧ StronglySorted (fun p q : Z * nat => p.1 < q.1) (reported_depths o).
Proof.
  intros args o.
  apply (@depth_counts_add_up Example.ascii_pylib true args
           [Example.docs_page; Example.failed_docs_page] o
           (locals_after locals0
              [Example.docs_page; Example.failed_docs_page] 0)).
  vm_compute. reflexivity.
Defined.

(** * The cookie-consent script *)

Module StripFacts.
Import StripCookieConsent.

(** ** Searching *)

Lemma startswith_spec (prefix s : pystr) :
  startswith prefix s = true ↔ ∃ rest, s = prefix ++ rest.
Proof.
  revert s. induction prefix as [|a prefix IH]; intros s.
  - split; [by exists s | done].
  - destruct s as [|b s]; simpl.
    + split; [done | by intros [rest ?]].
    + rewrite andb_true_iff, N.eqb_eq, IH. split.
      * intros [-> [rest ->]]. by exists rest.
      * intros [rest [= -> ->]]. split; [done | by exists rest].
Qed.

(** A string that starts with [pre ++ sub ++ post] holds [sub] after
    [pre]. *)
Lemma startswith_inside (pre sub post s : pystr) :
  startswith (pre ++ sub ++ post) s = true →
  startswith sub (drop (length pre) s) = true.
Proof.
  intros [rest ->]%startswith_spec. apply startswith_spec.
  exists (post ++ rest). rewrite <- !app_assoc. by rewrite drop_app_length.
Qed.

(** [find] gives the first place at which the string occurs, or [-1]
    when there is none. *)
Lemma find_spec (sub s : pystr) :
  (find sub s = -1 ∧ ∀ k, startswith sub (drop k s) = false)
  ∨ (∃ k : nat,
       find sub s = Z.of_nat k ∧ (k ≤ length s)%nat
       ∧ startswith sub (drop k s) = true
       ∧ ∀ j, (j < k)%nat → startswith sub (drop j s) = false).
Proof.
  induction s as [|c s IH]; cbn [find].
  - destruct (startswith sub []) eqn:Hhere.
    + right. exists 0%nat. repeat split; [done..|lia].
    + left. split; [done|]. intros k. by rewrite drop_nil.
  - destruct (startswith sub (c :: s)) eqn:Hhere.
    + right. exists 0%nat. repeat split; [simpl; lia | done | lia].
    + destruct IH as [[-> Hnone] | (k & -> & Hk & Hat & Hbefore)].
      * left. split; [done|]. intros [|k]; [done | apply Hnone].
      * right. exists (S k).
        replace (Z.of_nat k =? -1) with false by (symmetry; lia).
        repeat split; [lia | simpl; lia | done |].
        intros [|j] Hj; [done|]. apply Hbefore. lia.
Qed.

Lemma find_from_spec (sub s : pystr) (start : Z) :
  (find_from sub s start = -1
   ∧ (Z.of_nat (length s) < start
      ∨ ∀ k, startswith sub (drop (slice_index s start + k) s) = false))
  ∨ (∃ k : nat,
       (Z.of_nat (length s) <? start) = false
       ∧ find_from sub s start = Z.of_nat (slice_index s start + k)
       ∧ (slice_index s start + k ≤ length s)%nat
       ∧ startswith sub (drop (slice_index s start + k) s) = true
       ∧ ∀ j, (j < k)%nat →
              startswith sub (drop (slice_index s start + j) s) = false).
Proof.
  unfold find_from.
  destruct (Z.of_nat (length s) <? start) eqn:Hguard.
  { left. split; [done|]. left. lia. }
  cbv zeta.
  assert (slice_index s start ≤ length s)%nat as Hb.
  { unfold slice_index. destruct (start <? 0) eqn:Hneg; lia. }
  set (b := slice_index s start) in *.
  destruct (find_spec sub (drop b s))
    as [[-> Hnone] | (k & -> & Hk & Hat & Hbefore)].
  - left. split; [done|]. right. intros k.
    rewrite <- drop_drop. apply Hnone.
  - right. exists k.
    replace (Z.of_nat k =? -1) with false by (symmetry; lia).
    rewrite length_drop in Hk. rewrite drop_drop in Hat.
    repeat split; [lia | lia | done |].
    intros j Hj. rewrite <- drop_drop. by apply Hbefore.
Qed.

(** ** The end phrases *)

Section Phrases.
Context `{Whitespace}.

(** A phrase that holds an earlier phrase of the list is never reached:
    where it occurs, the earlier one occurs as well. *)
Lemma later_phrase_unused (content : pystr) (start : Z)
    (phrase pre post : pystr) :
  new_content content start [phrase; pre ++ phrase ++ post]
  = new_content content start [phrase].
Proof.
  cbn [new_content]. cbv zeta.
  destruct (find_from_spec phrase content start)
    as [[Hnone Hwhy] | (k & _ & -> & _)].
  - rewrite Hnone. cbn [Z.eqb negb].
    destruct (find_from_spec (pre ++ phrase ++ post) content start)
      as [[-> _] | (k & Hguard & _ & _ & Hat & _)]; [done|].
    destruct Hwhy as [Hbeyond | Habsent]; [lia|].
    apply startswith_inside in Hat. rewrite drop_drop in Hat.
    rewrite <- Nat.add_assoc in Hat. by rewrite Habsent in Hat.
  - assert ((Z.of_nat (slice_index content start + k) =? -1) = false) as ->
      by (apply Z.eqb_neq; lia).
    done.
Qed.

(** X14: the second end phrase is never used. [less targeted
    advertising] ends with [targeted advertising], so wherever it is
    found the first phrase is found too, and the first phrase alone
    decides, for every content and start, whether and where the text is
    cut. *)
Theorem second_end_phrase_unused (content : pystr) (start : Z) :
  new_content content start end_phrases
  = new_content content start [lit "targeted advertising"].
Proof.
  exact (later_phrase_unused content start (lit "targeted advertising")
           (lit "less ") []).
Qed.

End Phrases.

(** ** What is cut out *)

Lemma slice_index_nat (s : pystr) (k : nat) :
  slice_index s (Z.of_nat k) = k.
Proof.
  unfold slice_index. destruct (Z.ltb_spec (Z.of_nat k) 0); lia.
Qed.

(** The end phrase does not begin inside the start phrase. *)
Lemma end_not_in_start (rest : pystr) (j : nat) :
  (j < 12)%nat →
  startswith (lit "targeted advertising") (drop j (start_phrase ++ rest))
  = false.
Proof.
  intros Hj. do 12 (destruct j as [|j]; [reflexivity|]). lia.
Qed.

Section Cut.
Context `{Whitespace}.

Lemma length_lstrip (s : pystr) : (length (lstrip s) ≤ length s)%nat.
Proof.
  induction s as [|c s IH]; simpl; [lia|].
  destruct (isspace c); simpl; lia.
Qed.

Lemma length_rstrip (s : pystr) : (length (rstrip s) ≤ length s)%nat.
Proof.
  induction s as [|c s IH]; simpl; [lia|].
  destruct (rstrip s); [destruct (isspace c)|]; simpl in *; lia.
Qed.

(** Where the script cuts: the text before the start phrase stays, and
    so does what follows the end phrase but for one character. *)
Lemma consent_cut (content new : pystr) :
  find start_phrase content ≠ -1 →
  new_content content (find start_phrase content) end_phrases = Some new →
  ∃ before middle tail,
    content
    = before ++ start_phrase ++ middle ++ lit "targeted advertising" ++ tail
    ∧ new = rstrip before ++ lstrip (drop 1 tail)
    ∧ find start_phrase content = Z.of_nat (length before).
Proof.
  intros Hfound Hnew.
  change end_phrases
    with [lit "targeted advertising";
          lit "less " ++ lit "targeted advertising" ++ []] in Hnew.
  rewrite later_phrase_unused in Hnew.
  destruct (find_spec start_phrase content)
    as [[Hnone _] | (k & Hk & Hlen & Hat & _)]; [done|].
  rewrite Hk in Hnew. cbn [new_content] in Hnew. cbv zeta in Hnew.
  destruct (find_from_spec (lit "targeted advertising") content (Z.of_nat k))
    as [[Hnone _] | (j & _ & Hj & _ & Hjat & _)];
    [by rewrite Hnone in Hnew|].
  rewrite Hj, slice_index_nat in Hnew. rewrite slice_index_nat in Hjat.
  assert ((Z.of_nat (k + j) =? -1) = false) as Hok
    by (apply Z.eqb_neq; lia).
  rewrite Hok in Hnew. cbn [negb] in Hnew. injection Hnew as <-.
  apply startswith_spec in Hat as [rest Hrest].
  rewrite <- drop_drop, Hrest in Hjat.
  pose proof (eq_refl : length start_phrase = 12%nat) as Hstart.
  pose proof (eq_refl : length (lit "targeted advertising") = 20%nat)
    as Hend.
  destruct (decide (j < 12)%nat) as [Hin|Hafter];
    [by rewrite end_not_in_start in Hjat|].
  set (m := (j - 12)%nat).
  assert (drop j (start_phrase ++ rest) = drop m rest) as Hskip.
  { replace j with (length start_phrase + m)%nat by (unfold m; lia).
    apply drop_app_add. }
  rewrite Hskip in Hjat. apply startswith_spec in Hjat as [tail Htail].
  exists (take k content), (take m rest), tail.
  assert (take k content ++ start_phrase ++ take m rest
          ++ lit "targeted advertising" ++ tail = content) as Hcontent.
  { rewrite <- Htail, take_drop, <- Hrest. apply take_drop. }
  split; [done|]. split; [|by rewrite length_take_le].
  unfold slice_to, slice_from. rewrite slice_index_nat.
  do 2 f_equal.
  match goal with
  | |- drop (slice_index content ?z) content = _ =>
      replace z with (Z.of_nat (k + (j + 21))) by lia
  end.
  rewrite slice_index_nat, <- drop_drop, Hrest.
  replace (j + 21)%nat with (length start_phrase + (m + 21))%nat
    by (unfold m; lia).
  rewrite drop_app_add, <- drop_drop, Htail.
  replace 21%nat with (length (lit "targeted advertising") + 1)%nat by lia.
  apply drop_app_add.
Qed.

(** The new content is shorter than the old by the two phrases at
    least. *)
Lemma new_content_shorter (content new : pystr) :
  find start_phrase content ≠ -1 →
  new_content content (find start_phrase content) end_phrases = Some new →
  (length new + 32 ≤ length content)%nat.
Proof.
  intros Hfound Hnew.
  destruct (consent_cut content new Hfound Hnew)
    as (before & middle & tail & -> & -> & _).
  pose proof (length_rstrip before). pose proof (length_lstrip (drop 1 tail)).
  pose proof (eq_refl : length start_phrase = 12%nat) as Hstart.
  pose proof (eq_refl : length (lit "targeted advertising") = 20%nat)
    as Hend.
  rewrite !length_app, Hstart, Hend. rewrite length_drop in *. lia.
Qed.

(** X15: when the script rewrites a file, the content had the form
    [before ++ "By selecting" ++ middle ++ "targeted advertising" ++ tail]
    with the start phrase first occurring after [before]; the new content
    is [before] without its trailing whitespace followed by [tail]
    without its first character, whatever that character is, and without
    the whitespace that follows it. A [tail] that is empty is no error.
    The new content is at least 32 characters shorter. *)
Theorem consent_block_removed (content new : pystr) :
  find start_phrase content ≠ -1 →
  new_content content (find start_phrase content) end_phrases = Some new →
  ∃ before middle tail,
    content
    = before ++ start_phrase ++ middle ++ lit "targeted advertising" ++ tail
    ∧ find start_phrase content = Z.of_nat (length before)
    ∧ new = rstrip before ++ lstrip (drop 1 tail)
    ∧ (length new + 32 ≤ length content)%nat.
Proof.
  intros Hfound Hnew.
  pose proof (new_content_shorter content new Hfound Hnew) as Hshorter.
  destruct (consent_cut content new Hfound Hnew)
    as (before & middle & tail & Hcontent & Hcut & Hindex).
  by exists before, middle, tail.
Qed.

End Cut.

(** ** The loop over the directory *)

Section Loop.
Context `{Whitespace}.

Lemma process_skips (st : State) (filename : pystr) :
  endswith (lit ".md") filename = false → process st filename = st.
Proof. intros Hmd. unfold process. by rewrite Hmd. Qed.

(** A markdown file gets one line, and the counter that goes with the
    line is the one that is incremented. *)
Lemma process_step (st : State) (filename : pystr) :
  endswith (lit ".md") filename = true →
  ∃ line,
    printed (process st filename) = printed st ++ [line]
    ∧ line_filename line = Some filename
    ∧ processed_count (process st filename)
      = (processed_count st + if is_processed line then 1 else 0)%nat
    ∧ failed_count (process st filename)
      = (failed_count st + if is_failed line then 1 else 0)%nat.
Proof.
  intros Hmd. unfold process. rewrite Hmd. cbv zeta.
  unfold mbind, attempt_bind.
  destruct (open_read (files st) (os_path_join output_dir filename))
    as [content|e];
    [|eexists; split; [reflexivity|]; split; [reflexivity|]; simpl; lia].
  destruct (negb (find start_phrase content =? -1));
    [|eexists; split; [reflexivity|]; split; [reflexivity|]; simpl; lia].
  destruct (new_content content (find start_phrase content) end_phrases)
    as [new|];
    [|eexists; split; [reflexivity|]; split; [reflexivity|]; simpl; lia].
  destruct (open_write (files st) (os_path_join output_dir filename) new);
    eexists; (split; [reflexivity|]); (split; [reflexivity|]); simpl; lia.
Qed.



Lemma loop_accounts (entries : list pystr) :
  ∀ st,
    ∃ body,
      printed (foldl process st entries) = printed st ++ body
      ∧ omap line_filename body
        = List.filter (endswith (lit ".md")) entries
      ∧ processed_count (foldl process st entries)
        = (processed_count st
           + length (List.filter is_processed body))%nat
      ∧ failed_count (foldl process st entries)
        = (failed_count st + length (List.filter is_failed body))%nat.
Proof.
  induction entries as [|filename entries IH]; intros st.
  - exists []. simpl. rewrite app_nil_r. repeat split; lia.
  - cbn [foldl List.filter].
    destruct (IH (process st filename)) as (body & -> & Hnames & -> & ->).
    destruct (endswith (lit ".md") filename) eqn:Hmd.
    + destruct (process_step st filename Hmd)
        as (line & -> & Hline & -> & ->).
      exists (line :: body). rewrite <- app_assoc. split; [done|].
      cbn [omap list_omap List.filter]. rewrite Hline, Hnames.
      split; [done|].
      destruct (is_processed line), (is_failed line); simpl; lia.
    + rewrite (process_skips st filename Hmd). by exists body.
Qed.

(** X16: the script prints one line for each entry of the directory
    whose name ends in [.md], in the order of the listing, and none for
    any other entry; the summary is the last line, and its two counts are
    the number of lines that report a processed file and the number of
    lines that report a missing end phrase or an exception. *)
Theorem every_markdown_file_accounted (fs : FileSystem)
    (entries : list pystr) :
  ∃ st body,
    script fs (Done entries) = Done st
    ∧ printed st
      = body ++ [LineSummary (processed_count st) (failed_count st)]
    ∧ omap line_filename body = List.filter (endswith (lit ".md")) entries
    ∧ processed_count st = length (List.filter is_processed body)
    ∧ failed_count st = length (List.filter is_failed body).
Proof.
  unfold script, loop. cbn [mbind attempt_bind].
  set (st0 := {| files := fs; printed := []; processed_count := 0;
                 failed_count := 0 |}).
  destruct (loop_accounts entries st0) as (body & Hbody & Hnames & Hp & Hf).
  eexists _, body. split; [reflexivity|]. cbn [printed processed_count
    failed_count]. rewrite Hbody, Hp, Hf. done.
Qed.


End Loop.

End StripFacts.

(** A consent text between an introduction and the rest of a page. *)
Lemma consent_block_removed_witness :
  let content :=
    lit "Intro By selecting OK you allow targeted advertising. Next" in
  ∃ before middle tail,
    content
    = before ++ StripCookieConsent.start_phrase ++ middle
      ++ lit "targeted advertising" ++ tail
    ∧ StripCookieConsent.find StripCookieConsent.start_phrase content
      = Z.of_nat (length before)
    ∧ lit "IntroNext"
      = @StripCookieConsent.rstrip StripCookieConsent.ascii_space before
        ++ @StripCookieConsent.lstrip StripCookieConsent.ascii_space
             (drop 1 tail)
    ∧ (length (lit "IntroNext") + 32 ≤ length content)%nat.
Proof.
  intros content.
  apply (@StripFacts.consent_block_removed StripCookieConsent.ascii_space
           content (lit "IntroNext")).
  - vm_compute. discriminate.
  - vm_compute. reflexivity.
Defined.

(** ** The URLs listed in the summary *)

Lemma print_urls_stdout (urls : list pystr) :
  for_each (fun _ url => print (MsgUrl url)) tt urls
  = ({| stdout := map MsgUrl urls; written := []; made_dirs := [] |}, Ok tt).
Proof.
  induction urls as [|u urls IH]; [done|].
  rewrite for_each_cons. unfold mbind, M_bind, print at 1. by rewrite IH.
Qed.

Lemma print_depths_stdout (m : gmap Z (list pystr)) :
  stdout (print_depths m).1
  = flat_map (fun p => depth_block p.1 p.2) (sorted_items m).
Proof.
  unfold print_depths.
  assert (∀ groups : list (Z * list pystr),
            for_each
              (fun _ '(depth, urls) =>
                 print (MsgDepth depth (length urls));;
                 for_each (fun _ url => print (MsgUrl url)) tt
                   (take 5 urls);;
                 when (5 <? length urls)%nat
                   (print (MsgMore (length urls - 5))))
              tt groups
            = ({| stdout := flat_map (fun p => depth_block p.1 p.2) groups;
                  written := []; made_dirs := [] |}, Ok tt)) as Hloop.
  { induction groups as [|[d urls] groups IH]; [done|].
    assert ((print (MsgDepth d (length urls));;
             for_each (fun _ url => print (MsgUrl url)) tt (take 5 urls);;
             when (5 <? length urls)%nat
               (print (MsgMore (length urls - 5))))
            = ({| stdout := depth_block d urls; written := [];
                  made_dirs := [] |}, Ok tt)) as Hbody.
    { rewrite print_urls_stdout.
      unfold mbind, M_bind, print, when, depth_block, out_app.
      destruct (5 <? length urls)%nat; simpl; by rewrite ?app_nil_r. }
    rewrite for_each_cons. lazy beta iota.
    rewrite (bind_ok _ _ _ _ Hbody), IH. done. }
  by rewrite Hloop.
Qed.

Lemma sorted_items_ascending (m : gmap Z (list pystr)) :
  StronglySorted (fun p q : Z * list pystr => p.1 < q.1) (sorted_items m).
Proof.
  assert (NoDup (sorted_items m).*1) as Hnodup.
  { unfold sorted_items. rewrite merge_sort_Permutation.
    apply NoDup_fst_map_to_list. }
  assert (StronglySorted depth_le (sorted_items m)) as Hsorted.
  { apply StronglySorted_merge_sort; apply _. }
  induction Hsorted as [|p l Hl IH Hp]; [constructor|].
  apply NoDup_cons in Hnodup as [Hnotin Hnodup].
  constructor; [by apply IH|].
  apply Forall_forall. intros q Hq.
  pose proof (proj1 (Forall_forall _ _) Hp q Hq) as Hle.
  unfold depth_le in Hle.
  assert (p.1 ≠ q.1); [|lia].
  intros Heq. apply Hnotin. rewrite Heq.
  apply list_elem_of_fmap. by exists q.
Qed.

Lemma filter_all (P : Msg → bool) (l : list Msg) :
  Forall (fun x => P x = true) l → List.filter P l = l.
Proof.
  induction 1 as [|x l Hx _ IH]; [done|]. simpl. by rewrite Hx, IH.
Qed.

Section Listing.
Context `{PyLib}.
Import Crawl4ai.

(** X18: in the summary of a completed run, in either mode, the depths
    that have a result come in strictly ascending order, and each has its
    count line followed by the URLs of its first five results, in the
    order of the crawl, and, when it has more than five, by one line with
    the number of the remaining ones; the summary has no other depth, URL
    or remainder line. *)
Theorem summary_lists_first_urls (stream : bool) (args : Args.t)
    (results : list CrawlResult) (o : Output) (st : Locals) :
  (if stream then stream_mode args results else batch_mode args results)
  = (o, Ok st) →
  ∃ groups,
    lines_of is_depth_line o
    = flat_map (fun p => depth_block p.1 p.2) groups
    ∧ StronglySorted (fun p q : Z * list pystr => p.1 < q.1) groups
    ∧ ∀ d urls, (d, urls) ∈ groups
                ↔ at_depth d results ≠ []
                  ∧ urls = map url (at_depth d results).
Proof.
  intros Hrun. exists (sorted_items (group_by_depth results)).
  split; [|split; [apply sorted_items_ascending|]].
  - pose proof (mode_returns_inv stream args results o st Hrun)
      as (_ & Hgroups & _).
    unfold lines_of.
    assert (stdout o
            = stdout (if stream then stream_mode args results
                      else batch_mode args results).1) as ->
      by (destruct stream; by rewrite Hrun).
    rewrite <- print_depths_stdout.
    pose proof (print_depths_within (group_by_depth results)) as Hall.
    destruct stream.
    + rewrite stream_mode_stdout.
      pose proof (stream_mode_spec args results) as (Hl & _).
      cbv zeta in Hl. rewrite Hrun in Hl. cbn [snd] in Hl.
      pose proof (stream_loop_within args results locals0) as Hloop.
      destruct (for_each (stream_body args) locals0 results) as [ol rl].
      cbn [fst snd] in *. subst rl. rewrite Hgroups.
      rewrite !List.filter_app.
      rewrite (filter_without _ _ _ Hloop) by (by intros []).
      rewrite (filter_all _ _ Hall).
      destruct (Args.save_markdown args), (0 <? markdown_count st)%nat;
        simpl; by rewrite app_nil_r.
    + rewrite batch_mode_stdout, !List.filter_app.
      rewrite (filter_all _ _ Hall).
      pose proof (batch_mode_spec args results) as (Hm & _).
      cbv zeta in Hm. rewrite Hrun in Hm. cbn [snd] in Hm.
      destruct (Args.save_markdown args); [|simpl; by rewrite app_nil_r].
      rewrite !List.filter_app.
      rewrite (filter_without _ _ _ (batch_loop_within args results 0))
        by (by intros []).
      destruct (for_each (batch_save_body args) 0%nat results)
        as [ob [n|e]]; cbn [fst snd] in *; [|done].
      destruct (0 <? n)%nat; simpl; by rewrite app_nil_r.
  - intros d urls. rewrite sorted_items_elem, group_by_depth_lookup.
    destruct (at_depth d results) as [|r rs].
    + split; [done | by intros [? _]].
    + split; [intros [= <-]; by split | intros [_ ->]; done].
Qed.

End Listing.

Lemma summary_lists_first_urls_witness :
  let args :=
    Example.command_line (lit "https://example.com") 2 None None false
      false in
  let results := [Example.docs_page; Example.failed_docs_page] in
  let o := (@batch_mode Example.ascii_pylib args results).1 in
  ∃ groups,
    lines_of is_depth_line o
    = flat_map (fun p => depth_block p.1 p.2) groups
    ∧ StronglySorted (fun p q : Z * list pystr => p.1 < q.1) groups
    ∧ ∀ d urls, (d, urls) ∈ groups
                ↔ at_depth d results ≠ []
                  ∧ urls = map Crawl4ai.url (at_depth d results).
Proof.
  intros args results o.
  apply (@summary_lists_first_urls Example.ascii_pylib false args results o
           (locals_after locals0 results 0)).
  vm_compute. reflexivity.
Defined.

(** ** Streaming against batch: the whole summary *)

Section WholeSummary.
Context `{PyLib}.
Import Crawl4ai.

Lemma summary_lines_of_depths (m : gmap Z (list pystr)) :
  List.filter is_summary_line (stdout (print_depths m).1)
  = stdout (print_depths m).1.
Proof.
  apply filter_all. eapply Forall_impl; [apply print_depths_within|].
  by intros [].
Qed.

(** The summary lines of a completed run, in either mode: the banner, the
    total, the lines of the depths and the closing line. *)
Lemma mode_summary_lines (stream : bool) (args : Args.t)
    (results : list CrawlResult) (o : Output) (st : Locals) :
  (if stream then stream_mode args results else batch_mode args results)
  = (o, Ok st) →
  lines_of is_summary_line o
  = [MsgResultsBanner; MsgTotal (length results)]
    ++ stdout (print_depths (group_by_depth results)).1
    ++ (if Args.save_markdown args
        then [if (0 <? markdown_count st)%nat
              then MsgSavedTo (Args.output_dir args)
              else MsgNoMarkdown]
        else []).
Proof.
  intros Hrun.
  pose proof (mode_returns_inv stream args results o st Hrun)
    as (Htotal & Hgroups & _).
  unfold lines_of.
  assert (stdout o
          = stdout (if stream then stream_mode args results
                    else batch_mode args results).1) as ->
    by (destruct stream; by rewrite Hrun).
  destruct stream.
  - rewrite stream_mode_stdout.
    pose proof (stream_mode_spec args results) as (Hl & _).
    cbv zeta in Hl. rewrite Hrun in Hl. cbn [snd] in Hl.
    pose proof (stream_loop_within args results locals0) as Hloop.
    destruct (for_each (stream_body args) locals0 results) as [ol rl].
    cbn [fst snd] in *. subst rl.
    rewrite !List.filter_app.
    rewrite (filter_without _ _ _ Hloop) by (by intros []).
    rewrite summary_lines_of_depths, Htotal, Hgroups.
    destruct (Args.save_markdown args), (0 <? markdown_count st)%nat; done.
  - rewrite batch_mode_stdout, !List.filter_app.
    rewrite summary_lines_of_depths.
    pose proof (batch_mode_spec args results) as (Hm & _).
    cbv zeta in Hm. rewrite Hrun in Hm. cbn [snd] in Hm.
    destruct (Args.save_markdown args); [|done].
    rewrite !List.filter_app.
    rewrite (filter_without _ _ _ (batch_loop_within args results 0))
      by (by intros []).
    destruct (for_each (batch_save_body args) 0%nat results)
      as [ob [n|e]]; cbn [fst snd] in *; [|done].
    injection Hm as Hst. subst st. cbn [markdown_count locals_after].
    by destruct (0 <? n)%nat.
Qed.

(** C1: on every configuration and sequence of results for which each
    filename derivation that saving needs returns, streaming mode and batch
    mode both complete, with the same loop variables (count of pages,
    count of saved pages, depth buckets), the same files written in the
    same order, and the same summary: the same banner, total, depth
    lines, URL lines, remainder lines and closing line, in the same
    order. The calls to the file system are taken to succeed, as
    everywhere in this model. *)
Theorem stream_batch_agree (args : Args.t) (results : list CrawlResult) :
  Forall (fun r => to_save args r = true →
                   is_ok (get_filename_from_url (url r)) = true) results →
  ∃ os ob st,
    stream_mode args results = (os, Ok st)
    ∧ batch_mode args results = (ob, Ok st)
    ∧ total_pages st = length results
    ∧ pages_by_depth st = group_by_depth results
    ∧ written os = written ob
    ∧ made_dirs os = made_dirs ob
    ∧ reported_depths os = reported_depths ob
    ∧ reported_totals os = reported_totals ob
    ∧ lines_of is_summary_line os = lines_of is_summary_line ob.
Proof.
  intros Hok.
  destruct (modes_complete args results Hok)
    as (os & ob & st & Hs & Hb & Htotal & Hgroups & Hw & Hd & Hrd & Hrt).
  exists os, ob, st. repeat (split; [done|]).
  by rewrite (mode_summary_lines true args results os st Hs),
    (mode_summary_lines false args results ob st Hb).
Qed.

End WholeSummary.

(** With saving on, a page whose filename cannot be derived stops the
    streaming run at its first page, before any summary, while the batch
    run has already grouped and summarised both pages. *)
Lemma stream_batch_differ :
  let results := [Example.local_page; Example.docs_page] in
  let args stream :=
    Example.command_line (lit "https://localhost") 2 None None true stream in
  reported_depths
    (@main Example.ascii_pylib (Example.replay results) (args true)) = []
  ∧ reported_totals
      (@main Example.ascii_pylib (Example.replay results) (args true)) = []
  ∧ reported_depths
      (@main Example.ascii_pylib (Example.replay results) (args false))
    = [(0, 2%nat)]
  ∧ reported_totals
      (@main Example.ascii_pylib (Example.replay results) (args false))
    = [2%nat].
Proof. repeat split; vm_compute; reflexivity. Qed.

Lemma stream_batch_agree_witness :
  let args :=
    Example.command_line (lit "https://example.com") 2 None None true true in
  ∃ os ob st,
    @stream_mode Example.ascii_pylib args [Example.docs_page] = (os, Ok st)
    ∧ @batch_mode Example.ascii_pylib args [Example.docs_page] = (ob, Ok st)
    ∧ total_pages st = 1%nat
    ∧ pages_by_depth st = group_by_depth [Example.docs_page]
    ∧ written os = written ob
    ∧ made_dirs os = made_dirs ob
    ∧ reported_depths os = reported_depths ob
    ∧ reported_totals os = reported_totals ob
    ∧ lines_of is_summary_line os = lines_of is_summary_line ob.
Proof.
  apply (@stream_batch_agree Example.ascii_pylib).
  repeat constructor.
Defined.

(** ** From the crawler to the cookie script *)

Lemma endswith_app (suffix s : pystr) :
  StripCookieConsent.endswith suffix (s ++ suffix) = true.
Proof.
  unfold StripCookieConsent.endswith. rewrite length_app.
  apply andb_true_iff. split; [apply Nat.leb_le; lia|].
  apply bool_decide_eq_true.
  replace (length s + length suffix - length suffix)%nat with (length s)
    by lia.
  apply drop_app_length.
Qed.

Section Pipeline.
Context `{PyLib} `{Crawler}.
Import Crawl4ai.

(** X19: with the output directory that the cookie script is written for
    (the default of [--output-dir]), every file that [main] writes is a
    file the script looks at: its path is the script's directory joined
    with a name that ends in [.md] and holds no slash, as the entries of
    a directory listing do. *)
Theorem saved_files_are_script_inputs (args : Args.t)
    (path content : pystr) :
  Args.output_dir args = StripCookieConsent.output_dir →
  (path, content) ∈ written (main args) →
  ∃ name,
    path = os_path_join StripCookieConsent.output_dir name
    ∧ StripCookieConsent.endswith (lit ".md") name = true
    ∧ Str.contains Str.slash name = false.
Proof.
  intros Hdir.
  destruct (main_unfold args) as (_ & -> & _).
  destruct (mode_closed (Args.stream args) args (crawl_results args))
    as (_ & -> & _).
  destruct (Args.save_markdown args); [|by intros ?%elem_of_nil].
  intros (r & _ & Hr)%saved_files_elem.
  apply save_attempt_inv in Hr as (md & filename & _ & _ & Hname & Hr).
  injection Hr as -> _.
  destruct (saved_path_shape args (url r) filename Hname)
    as (_ & _ & _ & Hplain).
  exists (filename ++ lit ".md"). unfold saved_path. rewrite Hdir.
  split; [done|]. split; [apply endswith_app | done].
Qed.

End Pipeline.

Lemma saved_files_are_script_inputs_witness :
  ∃ name,
    lit "./output/docs.md"
    = os_path_join StripCookieConsent.output_dir name
    ∧ StripCookieConsent.endswith (lit ".md") name = true
    ∧ Str.contains Str.slash name = false.
Proof.
  apply (@saved_files_are_script_inputs Example.ascii_pylib
           (Example.replay [Example.docs_page])
           (Example.command_line (lit "https://example.com") 2 None None
              true true)
           (lit "./output/docs.md")
           (header (lit "https://example.com/docs") ++ lit "Hello")).
  - reflexivity.
  - assert (written (@main Example.ascii_pylib
                       (Example.replay [Example.docs_page])
                       (Example.command_line (lit "https://example.com") 2
                          None None true true))
            = [(lit "./output/docs.md",
                header (lit "https://example.com/docs") ++ lit "Hello")])
      as -> by (vm_compute; reflexivity).
    left.
Defined.
